(** * Dividend messages of counterparty-lib (lib/messages/dividend.py)

    A shallow embedding of [initialise], [validate], [compose], [parse],
    [activate_dividend] and [activate], with the Python run-time behaviour
    they rely on: integers are unbounded ([Z]), [/] is true division into
    binary64 floats, [int()] truncates, exceptions propagate unless an
    [except] clause names them, and reading a local that was never assigned
    raises.

    Two statements of the module are refused by the Python compiler
    ([continue] with no enclosing loop in [validate], and a positional
    argument after a keyword argument in [parse]).  They are read the way
    their text reads: reaching the stray [continue] ends the call abnormally,
    and the call in [parse] passes [activation] as the seventh argument. *)

From Stdlib Require Import ZArith List String Ascii Bool Lia.
From Stdlib Require Import Strings.Byte.
From Stdlib Require Import Floats.SpecFloat.
Import ListNotations.

Local Open Scope string_scope.
Local Open Scope list_scope.
Local Open Scope Z_scope.

(** String concatenation, kept apart from list append. *)
Infix "+++" := String.append (at level 60, right associativity).

(** ** Python run-time values *)

Module Py.

(** The exceptions the module can meet.  [StructError] is [struct.error];
    the group after it are [counterpartylib.lib.exceptions];
    [OperationalError] is the database library's error for a statement it
    cannot prepare, with SQLite's message. *)
Inductive exn : Type :=
| TypeError
| ValueError
| ZeroDivisionError
| OverflowError
| NameError (name : string)
| UnboundLocalError (name : string)
| NotInLoop
| StructError
| UnpackError
| AssetNameError
| AssetIDError
| AssetError
| DebitError
| CreditError
| ComposeError (problems : list string)
| OperationalError (message : string).

Inductive outcome (A : Type) : Type :=
| Ok (a : A)
| Raise (e : exn).
Arguments Ok {A} a.
Arguments Raise {A} e.

Definition bind {A B} (m : outcome A) (k : A -> outcome B) : outcome B :=
  match m with
  | Ok a => k a
  | Raise e => Raise e
  end.

Definition fmap {A B} (f : A -> B) (m : outcome A) : outcome B :=
  bind m (fun a => Ok (f a)).

(** binary64, as CPython's [float] *)
Definition prec : Z := 53.
Definition emax : Z := 1024.

(** A number is an [int] or a [float]. *)
Inductive num : Type :=
| PyInt (n : Z)
| PyFloat (f : spec_float).

Definition isinstance_int (x : num) : bool :=
  match x with PyInt _ => true | PyFloat _ => false end.

(** [float(n)]: round to nearest, ties to even; too large raises. *)
Definition float_of_int (n : Z) : outcome spec_float :=
  match binary_normalize prec emax n 0 false with
  | S754_infinity _ => Raise OverflowError
  | f => Ok f
  end.

Definition signed_finite (n : Z) : spec_float :=
  match n with
  | Z0 => S754_zero false
  | Zpos p => S754_finite false p 0
  | Zneg p => S754_finite true p 0
  end.

(** [a / b] on two ints: the correctly rounded quotient. *)
Definition int_truediv (a b : Z) : outcome spec_float :=
  if b =? 0 then Raise ZeroDivisionError
  else match a with
       | Z0 => Ok (S754_zero (b <? 0))
       | _ => match SFdiv prec emax (signed_finite a) (signed_finite b) with
              | S754_infinity _ => Raise OverflowError
              | f => Ok f
              end
       end.

(** [f / b] with [f] a float and [b] an int: [b] is converted first. *)
Definition float_truediv (f : spec_float) (b : Z) : outcome spec_float :=
  bind (float_of_int b) (fun fb =>
  match fb with
  | S754_zero _ => Raise ZeroDivisionError
  | _ => Ok (SFdiv prec emax f fb)
  end).

Definition truediv (x : num) (b : Z) : outcome num :=
  match x with
  | PyInt a => fmap PyFloat (int_truediv a b)
  | PyFloat f => fmap PyFloat (float_truediv f b)
  end.

(** [x - b] and [x * b] with [b] an int. *)
Definition sub (x : num) (b : Z) : outcome num :=
  match x with
  | PyInt a => Ok (PyInt (a - b))
  | PyFloat f => fmap (fun fb => PyFloat (SFsub prec emax f fb)) (float_of_int b)
  end.

Definition mul (x : num) (b : Z) : outcome num :=
  match x with
  | PyInt a => Ok (PyInt (a * b))
  | PyFloat f => fmap (fun fb => PyFloat (SFmul prec emax f fb)) (float_of_int b)
  end.

(** Comparison of a float with an int is exact in CPython. *)
Definition float_compare_int (f : spec_float) (n : Z) : option comparison :=
  match f with
  | S754_nan => None
  | S754_infinity s => Some (if s then Lt else Gt)
  | S754_zero _ => Some (0 ?= n)
  | S754_finite s m e =>
      let v := if s then Zneg m else Zpos m in
      if 0 <=? e then Some (v * 2 ^ e ?= n) else Some (v ?= n * 2 ^ (- e))
  end.

Definition compare_int (x : num) (n : Z) : option comparison :=
  match x with
  | PyInt a => Some (a ?= n)
  | PyFloat f => float_compare_int f n
  end.

Definition ltb (x : num) (n : Z) : bool :=
  match compare_int x n with Some Lt => true | _ => false end.
Definition leb (x : num) (n : Z) : bool :=
  match compare_int x n with Some Lt | Some Eq => true | _ => false end.
Definition gtb (x : num) (n : Z) : bool :=
  match compare_int x n with Some Gt => true | _ => false end.

(** [int(x)]: truncation towards zero. *)
Definition int_of_float (f : spec_float) : outcome Z :=
  match f with
  | S754_nan => Raise ValueError
  | S754_infinity _ => Raise OverflowError
  | S754_zero _ => Ok 0
  | S754_finite s m e =>
      let a := if 0 <=? e then Zpos m * 2 ^ e else Zpos m / 2 ^ (- e) in
      Ok (if s then - a else a)
  end.

Definition int (x : num) : outcome Z :=
  match x with
  | PyInt a => Ok a
  | PyFloat f => int_of_float f
  end.

(** A decimal literal [n / d], rounded once as the Python lexer does. *)
Definition literal (n d : Z) : spec_float :=
  SFdiv prec emax (signed_finite n) (signed_finite d).

(** Truthiness of a string or [None]. *)
Definition truthy (s : option string) : bool :=
  match s with
  | None => false
  | Some s => negb (String.eqb s "")
  end.

End Py.

Import Py.

Arguments Py.truediv : simpl never.
Arguments Py.int : simpl never.
Arguments Py.mul : simpl never.
Arguments Py.sub : simpl never.
Arguments Py.ltb : simpl never.
Arguments Py.leb : simpl never.
Arguments Py.gtb : simpl never.

Notation "x <- m ;; k" := (Py.bind m (fun x => k))
  (at level 61, m at next level, right associativity).
Notation "' pat <- m ;; k" :=
  (Py.bind m (fun x => match x with pat => k end))
  (at level 61, pat pattern, m at next level, right associativity).

(** ** The [struct] module, for the formats this file uses *)

Module Struct.

Definition bytes : Type := list byte.

Definition be_value (bs : bytes) : Z :=
  fold_left (fun acc b => acc * 256 + Z.of_N (Byte.to_N b)) bs 0.

Fixpoint be_bytes (n : nat) (v : Z) : bytes :=
  match n with
  | O => []
  | S n' =>
      be_bytes n' (v / 256) ++
      [match Byte.of_N (Z.to_N (v mod 256)) with Some b => b | None => x00 end]
  end.

(** The number of fields of a format [>QQ...Q]; other formats are not used. *)
Fixpoint count_Q (s : string) : option nat :=
  match s with
  | EmptyString => Some O
  | String c rest =>
      if Ascii.eqb c "Q"%char then option_map S (count_Q rest) else None
  end.

Definition fields (fmt : string) : option nat :=
  match fmt with
  | String c rest => if Ascii.eqb c ">"%char then count_Q rest else None
  | EmptyString => None
  end.

Fixpoint chunks (n : nat) (bs : bytes) : list Z :=
  match n with
  | O => []
  | S n' => be_value (firstn 8 bs) :: chunks n' (skipn 8 bs)
  end.

(** [struct.unpack(fmt, message)] *)
Definition unpack (fmt : string) (message : bytes) : outcome (list Z) :=
  match fields fmt with
  | None => Raise StructError
  | Some n =>
      if Nat.eqb (List.length message) (8 * n)%nat then Ok (chunks n message)
      else Raise StructError
  end.

Definition pack_field (v : option num) : outcome bytes :=
  match v with
  | Some (PyInt v) =>
      if (0 <=? v) && (v <? 2 ^ 64) then Ok (be_bytes 8 v)
      else Raise StructError
  | _ => Raise StructError
  end.

Fixpoint pack_fields (vs : list (option num)) : outcome bytes :=
  match vs with
  | [] => Ok []
  | v :: rest =>
      b <- pack_field v ;;
      bs <- pack_fields rest ;;
      Ok (b ++ bs)
  end.

(** [struct.pack(fmt, v1, ..., vk)]: the number of values is checked first.
    A value is a number or [None]; only an int in range can be packed. *)
Definition pack (fmt : string) (vs : list (option num)) : outcome bytes :=
  match fields fmt with
  | None => Raise StructError
  | Some n =>
      if Nat.eqb (List.length vs) n then pack_fields vs else Raise StructError
  end.

(** Tuple assignment [a, b = t] and friends. *)
Definition to2 (t : list Z) : outcome (Z * Z) :=
  match t with
  | [a; b] => Ok (a, b)
  | _ => Raise ValueError
  end.

Definition to4 (t : list Z) : outcome (Z * Z * Z * Z) :=
  match t with
  | [a; b; c; d] => Ok (a, b, c, d)
  | _ => Raise ValueError
  end.

End Struct.

Arguments Struct.pack : simpl never.
Arguments Struct.unpack : simpl never.

(** ** Constants of [config] and the collaborators in [util]

    Neither module is part of dividend.py: the constants and the
    collaborators are taken as parameters. *)

Module config.
Record t : Type := {
  BTC : string;
  XCP : string;
  UNIT : Z;
  MAX_INT : Z;
  DEFAULT_MULTISIG_DUST_SIZE : Z;
  MAX_ACTIVATION : Z;
  TESTNET : bool
}.
End config.

(** ** The database *)

Record issuance : Type := {
  i_tx_index : Z;
  i_asset : string;
  i_status : string;
  i_issuer : string;
  i_divisible : bool;
  i_locked : bool;
  i_quantity : Z
}.

Record balance : Type := {
  b_address : string;
  b_asset : string;
  b_quantity : Z
}.

(** A row of [dividends]; [d_activate_index] is the column added by
    [initialise], which receives [:activation]. *)
Record dividend : Type := {
  d_tx_index : Z;
  d_tx_hash : string;
  d_block_index : Z;
  d_source : string;
  d_asset : option string;
  d_dividend_asset : option string;
  d_quantity_per_unit : option Z;
  d_fee_paid : Z;
  d_status : string;
  d_activate_index : option Z
}.

Record dividend_activation : Type := {
  a_dividend_index : Z;
  a_dividend_hash : string;
  a_source : string;
  a_block_index : Z
}.

Record DB : Type := {
  issuances : list issuance;
  balances : list balance;
  dividends : list dividend;
  dividend_activations : list dividend_activation;
  warnings : list string
}.

(** An entry of [util.holders(db, asset)]. *)
Record holder : Type := {
  address : string;
  address_quantity : Z;
  escrow : option string
}.

Module util.
Record t : Type := {
  enabled : string -> bool;
  CURRENT_BLOCK_INDEX : Z;
  holders : DB -> string -> list holder;
  get_asset_name : DB -> Z -> Z -> outcome string;
  get_asset_id : DB -> string -> Z -> outcome Z;
  resolve_subasset_longname : DB -> string -> string;
  debit : DB -> string -> string -> option Z -> string -> string -> outcome DB;
  credit : DB -> string -> string -> Z -> string -> string -> outcome DB
}.
End util.

(** ** The schema *)

(** [initialise] only issues schema statements, and the [SELECT] of
    [activate] names a column that only [initialise] with scheduled
    dividends enabled adds.  The part of the database these read and write
    is modelled apart from the rows: the tables with their column names in
    order, and the indexes made by [CREATE INDEX] with the table they belong
    to.  Names are compared as SQLite compares them, without regard to ASCII
    case; [PRAGMA table_info] returns the names as stored, and Python's [in]
    compares them exactly.  A failing statement raises and ends the
    function; the statements before it have taken effect. *)
Module Sql.

Inductive result (A : Type) : Type :=
| Done (a : A)
| SQLError (message : string).
Arguments Done {A} a.
Arguments SQLError {A} message.

Definition bind {A B} (r : result A) (k : A -> result B) : result B :=
  match r with
  | Done a => k a
  | SQLError m => SQLError m
  end.

Definition fold_case (c : ascii) : ascii :=
  let n := nat_of_ascii c in
  if (Nat.leb 65 n && Nat.leb n 90)%bool then ascii_of_nat (n + 32) else c.

Fixpoint lower (s : string) : string :=
  match s with
  | EmptyString => EmptyString
  | String c rest => String (fold_case c) (lower rest)
  end.

Definition same_name (a b : string) : bool := String.eqb (lower a) (lower b).

Record table : Type := {
  t_name : string;
  t_columns : list string
}.

Record index : Type := {
  x_name : string;
  x_table : string;
  x_columns : list string
}.

Record schema : Type := {
  tables : list table;
  indexes : list index
}.

Definition empty : schema := {| tables := []; indexes := [] |}.

Definition find_table (name : string) (s : schema) : option table :=
  find (fun t => same_name (t_name t) name) (tables s).

Definition has_table (name : string) (s : schema) : bool :=
  existsb (fun t => same_name (t_name t) name) (tables s).

Definition has_index (name : string) (s : schema) : bool :=
  existsb (fun x => same_name (x_name x) name) (indexes s).

Definition has_column (column : string) (t : table) : bool :=
  existsb (fun c => same_name c column) (t_columns t).

(** [CREATE TABLE IF NOT EXISTS name (columns)]. *)
Definition create_table_if_not_exists (name : string) (columns : list string)
    (s : schema) : result schema :=
  if has_table name s then Done s
  else if has_index name s then
    SQLError ("there is already an index named " +++ name)
  else
    Done {| tables := tables s ++ [{| t_name := name; t_columns := columns |}];
            indexes := indexes s |}.

(** [CREATE INDEX IF NOT EXISTS name ON tbl (columns)].  The name is looked
    up among all indexes of the database, whatever their table. *)
Definition create_index_if_not_exists (name tbl : string) (columns : list string)
    (s : schema) : result schema :=
  match find_table tbl s with
  | None => SQLError ("no such table: main." +++ tbl)
  | Some t =>
      if has_table name s then
        SQLError ("there is already a table named " +++ name)
      else if has_index name s then Done s
      else
        match find (fun c => negb (has_column c t)) columns with
        | Some c => SQLError ("no such column: " +++ c)
        | None =>
            Done {| tables := tables s;
                    indexes := indexes s ++ [{| x_name := name;
                                                x_table := t_name t;
                                                x_columns := columns |}] |}
        end
  end.

(** [PRAGMA table_info(tbl)], the [name] of each row. *)
Definition table_info (tbl : string) (s : schema) : list string :=
  match find_table tbl s with
  | Some t => t_columns t
  | None => []
  end.

Fixpoint add_column (tbl column : string) (ts : list table) : list table :=
  match ts with
  | [] => []
  | t :: rest =>
      if same_name (t_name t) tbl then
        {| t_name := t_name t; t_columns := t_columns t ++ [column] |} :: rest
      else t :: add_column tbl column rest
  end.

(** [ALTER TABLE tbl ADD COLUMN column ...]. *)
Definition alter_table_add_column (tbl column : string) (s : schema)
    : result schema :=
  match find_table tbl s with
  | None => SQLError ("no such table: " +++ tbl)
  | Some t =>
      if has_column column t then
        SQLError ("duplicate column name: " +++ column)
      else
        Done {| tables := add_column tbl column (tables s);
                indexes := indexes s |}
  end.

(** [SELECT * FROM tbl WHERE ...], as far as preparing the statement goes:
    the table must exist, and so must the columns the condition names, which
    are looked up in the order they are written. *)
Definition select_from (tbl : string) (columns : list string) (s : schema)
    : result unit :=
  match find_table tbl s with
  | None => SQLError ("no such table: " +++ tbl)
  | Some t =>
      match find (fun c => negb (has_column c t)) columns with
      | Some c => SQLError ("no such column: " +++ c)
      | None => Done tt
      end
  end.

End Sql.

(** ** SQL queries of the module *)

Fixpoint insert_by_tx_index (r : issuance) (rows : list issuance) : list issuance :=
  match rows with
  | [] => [r]
  | r' :: rest =>
      if i_tx_index r <=? i_tx_index r' then r :: rows
      else r' :: insert_by_tx_index r rest
  end.

(** [ORDER BY tx_index ASC], rows of equal index in table order *)
Definition order_by_tx_index (rows : list issuance) : list issuance :=
  fold_right insert_by_tx_index [] rows.

(** [SELECT * FROM issuances WHERE (status = 'valid' AND asset = ?)] *)
Definition select_issuances (db : DB) (asset : string) : list issuance :=
  filter (fun r => String.eqb (i_status r) "valid" && String.eqb (i_asset r) asset)
         (issuances db).

(** [SELECT * FROM balances WHERE (address = ? AND asset = ?)] *)
Definition select_balances (db : DB) (address asset : string) : list balance :=
  filter (fun r => String.eqb (b_address r) address && String.eqb (b_asset r) asset)
         (balances db).

(** [SELECT * FROM dividends WHERE (status = ? AND activate_index < ?)];
    a NULL [activate_index] satisfies no comparison. *)
Definition select_dividends (db : DB) (status : string) (block_index : Z)
  : list dividend :=
  filter (fun r => String.eqb (d_status r) status &&
                   match d_activate_index r with
                   | Some a => a <? block_index
                   | None => false
                   end)
         (dividends db).

(** [not rows or rows[0]['quantity'] < amount] *)
Definition lacks (rows : list balance) (amount : Z) : bool :=
  match rows with
  | [] => true
  | r :: _ => b_quantity r <? amount
  end.

(** A local variable of a function body: assigned or not yet. *)
Inductive local (A : Type) : Type :=
| Unbound
| Bound (a : A).
Arguments Unbound {A}.
Arguments Bound {A} a.

Definition read {A} (name : string) (v : local A) : outcome A :=
  match v with
  | Bound a => Ok a
  | Unbound => Raise (UnboundLocalError name)
  end.

(** ** [validate] *)

Record output : Type := {
  o_address : string;
  o_address_quantity : Z;
  o_dividend_quantity : Z
}.

Record payout : Type := {
  outputs : list output;
  addresses : list string;
  dividend_total : Z
}.

Inductive examined : Type :=
| NoSuch (problems : list string)
| Examined (divisible dividend_divisible : bool) (problems : list string).

(** [if c: problems.append(msg)] *)
Definition append_if (c : bool) (msg : string) (problems : list string)
  : list string :=
  if c then problems ++ [msg] else problems.

Definition is_some {A} (o : option A) : bool :=
  match o with Some _ => true | None => false end.

Section Validate.

Variable cfg : config.t.
Variable u : util.t.

(** lines 117-128 *)
Definition basic_rules (quantity_per_unit : Z) (asset : string) (block_index : Z)
  : list string :=
  let problems := [] in
  let problems :=
    append_if (String.eqb asset (config.BTC cfg))
      ("cannot pay dividends to holders of " +++ config.BTC cfg) problems in
  let problems :=
    append_if (String.eqb asset (config.XCP cfg) &&
               (negb (317500 <=? block_index) || (320000 <=? block_index)
                || config.TESTNET cfg))
      ("cannot pay dividends to holders of " +++ config.XCP cfg) problems in
  let problems :=
    append_if (quantity_per_unit <=? 0) "non‐positive quantity per unit" problems in
  let problems :=
    append_if (config.MAX_INT cfg <? quantity_per_unit) "integer overflow" problems in
  problems.

(** lines 131-143 *)
Definition activation_rules (block_index : Z) (activation : option num)
  (problems : list string) : outcome (list string) :=
  match activation with
  | None => Ok problems
  | Some a =>
      if util.enabled u "scheduled_dividends" then
        let problems := append_if (Py.ltb a 0) "negative activation" problems in
        let problems :=
          append_if (negb (Py.isinstance_int a))
            "activation must be expressed as an integer block delta" problems in
        let problems :=
          append_if (Py.leb a block_index)
            "activation must be future block height" problems in
        lead <- Py.sub a block_index ;;
        let problems :=
          append_if (Py.ltb lead 144)
            "activation must be 144 or more blocks from now" problems in
        let problems :=
          append_if (Py.gtb a (config.MAX_ACTIVATION cfg))
            "activation overflow" problems in
        Ok problems
      else Ok (problems ++ ["scheduled dividends are not enabled"])
  end.

(** lines 146-175; [issuances[-1]] is [last issuances first] *)
Definition examine_assets (db : DB) (source asset dividend_asset : string)
  (block_index : Z) (activation : option num) (problems : list string)
  : examined :=
  let issuances := order_by_tx_index (select_issuances db asset) in
  match issuances with
  | [] => NoSuch (problems ++ ["no such asset, " +++ asset +++ "."])
  | first :: _ =>
      let divisible := i_divisible first in
      let problems :=
        append_if (((320000 <=? block_index) || config.TESTNET cfg) &&
                   negb (String.eqb (i_issuer (last issuances first)) source))
          "only issuer can pay dividends" problems in
      let problems :=
        append_if (is_some activation && negb (i_locked (last issuances first)))
          "asset and dividend_asset must be locked" problems in
      if String.eqb dividend_asset (config.BTC cfg)
         || String.eqb dividend_asset (config.XCP cfg)
      then
        let dividend_divisible := true in
        let problems :=
          append_if (is_some activation && negb (i_locked (last issuances first)))
            "asset and dividend_asset must be locked" problems in
        Examined divisible dividend_divisible problems
      else
        let issuances := select_issuances db dividend_asset in
        match issuances with
        | [] =>
            NoSuch (problems ++ ["no such dividend asset, " +++ dividend_asset +++ "."])
        | first :: _ =>
            let dividend_divisible := i_divisible first in
            let problems :=
              append_if (is_some activation && negb (i_locked (last issuances first)))
                "asset and dividend_asset must be locked" problems in
            Examined divisible dividend_divisible problems
        end
  end.

(** lines 187-189 and 204-206: the product, divided by [UNIT] once if the
    held asset is divisible and once more if the dividend asset is not *)
Definition scaled (quantity_per_unit : Z) (divisible dividend_divisible : bool)
  (amount : Z) : outcome num :=
  let dividend_quantity := PyInt (amount * quantity_per_unit) in
  dividend_quantity <-
    (if divisible then Py.truediv dividend_quantity (config.UNIT cfg)
     else Ok dividend_quantity) ;;
  dividend_quantity <-
    (if negb dividend_divisible then Py.truediv dividend_quantity (config.UNIT cfg)
     else Ok dividend_quantity) ;;
  Ok dividend_quantity.

(** [dividend_asset == config.BTC and dividend_quantity < DEFAULT_MULTISIG_DUST_SIZE] *)
Definition is_dust (dividend_asset : string) (dividend_quantity : num) : bool :=
  String.eqb dividend_asset (config.BTC cfg) &&
  Py.ltb dividend_quantity (config.DEFAULT_MULTISIG_DUST_SIZE cfg).

(** lines 184-192; the [continue] of line 190 has no loop around it *)
Definition scheduled_total (db : DB) (quantity_per_unit : Z)
  (asset dividend_asset : string) (divisible dividend_divisible : bool)
  : outcome Z :=
  let issuances := select_issuances db asset in
  let asset_issuance := fold_left Z.add (map i_quantity issuances) 0 in
  dividend_quantity <-
    scaled quantity_per_unit divisible dividend_divisible asset_issuance ;;
  if is_dust dividend_asset dividend_quantity then Raise NotInLoop
  else Py.int dividend_quantity.

(** lines 194-212 *)
Fixpoint holders_loop (source : string) (quantity_per_unit : Z)
  (dividend_asset : string) (block_index : Z)
  (divisible dividend_divisible : bool)
  (holders : list holder) (acc : payout) : outcome payout :=
  match holders with
  | [] => Ok acc
  | holder :: rest =>
      let continue :=
        holders_loop source quantity_per_unit dividend_asset block_index
          divisible dividend_divisible rest in
      if (block_index <? 294500) && negb (config.TESTNET cfg)
         && Py.truthy (escrow holder)
      then continue acc
      else
        if ((296000 <=? block_index) || config.TESTNET cfg)
           && String.eqb (address holder) source
        then continue acc
        else
          dividend_quantity <-
            scaled quantity_per_unit divisible dividend_divisible
              (address_quantity holder) ;;
          if is_dust dividend_asset dividend_quantity then continue acc
          else
            dividend_quantity <- Py.int dividend_quantity ;;
            continue
              {| outputs :=
                   outputs acc ++
                   [{| o_address := address holder;
                       o_address_quantity := address_quantity holder;
                       o_dividend_quantity := dividend_quantity |}];
                 addresses := addresses acc ++ [address holder];
                 dividend_total := dividend_total acc + dividend_quantity |}
  end.

(** lines 178-212 *)
Definition calculate (db : DB) (source : string) (quantity_per_unit : Z)
  (asset dividend_asset : string) (block_index : Z) (activation : option num)
  (divisible dividend_divisible : bool) : outcome payout :=
  let holders := util.holders u db asset in
  let start := {| outputs := []; addresses := []; dividend_total := 0 |} in
  match activation with
  | Some _ =>
      dividend_total <-
        scheduled_total db quantity_per_unit asset dividend_asset
          divisible dividend_divisible ;;
      Ok {| outputs := []; addresses := []; dividend_total := dividend_total |}
  | None =>
      holders_loop source quantity_per_unit dividend_asset block_index
        divisible dividend_divisible holders start
  end.

(** [len(set(addresses))] *)
Definition holder_count (addresses : list string) : Z :=
  Z.of_nat (List.length (nodup string_dec addresses)).

(** lines 224-228 *)
Definition fee_due (block_index : Z) (activation : option num)
  (addresses : list string) : outcome Z :=
  if (330000 <=? block_index) || config.TESTNET cfg then
    match activation with
    | Some _ =>
        x <- Py.mul (PyFloat (Py.literal 2 100)) (config.UNIT cfg) ;;
        Py.int x
    | None =>
        x <- Py.mul (PyFloat (Py.literal 2 10000)) (config.UNIT cfg) ;;
        x <- Py.mul x (holder_count addresses) ;;
        Py.int x
    end
  else Ok 0.

(** lines 221-232 *)
Definition charge_fee (db : DB) (source dividend_asset : string)
  (block_index : Z) (activation : option num) (addresses : list string)
  (problems : list string) : outcome (Z * list string) :=
  match problems with
  | [] =>
      if negb (String.eqb dividend_asset (config.BTC cfg)) then
        fee <- fee_due block_index activation addresses ;;
        if negb (fee =? 0) then
          let balances := select_balances db source (config.XCP cfg) in
          Ok (fee,
              append_if (lacks balances fee)
                ("insufficient funds (" +++ config.XCP cfg +++ ")") problems)
        else Ok (fee, problems)
      else Ok (0, problems)
  | _ => Ok (0, problems)
  end.

(** lines 234-237; [dividend_balances] was assigned on line 217 only when
    the dividend asset is not BTC *)
Definition combined_check (dividend_asset : string)
  (dividend_balances : local (list balance)) (dividend_total fee : Z)
  (problems : list string) : outcome (list string) :=
  match problems with
  | [] =>
      if String.eqb dividend_asset (config.XCP cfg) then
        let total_cost := dividend_total + fee in
        rows <- read "dividend_balances" dividend_balances ;;
        Ok (append_if (lacks rows total_cost)
              ("insufficient funds (" +++ dividend_asset +++ ")") problems)
      else Ok problems
  | _ => Ok problems
  end.

(** lines 214-244 *)
Definition settle (db : DB) (source dividend_asset : string) (block_index : Z)
  (activation : option num) (problems : list string) (p : payout)
  : outcome (option Z * option (list output) * list string * Z) :=
  let dividend_total := dividend_total p in
  let problems := append_if (dividend_total =? 0) "zero dividend" problems in
  let dividend_balances :=
    if negb (String.eqb dividend_asset (config.BTC cfg))
    then Bound (select_balances db source dividend_asset) else Unbound in
  let problems :=
    match dividend_balances with
    | Bound rows =>
        append_if (lacks rows dividend_total)
          ("insufficient funds (" +++ dividend_asset +++ ")") problems
    | Unbound => problems
    end in
  '(fee, problems) <-
    charge_fee db source dividend_asset block_index activation (addresses p)
      problems ;;
  problems <-
    combined_check dividend_asset dividend_balances dividend_total fee problems ;;
  let problems :=
    append_if ((config.MAX_INT cfg <? fee) || (config.MAX_INT cfg <? dividend_total))
      "integer overflow" problems in
  Ok (Some dividend_total, Some (outputs p), problems, fee).

Definition validate (db : DB) (source : string) (quantity_per_unit : Z)
  (asset dividend_asset : string) (block_index : Z) (activation : option num)
  : outcome (option Z * option (list output) * list string * Z) :=
  let problems := basic_rules quantity_per_unit asset block_index in
  problems <- activation_rules block_index activation problems ;;
  match examine_assets db source asset dividend_asset block_index activation
          problems with
  | NoSuch problems => Ok (None, None, problems, 0)
  | Examined divisible dividend_divisible problems =>
      p <- calculate db source quantity_per_unit asset dividend_asset
             block_index activation divisible dividend_divisible ;;
      settle db source dividend_asset block_index activation problems p
  end.

End Validate.

(** ** Module constants *)

Definition FORMAT_1 : string := ">QQ".
Definition LENGTH_1 : nat := 8 + 8.
Definition FORMAT_2 : string := ">QQQ".
Definition LENGTH_2 : nat := 8 + 8 + 8.
Definition ID : Z := 50.

(** ** Code that changes the database: state and exceptions *)

Definition M (A : Type) : Type := DB -> outcome A * DB.

Definition ret {A} (a : A) : M A := fun db => (Ok a, db).
Definition raise {A} (e : exn) : M A := fun db => (Raise e, db).
Definition lift {A} (o : outcome A) : M A := fun db => (o, db).
Definition get : M DB := fun db => (Ok db, db).
Definition put (db : DB) : M unit := fun _ => (Ok tt, db).
Definition bindM {A B} (m : M A) (k : A -> M B) : M B :=
  fun db =>
    match m db with
    | (Ok a, db') => k a db'
    | (Raise e, db') => (Raise e, db')
    end.

Notation "x <~ m ;; k" := (bindM m (fun x => k))
  (at level 61, m at next level, right associativity).
Notation "' pat <~ m ;; k" :=
  (bindM m (fun x => match x with pat => k end))
  (at level 61, pat pattern, m at next level, right associativity).
Notation "m ;;; k" := (bindM m (fun _ => k))
  (at level 61, right associativity).

(** [for x in xs: body] *)
Fixpoint for_each {A} (xs : list A) (body : A -> M unit) : M unit :=
  match xs with
  | [] => ret tt
  | x :: rest => body x ;;; for_each rest body
  end.

(** [needle in hay] on strings *)
Fixpoint contains (needle hay : string) : bool :=
  String.prefix needle hay ||
  match hay with
  | EmptyString => false
  | String _ rest => contains needle rest
  end.

(** ['; '.join(problems)] *)
Fixpoint join (sep : string) (parts : list string) : string :=
  match parts with
  | [] => ""
  | [p] => p
  | p :: rest => p +++ sep +++ join sep rest
  end.

Record transaction : Type := {
  tx_index : Z;
  tx_hash : string;
  tx_block_index : Z;
  tx_source : string
}.

(** The locals of [parse] after the [try] statement.  [quantity_per_unit],
    [asset] and [dividend_asset] are assigned together: three values on a
    successful decoding, [None] three times in the [except] clause. *)
Record unpacked : Type := {
  fields : option (Z * string * string);
  activation : local (option Z);
  status : string
}.

Section Messages.

Variable cfg : config.t.
Variable u : util.t.
Variable message_type_pack : Z -> Struct.bytes.

(** ** [compose]

    The call of [logger.info] is left out. *)

Definition compose (db : DB) (source : string) (quantity_per_unit : Z)
  (asset dividend_asset : string) (activation : option num)
  : outcome (string * list (string * Z) * option Struct.bytes) :=
  let asset := util.resolve_subasset_longname u db asset in
  let dividend_asset := util.resolve_subasset_longname u db dividend_asset in
  '(dividend_total, outputs, problems, fee) <-
    validate cfg u db source quantity_per_unit asset dividend_asset
      (util.CURRENT_BLOCK_INDEX u) None ;;
  match problems with
  | _ :: _ => Raise (ComposeError problems)
  | [] =>
      if String.eqb dividend_asset (config.BTC cfg) then
        match outputs with
        | Some outputs =>
            Ok (source,
                map (fun output => (o_address output, o_dividend_quantity output))
                    outputs,
                None)
        | None => Raise TypeError
        end
      else
        asset_id <- util.get_asset_id u db asset (util.CURRENT_BLOCK_INDEX u) ;;
        dividend_asset_id <-
          util.get_asset_id u db dividend_asset (util.CURRENT_BLOCK_INDEX u) ;;
        let data := message_type_pack ID in
        packed <-
          Struct.pack FORMAT_2
            [Some (PyInt quantity_per_unit); Some (PyInt asset_id);
             Some (PyInt dividend_asset_id); activation] ;;
        let data := data ++ packed in
        Ok (source, [], Some data)
  end.

(** ** [parse] *)

(** lines 269-280, the body of the [try] *)
Definition unpack_message (db : DB) (tx : transaction) (message : Struct.bytes)
  : outcome unpacked :=
  if ((288150 <? tx_block_index tx) || config.TESTNET cfg)
     && Nat.eqb (List.length message) LENGTH_2
  then
    t <- Struct.unpack FORMAT_2 message ;;
    '(quantity_per_unit, asset_id, dividend_asset_id, activation) <- Struct.to4 t ;;
    asset <- util.get_asset_name u db asset_id (tx_block_index tx) ;;
    dividend_asset <- util.get_asset_name u db dividend_asset_id (tx_block_index tx) ;;
    let activation := Some activation in
    Ok {| fields := Some (quantity_per_unit, asset, dividend_asset);
          activation := Bound activation;
          status := match activation with
                    | None => "valid"
                    | Some _ => "pending"
                    end |}
  else if Nat.eqb (List.length message) LENGTH_1 then
    t <- Struct.unpack FORMAT_1 message ;;
    '(quantity_per_unit, asset_id) <- Struct.to2 t ;;
    asset <- util.get_asset_name u db asset_id (tx_block_index tx) ;;
    Ok {| fields := Some (quantity_per_unit, asset, config.XCP cfg);
          activation := Unbound;
          status := "valid" |}
  else Raise UnpackError.

(** [except (exceptions.UnpackError, exceptions.AssetNameError, struct.error)] *)
Definition caught (e : exn) : bool :=
  match e with
  | UnpackError | AssetNameError | StructError => true
  | _ => false
  end.

(** lines 268-283 *)
Definition try_unpack (db : DB) (tx : transaction) (message : Struct.bytes)
  : outcome unpacked :=
  match unpack_message db tx message with
  | Ok l => Ok l
  | Raise e =>
      if caught e then
        Ok {| fields := None;
              activation := Bound None;
              status := "invalid: could not unpack" |}
      else Raise e
  end.

(** lines 285-286 *)
Definition refuse_btc (l : unpacked) : unpacked :=
  match fields l with
  | Some (_, _, dividend_asset) =>
      if String.eqb dividend_asset (config.BTC cfg) then
        {| fields := fields l;
           activation := activation l;
           status := "invalid: cannot pay " +++ config.BTC cfg
                     +++ " dividends within protocol" |}
      else l
  | None => l
  end.

(** What [parse] holds after line 293. *)
Record validated : Type := {
  v_quantity_per_unit : option Z;
  v_asset : option string;
  v_dividend_asset : option string;
  v_activation : local (option Z);
  v_status : string;
  v_result : local (option Z * option (list output) * Z)
}.

Definition python_num (a : option Z) : option num := option_map PyInt a.

(** lines 288-293: the test is [status == 'valid' or 'pending'] *)
Definition validate_unpacked (db : DB) (tx : transaction) (l : unpacked)
  : outcome validated :=
  if String.eqb (status l) "valid" || Py.truthy (Some "pending") then
    match fields l with
    | None => Raise TypeError
    | Some (quantity_per_unit, asset, dividend_asset) =>
        let quantity_per_unit := Z.min quantity_per_unit (config.MAX_INT cfg) in
        a <- read "activation" (activation l) ;;
        '(dividend_total, outputs, problems, fee) <-
          validate cfg u db (tx_source tx) quantity_per_unit asset dividend_asset
            (tx_block_index tx) (python_num a) ;;
        Ok {| v_quantity_per_unit := Some quantity_per_unit;
              v_asset := Some asset;
              v_dividend_asset := Some dividend_asset;
              v_activation := activation l;
              v_status :=
                match problems with
                | [] => status l
                | _ => "invalid: " +++ join "; " problems
                end;
              v_result := Bound (dividend_total, outputs, fee) |}
    end
  else
    Ok {| v_quantity_per_unit := option_map (fun f => fst (fst f)) (fields l);
          v_asset := option_map (fun f => snd (fst f)) (fields l);
          v_dividend_asset := option_map snd (fields l);
          v_activation := activation l;
          v_status := status l;
          v_result := Unbound |}.

Definition call_debit (address : string) (asset : option string)
  (quantity : option Z) (action event : string) : M unit :=
  fun db =>
    match asset with
    | None => (Raise TypeError, db)
    | Some asset =>
        match util.debit u db address asset quantity action event with
        | Ok db' => (Ok tt, db')
        | Raise e => (Raise e, db)
        end
    end.

Definition call_credit (address : string) (asset : option string)
  (quantity : Z) (action event : string) : M unit :=
  fun db =>
    match asset with
    | None => (Raise TypeError, db)
    | Some asset =>
        match util.credit u db address asset quantity action event with
        | Ok db' => (Ok tt, db')
        | Raise e => (Raise e, db)
        end
    end.

(** lines 295-309 *)
Definition apply_dividend (tx : transaction) (v : validated) : M unit :=
  (if String.eqb (v_status v) "valid" then
     '(dividend_total, outputs, fee) <~ lift (read "dividend_total" (v_result v)) ;;
     call_debit (tx_source tx) (v_dividend_asset v) dividend_total
       "dividend" (tx_hash tx) ;;;
     (if (330000 <=? tx_block_index tx) || config.TESTNET cfg then
        call_debit (tx_source tx) (Some (config.XCP cfg)) (Some fee)
          "dividend fee" (tx_hash tx)
      else ret tt) ;;;
     match outputs with
     | None => raise TypeError
     | Some outputs =>
         for_each outputs (fun output =>
           call_credit (o_address output) (v_dividend_asset v)
             (o_dividend_quantity output) "dividend" (tx_hash tx))
     end
   else ret tt) ;;;
  (if String.eqb (v_status v) "pending" then
     '(dividend_total, outputs, fee) <~ lift (read "dividend_total" (v_result v)) ;;
     call_debit (tx_source tx) (v_dividend_asset v) dividend_total
       "pending dividend" (tx_hash tx) ;;;
     (if (330000 <=? tx_block_index tx) || config.TESTNET cfg then
        call_debit (tx_source tx) (Some (config.XCP cfg)) (Some fee)
          "dividend fee" (tx_hash tx)
      else ret tt)
   else ret tt).

(** lines 312-330 *)
Definition record_dividend (tx : transaction) (v : validated) : M unit :=
  '(_, _, fee) <~ lift (read "fee" (v_result v)) ;;
  a <~ lift (read "activation" (v_activation v)) ;;
  let bindings :=
    {| d_tx_index := tx_index tx;
       d_tx_hash := tx_hash tx;
       d_block_index := tx_block_index tx;
       d_source := tx_source tx;
       d_asset := v_asset v;
       d_dividend_asset := v_dividend_asset v;
       d_quantity_per_unit := v_quantity_per_unit v;
       d_fee_paid := fee;
       d_status := v_status v;
       d_activate_index := a |} in
  db <~ get ;;
  if negb (contains "integer overflow" (v_status v)) then
    put {| issuances := issuances db;
           balances := balances db;
           dividends := dividends db ++ [bindings];
           dividend_activations := dividend_activations db;
           warnings := warnings db |}
  else
    put {| issuances := issuances db;
           balances := balances db;
           dividends := dividends db;
           dividend_activations := dividend_activations db;
           warnings :=
             warnings db ++
             ["Not storing [dividend] tx [" +++ tx_hash tx +++ "]: " +++ v_status v] |}.

Definition parse (tx : transaction) (message : Struct.bytes) : M unit :=
  db <~ get ;;
  l <~ lift (try_unpack db tx message) ;;
  let l := refuse_btc l in
  v <~ lift (validate_unpacked db tx l) ;;
  apply_dividend tx v ;;;
  record_dividend tx v.

(** ** [activate_dividend] and [activate] *)

(** [update dividends set status = :status where tx_hash = :tx_hash] *)
Definition update_status (status tx_hash : string) : M unit :=
  fun db =>
    (Ok tt,
     {| issuances := issuances db;
        balances := balances db;
        dividends :=
          map (fun r =>
                 if String.eqb (d_tx_hash r) tx_hash then
                   {| d_tx_index := d_tx_index r;
                      d_tx_hash := d_tx_hash r;
                      d_block_index := d_block_index r;
                      d_source := d_source r;
                      d_asset := d_asset r;
                      d_dividend_asset := d_dividend_asset r;
                      d_quantity_per_unit := d_quantity_per_unit r;
                      d_fee_paid := d_fee_paid r;
                      d_status := status;
                      d_activate_index := d_activate_index r |}
                 else r)
              (dividends db);
        dividend_activations := dividend_activations db;
        warnings := warnings db |}).

(** [insert into dividend_activations values(...)] *)
Definition insert_activation (row : dividend_activation) : M unit :=
  fun db =>
    (Ok tt,
     {| issuances := issuances db;
        balances := balances db;
        dividends := dividends db;
        dividend_activations := dividend_activations db ++ [row];
        warnings := warnings db |}).

(** The names [log], [source] and [quantity_per_unit] are bound nowhere in
    the module: line 81 and the body of the loop raise [NameError]. *)
Definition activate_dividend (dividend : dividend) (status : string)
  (block_index : Z) : M unit :=
  update_status status (d_tx_hash dividend) ;;;
  raise (A := unit) (NameError "log") ;;;
  (if negb (match d_dividend_asset dividend with
            | Some a => String.eqb a (config.BTC cfg)
            | None => false
            end)
   then
     db <~ get ;;
     let holders :=
       match d_asset dividend with
       | Some a => util.holders u db a
       | None => []
       end in
     for_each holders (fun holder =>
       if (296000 <=? block_index) || config.TESTNET cfg
       then raise (NameError "source")
       else raise (NameError "quantity_per_unit"))
   else ret tt) ;;;
  (if String.eqb status "complete" then
     insert_activation
       {| a_dividend_index := d_tx_index dividend;
          a_dividend_hash := d_tx_hash dividend;
          a_source := d_source dividend;
          a_block_index := block_index |}
   else ret tt).

(** The database handed to [activate] is its schema and its rows.  The
    [SELECT] of line 338 names [activate_index], a column [dividends] has
    only after [initialise] has run with scheduled dividends enabled; on
    another schema the statement is refused.  In [for dividends in dividend]
    the name [dividend] is bound nowhere. *)
Definition activate (schema : Sql.schema) (block_index : Z) : M unit :=
  match Sql.select_from "dividends" ["status"; "activate_index"] schema with
  | Sql.SQLError message => raise (OperationalError message)
  | Sql.Done _ =>
      db <~ get ;;
      let dividends := select_dividends db "pending" block_index in
      iterable <~ raise (A := list dividend) (NameError "dividend") ;;
      for_each iterable (fun dividends =>
        dividend <~ raise (A := dividend) (NameError "dividend") ;;
        activate_dividend dividend "complete" block_index)
  end.

End Messages.

(** * Notions used to state the properties *)

(** ** The payout of one holder, as the loop computes it *)

(** [holder_payout] is the body of the loop for one holder, with Python's
    arithmetic: each division is a true division that rounds its quotient to
    the nearest binary64 float, the dust threshold is compared with that
    float, and [int()] truncates it.  The quotient of the specification is
    the exact one; it is [exact_payout] below, and the two differ. *)

Section PayoutRule.

Variable cfg : config.t.
Variable source : string.
Variable quantity_per_unit : Z.
Variable dividend_asset : string.
Variable block_index : Z.
Variable divisible dividend_divisible : bool.

(** (a) before height 294500 on the production network a holder under escrow
    is left out; (b) from height 296000, or on the test network, the source
    is left out of its own dividend *)
Definition excluded (h : holder) : bool :=
  ((block_index <? 294500) && negb (config.TESTNET cfg) && Py.truthy (escrow h))
  || (((296000 <=? block_index) || config.TESTNET cfg)
      && String.eqb (address h) source).

(** (c) balance times quantity per unit, an integer; (d) [/= UNIT] if the
    held asset is divisible; (e) [/= UNIT] again if the dividend asset is
    not; (f) no payout at all when paying BTC and the float is below the dust
    threshold; (g) [int()] of the float *)
Definition holder_payout (h : holder) : outcome (option Z) :=
  let raw := PyInt (address_quantity h * quantity_per_unit) in
  once <- (if divisible then Py.truediv raw (config.UNIT cfg) else Ok raw) ;;
  twice <- (if dividend_divisible then Ok once
            else Py.truediv once (config.UNIT cfg)) ;;
  if String.eqb dividend_asset (config.BTC cfg)
     && Py.ltb twice (config.DEFAULT_MULTISIG_DUST_SIZE cfg)
  then Ok None
  else n <- Py.int twice ;; Ok (Some n).

(** The outputs owed to a snapshot, holder by holder and in its order. *)
Inductive pays : list holder -> list output -> Prop :=
| pays_nil : pays [] []
| pays_excluded h hs os :
    excluded h = true -> pays hs os -> pays (h :: hs) os
| pays_dust h hs os :
    excluded h = false -> holder_payout h = Ok None ->
    pays hs os -> pays (h :: hs) os
| pays_out h hs os n :
    excluded h = false -> holder_payout h = Ok (Some n) ->
    pays hs os ->
    pays (h :: hs)
         ({| o_address := address h;
             o_address_quantity := address_quantity h;
             o_dividend_quantity := n |} :: os).

Definition sum_payouts (os : list output) : Z :=
  fold_right Z.add 0 (map o_dividend_quantity os).

End PayoutRule.

(** ** The payout of one holder, in the words of the specification *)

(** (c) balance times quantity per unit; (d) divided by the subunit scale if
    the held asset is divisible; (e) divided by it again if the dividend
    asset is not; (f) no payout below the dust threshold when paying BTC;
    (g) truncated.  The divisions are exact: the quotient is the rational
    [raw / scale], which is below the threshold exactly when [raw] is below
    the threshold times the (positive) scale, and whose truncation is
    [Z.quot raw scale]. *)
Definition exact_payout (cfg : config.t) (quantity_per_unit : Z)
  (dividend_asset : string) (divisible dividend_divisible : bool) (h : holder)
  : option Z :=
  let raw := address_quantity h * quantity_per_unit in
  let scale := (if divisible then config.UNIT cfg else 1)
               * (if dividend_divisible then 1 else config.UNIT cfg) in
  if String.eqb dividend_asset (config.BTC cfg)
     && (raw <? config.DEFAULT_MULTISIG_DUST_SIZE cfg * scale)
  then None
  else Some (Z.quot raw scale).

(** ** Problems, by the lines that report them *)

Definition problems_of (r : examined) : list string :=
  match r with
  | NoSuch problems => problems
  | Examined _ _ problems => problems
  end.

(** What lines 131-143 may append for an activation [a]. *)
Definition activation_problem (cfg : config.t) (u : util.t) (block_index : Z)
  (a : num) (m : string) : Prop :=
  if util.enabled u "scheduled_dividends" then
    (Py.ltb a 0 = true /\ m = "negative activation") \/
    (Py.isinstance_int a = false /\
     m = "activation must be expressed as an integer block delta") \/
    (Py.leb a block_index = true /\ m = "activation must be future block height") \/
    ((exists lead, Py.sub a block_index = Ok lead /\ Py.ltb lead 144 = true) /\
     m = "activation must be 144 or more blocks from now") \/
    (Py.gtb a (config.MAX_ACTIVATION cfg) = true /\ m = "activation overflow")
  else m = "scheduled dividends are not enabled".

(** What lines 146-175 and lines 214-241 may append. *)
Definition examine_problem (asset dividend_asset : string) (m : string) : Prop :=
  m = "no such asset, " +++ asset +++ "." \/
  m = "only issuer can pay dividends" \/
  m = "asset and dividend_asset must be locked" \/
  m = "no such dividend asset, " +++ dividend_asset +++ ".".

Definition settle_problem (cfg : config.t) (dividend_asset : string)
  (m : string) : Prop :=
  m = "zero dividend" \/
  m = "insufficient funds (" +++ dividend_asset +++ ")" \/
  m = "insufficient funds (" +++ config.XCP cfg +++ ")" \/
  m = "integer overflow".

Definition later_problem (cfg : config.t) (asset dividend_asset : string)
  (m : string) : Prop :=
  examine_problem asset dividend_asset m \/ settle_problem cfg dividend_asset m.

Definition activation_message (m : string) : Prop :=
  m = "negative activation" \/
  m = "activation must be expressed as an integer block delta" \/
  m = "activation must be future block height" \/
  m = "activation must be 144 or more blocks from now" \/
  m = "activation overflow".

(** ** Assets and balances *)

(** The divisible flag of the held asset: that of its first valid issuance. *)
Definition held_divisible (db : DB) (asset : string) : option bool :=
  option_map i_divisible (hd_error (order_by_tx_index (select_issuances db asset))).

(** The divisible flag of the dividend asset: BTC and XCP are divisible. *)
Definition paid_divisible (cfg : config.t) (db : DB) (dividend_asset : string)
  : option bool :=
  if String.eqb dividend_asset (config.BTC cfg)
     || String.eqb dividend_asset (config.XCP cfg)
  then Some true
  else option_map i_divisible (hd_error (select_issuances db dividend_asset)).

(** The balance row of [address] in [asset] holds at least [amount]. *)
Definition covers (db : DB) (address asset : string) (amount : Z) : Prop :=
  exists r rest,
    select_balances db address asset = r :: rest /\ amount <= b_quantity r.

(** ** Signs *)

Definition float_nonneg (f : spec_float) : Prop :=
  match f with
  | S754_zero s => s = false
  | S754_finite s _ _ => s = false
  | S754_infinity s => s = false
  | S754_nan => True
  end.

Definition nonneg (x : num) : Prop :=
  match x with
  | PyInt n => 0 <= n
  | PyFloat f => float_nonneg f
  end.

(** ** A small ledger to run the code on *)

Module Ledger.

Definition mainnet : config.t :=
  {| config.BTC := "BTC";
     config.XCP := "XCP";
     config.UNIT := 100000000;
     config.MAX_INT := 2 ^ 63 - 1;
     config.DEFAULT_MULTISIG_DUST_SIZE := 7800;
     config.MAX_ACTIVATION := 10000000;
     config.TESTNET := false |}.

Definition testnet : config.t :=
  {| config.BTC := "BTC";
     config.XCP := "XCP";
     config.UNIT := 100000000;
     config.MAX_INT := 2 ^ 63 - 1;
     config.DEFAULT_MULTISIG_DUST_SIZE := 7800;
     config.MAX_ACTIVATION := 10000000;
     config.TESTNET := true |}.

(** GOLD is divisible and locked, TICKET is neither; alice issued both. *)
Definition db (alice_xcp : Z) : DB :=
  {| issuances :=
       [ {| i_tx_index := 1; i_asset := "GOLD"; i_status := "valid";
            i_issuer := "alice"; i_divisible := true; i_locked := true;
            i_quantity := 850000000 |};
         {| i_tx_index := 2; i_asset := "TICKET"; i_status := "valid";
            i_issuer := "alice"; i_divisible := false; i_locked := false;
            i_quantity := 100 |};
         {| i_tx_index := 3; i_asset := "XCP"; i_status := "valid";
            i_issuer := "burn"; i_divisible := true; i_locked := true;
            i_quantity := 1000000000000 |} ];
     balances :=
       [ {| b_address := "alice"; b_asset := "XCP"; b_quantity := alice_xcp |};
         {| b_address := "alice"; b_asset := "TICKET"; b_quantity := 40 |};
         {| b_address := "alice"; b_asset := "GOLD"; b_quantity := 500000000 |};
         {| b_address := "bob"; b_asset := "GOLD"; b_quantity := 200000000 |};
         {| b_address := "carol"; b_asset := "GOLD"; b_quantity := 150000000 |};
         {| b_address := "bob"; b_asset := "TICKET"; b_quantity := 60 |} ];
     dividends := [];
     dividend_activations := [];
     warnings := [] |}.

Definition holders_of (db : DB) (asset : string) : list holder :=
  map (fun r => {| address := b_address r;
                   address_quantity := b_quantity r;
                   escrow := None |})
      (filter (fun r => String.eqb (b_asset r) asset && negb (b_quantity r =? 0))
              (balances db)).

Definition names : list (Z * string) :=
  [(0, "BTC"); (1, "XCP"); (20000, "GOLD"); (20001, "TICKET")].

Definition asset_name (id : Z) : outcome string :=
  match find (fun p => fst p =? id) names with
  | Some p => Ok (snd p)
  | None => Raise AssetNameError
  end.

Definition asset_id (name : string) : outcome Z :=
  match find (fun p => String.eqb (snd p) name) names with
  | Some p => Ok (fst p)
  | None => Raise AssetNameError
  end.

Definition collaborators (scheduled : bool) (height : Z) : util.t :=
  {| util.enabled := fun feature =>
       String.eqb feature "scheduled_dividends" && scheduled;
     util.CURRENT_BLOCK_INDEX := height;
     util.holders := holders_of;
     util.get_asset_name := fun _ id _ => asset_name id;
     util.get_asset_id := fun _ name _ => asset_id name;
     util.resolve_subasset_longname := fun _ name => name;
     util.debit := fun db _ _ _ _ _ => Ok db;
     util.credit := fun db _ _ _ _ _ => Ok db |}.

Definition type_id (id : Z) : Struct.bytes := Struct.be_bytes 1 id.

(** What bob and carol are owed at one XCP per unit of GOLD. *)
Definition gold_outputs : list output :=
  [ {| o_address := "bob"; o_address_quantity := 200000000;
       o_dividend_quantity := 200000000 |};
    {| o_address := "carol"; o_address_quantity := 150000000;
       o_dividend_quantity := 150000000 |} ].

Definition tx (height : Z) : transaction :=
  {| tx_index := 7; tx_hash := "c0ffee"; tx_block_index := height;
     tx_source := "alice" |}.

End Ledger.

Module Whale.

(** bob holds one subunit less than 2^28 whole units of the divisible asset
    GOLD, carol holds 5000 subunits; alice issued it. *)
Definition bob : holder :=
  {| address := "bob"; address_quantity := 26843545599999999; escrow := None |}.

Definition db : DB :=
  {| issuances :=
       [ {| i_tx_index := 1; i_asset := "GOLD"; i_status := "valid";
            i_issuer := "alice"; i_divisible := true; i_locked := true;
            i_quantity := 26843546100005000 |} ];
     balances :=
       [ {| b_address := "alice"; b_asset := "GOLD"; b_quantity := 500000001 |};
         {| b_address := "bob"; b_asset := "GOLD";
            b_quantity := 26843545599999999 |};
         {| b_address := "carol"; b_asset := "GOLD"; b_quantity := 5000 |} ];
     dividends := [];
     dividend_activations := [];
     warnings := [] |}.

End Whale.

Module Scheduled.

(** A pending dividend of GOLD that activates at height 1200. *)
Definition row : dividend :=
  {| d_tx_index := 7; d_tx_hash := "c0ffee"; d_block_index := 1000;
     d_source := "alice"; d_asset := Some "GOLD";
     d_dividend_asset := Some "XCP"; d_quantity_per_unit := Some 100000000;
     d_fee_paid := 0; d_status := "pending"; d_activate_index := Some 1200 |}.

Definition db : DB :=
  {| issuances := issuances (Ledger.db 0);
     balances := balances (Ledger.db 0);
     dividends := [row];
     dividend_activations := [];
     warnings := [] |}.

End Scheduled.

(** * Further notions *)

(** [l] is [l'] with some entries left out, the order kept. *)
Inductive subsequence {A : Type} : list A -> list A -> Prop :=
| subsequence_nil : subsequence [] []
| subsequence_skip x l l' : subsequence l l' -> subsequence l (x :: l')
| subsequence_keep x l l' : subsequence l l' -> subsequence (x :: l) (x :: l').

Definition holder_entry (h : holder) : string * Z :=
  (address h, address_quantity h).

Definition output_entry (o : output) : string * Z :=
  (o_address o, o_address_quantity o).

(** Rows in ascending order of [tx_index]. *)
Fixpoint ascending (rows : list issuance) : Prop :=
  match rows with
  | [] => True
  | r :: rest =>
      (forall r', In r' rest -> i_tx_index r <= i_tx_index r') /\ ascending rest
  end.

(** What lines 146-175 report, by the rows they read. *)
Definition lock_missing (activation : option num) (rows : list issuance)
  (first : issuance) : bool :=
  is_some activation && negb (i_locked (last rows first)).

Definition examine_report (cfg : config.t) (db : DB)
  (source asset dividend_asset : string) (block_index : Z)
  (activation : option num) (m : string) : Prop :=
  match order_by_tx_index (select_issuances db asset) with
  | [] => m = "no such asset, " +++ asset +++ "."
  | first :: rest =>
      (((320000 <=? block_index) || config.TESTNET cfg) &&
       negb (String.eqb (i_issuer (last (first :: rest) first)) source) = true /\
       m = "only issuer can pay dividends") \/
      (lock_missing activation (first :: rest) first = true /\
       m = "asset and dividend_asset must be locked") \/
      (if String.eqb dividend_asset (config.BTC cfg)
          || String.eqb dividend_asset (config.XCP cfg)
       then False
       else match select_issuances db dividend_asset with
            | [] => m = "no such dividend asset, " +++ dividend_asset +++ "."
            | first' :: rest' =>
                lock_missing activation (first' :: rest') first' = true /\
                m = "asset and dividend_asset must be locked"
            end)
  end.

(** GOLD after a transfer of ownership: issued by alice, now owned by bob. *)
Module Transferred.

Definition db : DB :=
  {| issuances :=
       [ {| i_tx_index := 9; i_asset := "GOLD"; i_status := "valid";
            i_issuer := "bob"; i_divisible := true; i_locked := false;
            i_quantity := 0 |};
         {| i_tx_index := 1; i_asset := "GOLD"; i_status := "valid";
            i_issuer := "alice"; i_divisible := true; i_locked := true;
            i_quantity := 850000000 |} ];
     balances := balances (Ledger.db 1000000000000);
     dividends := [];
     dividend_activations := [];
     warnings := [] |}.

End Transferred.

(** The collaborators of [Ledger], with a holder query that answers nothing. *)
Definition without_holders (u : util.t) : util.t :=
  {| util.enabled := util.enabled u;
     util.CURRENT_BLOCK_INDEX := util.CURRENT_BLOCK_INDEX u;
     util.holders := fun _ _ => [];
     util.get_asset_name := util.get_asset_name u;
     util.get_asset_id := util.get_asset_id u;
     util.resolve_subasset_longname := util.resolve_subasset_longname u;
     util.debit := util.debit u;
     util.credit := util.credit u |}.

(** * [initialise] *)

Notation "x <-- m ;; k" := (Sql.bind m (fun x => k))
  (at level 61, m at next level, right associativity).

(** Python's [x in l] on a list of strings. *)
Definition in_list (x : string) (l : list string) : bool :=
  existsb (String.eqb x) l.

Definition initialise (u : util.t) (db : Sql.schema) : Sql.result Sql.schema :=
  db <-- Sql.create_table_if_not_exists "dividends"
           ["tx_index"; "tx_hash"; "block_index"; "source"; "asset";
            "dividend_asset"; "quantity_per_unit"; "fee_paid"; "status"] db ;;
  db <-- Sql.create_index_if_not_exists "block_index_idx" "dividends"
           ["block_index"] db ;;
  db <-- Sql.create_index_if_not_exists "source_idx" "dividends" ["source"] db ;;
  db <-- Sql.create_index_if_not_exists "asset_idx" "dividends" ["asset"] db ;;
  if util.enabled u "scheduled_dividends" then
    let columns := Sql.table_info "dividends" db in
    db <-- (if negb (in_list "activate_index" columns)
            then Sql.alter_table_add_column "dividends" "activate_index" db
            else Sql.Done db) ;;
    db <-- Sql.create_index_if_not_exists "activate_idx" "dividends"
             ["activate_index"; "status"] db ;;
    db <-- Sql.create_table_if_not_exists "dividend_activations"
             ["dividend_index"; "dividend_hash"; "source"; "block_index"] db ;;
    db <-- Sql.create_index_if_not_exists "block_index_idx"
             "dividend_activations" ["block_index"] db ;;
    Sql.create_index_if_not_exists "source_idx" "dividend_activations"
      ["source"] db
  else Sql.Done db.

(** The columns of [dividends] as its [CREATE TABLE] statement lists them. *)
Definition dividends_columns : list string :=
  ["tx_index"; "tx_hash"; "block_index"; "source"; "asset";
   "dividend_asset"; "quantity_per_unit"; "fee_paid"; "status"].

(** The state [initialise] aims at: the table and the indexes of its
    statements are there, under names no table bears. *)
Definition settled (scheduled : bool) (db : Sql.schema) : Prop :=
  Sql.has_table "dividends" db = true /\
  (Sql.has_table "block_index_idx" db = false /\
   Sql.has_index "block_index_idx" db = true) /\
  (Sql.has_table "source_idx" db = false /\
   Sql.has_index "source_idx" db = true) /\
  (Sql.has_table "asset_idx" db = false /\
   Sql.has_index "asset_idx" db = true) /\
  (scheduled = true ->
   in_list "activate_index" (Sql.table_info "dividends" db) = true /\
   (Sql.has_table "activate_idx" db = false /\
    Sql.has_index "activate_idx" db = true) /\
   Sql.has_table "dividend_activations" db = true).

(** Schemas used as examples: the one a first run makes from nothing, and
    a database whose [dividends] table has the column under another
    spelling. *)
Module Schema.

Definition fresh : Sql.schema :=
  {| Sql.tables :=
       [{| Sql.t_name := "dividends";
           Sql.t_columns :=
             ["tx_index"; "tx_hash"; "block_index"; "source"; "asset";
              "dividend_asset"; "quantity_per_unit"; "fee_paid"; "status";
              "activate_index"] |};
        {| Sql.t_name := "dividend_activations";
           Sql.t_columns :=
             ["dividend_index"; "dividend_hash"; "source"; "block_index"] |}];
     Sql.indexes :=
       [{| Sql.x_name := "block_index_idx"; Sql.x_table := "dividends";
           Sql.x_columns := ["block_index"] |};
        {| Sql.x_name := "source_idx"; Sql.x_table := "dividends";
           Sql.x_columns := ["source"] |};
        {| Sql.x_name := "asset_idx"; Sql.x_table := "dividends";
           Sql.x_columns := ["asset"] |};
        {| Sql.x_name := "activate_idx"; Sql.x_table := "dividends";
           Sql.x_columns := ["activate_index"; "status"] |}] |}.

(** What a first run makes from nothing while scheduled dividends are
    off. *)
Definition plain : Sql.schema :=
  {| Sql.tables :=
       [{| Sql.t_name := "dividends";
           Sql.t_columns :=
             ["tx_index"; "tx_hash"; "block_index"; "source"; "asset";
              "dividend_asset"; "quantity_per_unit"; "fee_paid"; "status"] |}];
     Sql.indexes :=
       [{| Sql.x_name := "block_index_idx"; Sql.x_table := "dividends";
           Sql.x_columns := ["block_index"] |};
        {| Sql.x_name := "source_idx"; Sql.x_table := "dividends";
           Sql.x_columns := ["source"] |};
        {| Sql.x_name := "asset_idx"; Sql.x_table := "dividends";
           Sql.x_columns := ["asset"] |}] |}.

Definition respelled_table : Sql.table :=
  {| Sql.t_name := "dividends";
     Sql.t_columns :=
       ["tx_index"; "tx_hash"; "block_index"; "source"; "asset";
        "dividend_asset"; "quantity_per_unit"; "fee_paid"; "status";
        "Activate_Index"] |}.

Definition respelled : Sql.schema :=
  {| Sql.tables := [respelled_table]; Sql.indexes := [] |}.

End Schema.

(** * Properties *)

(** ** The loop of [validate] and the payout rule *)

Section PayoutLoop.

Variable cfg : config.t.
Variable source : string.
Variable quantity_per_unit : Z.
Variable dividend_asset : string.
Variable block_index : Z.
Variable divisible dividend_divisible : bool.

Local Abbreviation loop :=
  (holders_loop cfg source quantity_per_unit dividend_asset block_index
     divisible dividend_divisible).
Local Abbreviation owed :=
  (holder_payout cfg quantity_per_unit dividend_asset divisible
     dividend_divisible).
Local Abbreviation left_out := (excluded cfg source block_index).
Local Abbreviation rule :=
  (pays cfg source quantity_per_unit dividend_asset block_index divisible
     dividend_divisible).

Lemma sum_payouts_app os os' :
  sum_payouts (os ++ os') = sum_payouts os + sum_payouts os'.
Proof.
  unfold sum_payouts. induction os as [|o os IH]; simpl; [reflexivity|].
  rewrite IH. lia.
Qed.

(** The loop body computes [holder_payout]. *)
Lemma holder_payout_scaled h :
  owed h =
  (dq <- scaled cfg quantity_per_unit divisible dividend_divisible
           (address_quantity h) ;;
   if is_dust cfg dividend_asset dq then Ok None
   else n <- Py.int dq ;; Ok (Some n)).
Proof.
  unfold holder_payout, scaled, is_dust.
  destruct divisible, dividend_divisible; simpl;
    repeat match goal with
           | |- context [Py.truediv ?x ?y] => destruct (Py.truediv x y); simpl
           end; reflexivity.
Qed.

Lemma holders_loop_unfold h hs acc :
  loop (h :: hs) acc =
  if left_out h then
    loop hs acc
  else
    r <- owed h ;;
    match r with
    | None =>
        loop hs acc
    | Some n =>
        loop hs
          {| outputs :=
               outputs acc ++
               [{| o_address := address h;
                   o_address_quantity := address_quantity h;
                   o_dividend_quantity := n |}];
             addresses := addresses acc ++ [address h];
             dividend_total := dividend_total acc + n |}
    end.
Proof.
  rewrite holder_payout_scaled. unfold excluded. simpl.
  destruct ((block_index <? 294500) && negb (config.TESTNET cfg)
            && Py.truthy (escrow h)); simpl; [reflexivity|].
  destruct (((296000 <=? block_index) || config.TESTNET cfg)
            && String.eqb (address h) source); simpl; [reflexivity|].
  destruct (scaled cfg quantity_per_unit divisible dividend_divisible
              (address_quantity h)) as [dq|e]; simpl; [|reflexivity].
  destruct (is_dust cfg dividend_asset dq); simpl; [reflexivity|].
  destruct (Py.int dq); reflexivity.
Qed.

(** What the loop returns is what the rule owes, appended to what it held. *)
Lemma holders_loop_pays hs : forall acc p,
  loop hs acc = Ok p ->
  exists os,
    rule hs os /\
    outputs p = outputs acc ++ os /\
    addresses p = addresses acc ++ map o_address os /\
    dividend_total p = dividend_total acc + sum_payouts os.
Proof.
  induction hs as [|h hs IH]; intros acc p.
  - simpl. intros [= <-]. exists []. rewrite !app_nil_r.
    repeat split; [constructor | unfold sum_payouts; simpl; lia].
  - rewrite holders_loop_unfold.
    destruct (left_out h) eqn:Hex.
    + intros H. destruct (IH _ _ H) as (os & Hp & Ho & Ha & Ht).
      exists os. repeat split; auto using pays_excluded.
    + destruct (owed h) as [[n|]|e] eqn:Hpay; simpl; [| |discriminate].
      * intros H. destruct (IH _ _ H) as (os & Hp & Ho & Ha & Ht).
        simpl in Ho, Ha, Ht.
        exists ({| o_address := address h;
                   o_address_quantity := address_quantity h;
                   o_dividend_quantity := n |} :: os).
        repeat split.
        -- apply pays_out; assumption.
        -- rewrite Ho, <- app_assoc. reflexivity.
        -- rewrite Ha, <- app_assoc. reflexivity.
        -- rewrite Ht. unfold sum_payouts. simpl. lia.
      * intros H. destruct (IH _ _ H) as (os & Hp & Ho & Ha & Ht).
        exists os. repeat split; auto using pays_dust.
Qed.

(** Conversely the loop returns as soon as the rule owes something to each
    holder it keeps. *)
Lemma pays_holders_loop hs os :
  rule hs os ->
  forall acc,
    loop hs acc =
    Ok {| outputs := outputs acc ++ os;
          addresses := addresses acc ++ map o_address os;
          dividend_total := dividend_total acc + sum_payouts os |}.
Proof.
  induction 1 as [|h hs os Hex _ IH|h hs os Hex Hpay _ IH|h hs os n Hex Hpay _ IH];
    intros acc.
  - simpl. rewrite !app_nil_r. unfold sum_payouts. simpl.
    rewrite Z.add_0_r. destruct acc; reflexivity.
  - rewrite holders_loop_unfold, Hex. apply IH.
  - rewrite holders_loop_unfold, Hex, Hpay. simpl. apply IH.
  - rewrite holders_loop_unfold, Hex, Hpay. simpl. rewrite IH. simpl.
    rewrite <- !app_assoc. simpl. do 2 f_equal.
    unfold sum_payouts. simpl. lia.
Qed.

End PayoutLoop.


(** ** The problems [validate] collects, stage by stage *)

Lemma In_append_if m c msg ps :
  In m (append_if c msg ps) <-> In m ps \/ (c = true /\ m = msg).
Proof.
  unfold append_if. destruct c.
  - rewrite in_app_iff. simpl. intuition congruence.
  - intuition congruence.
Qed.

Lemma incl_append_if c msg ps : incl ps (append_if c msg ps).
Proof. intros m H. apply In_append_if. now left. Qed.

Section Problems.

Variable cfg : config.t.
Variable u : util.t.

Lemma In_basic_rules m quantity_per_unit asset block_index :
  In m (basic_rules cfg quantity_per_unit asset block_index) <->
  (String.eqb asset (config.BTC cfg) = true /\
   m = "cannot pay dividends to holders of " +++ config.BTC cfg) \/
  (String.eqb asset (config.XCP cfg) &&
   (negb (317500 <=? block_index) || (320000 <=? block_index)
    || config.TESTNET cfg) = true /\
   m = "cannot pay dividends to holders of " +++ config.XCP cfg) \/
  ((quantity_per_unit <=? 0) = true /\ m = "non‐positive quantity per unit") \/
  ((config.MAX_INT cfg <? quantity_per_unit) = true /\ m = "integer overflow").
Proof.
  unfold basic_rules. rewrite !In_append_if. simpl. tauto.
Qed.

Lemma In_activation_rules m block_index activation ps ps' :
  activation_rules cfg u block_index activation ps = Ok ps' ->
  (In m ps' <->
   In m ps \/
   match activation with
   | None => False
   | Some a => activation_problem cfg u block_index a m
   end).
Proof.
  unfold activation_rules, activation_problem.
  destruct activation as [a|]; [|intros [= <-]; tauto].
  destruct (util.enabled u "scheduled_dividends").
  - destruct (Py.sub a block_index) as [lead|e] eqn:Hlead; simpl; [|discriminate].
    intros [= <-]. rewrite !In_append_if, negb_true_iff.
    split.
    + intros H. decompose [or and] H; eauto 10.
    + intros H. decompose [or and ex] H; auto 10.
      match goal with H : Ok _ = Ok _ |- _ => injection H as -> end. auto 10.
  - intros [= <-]. rewrite in_app_iff. simpl. intuition congruence.
Qed.

Lemma incl_activation_rules block_index activation ps ps' :
  activation_rules cfg u block_index activation ps = Ok ps' -> incl ps ps'.
Proof.
  intros H m Hm. apply (In_activation_rules m _ _ _ _ H). now left.
Qed.

Lemma examine_assets_problems db source asset dividend_asset block_index
  activation ps :
  let ps' :=
    problems_of (examine_assets cfg db source asset dividend_asset block_index
                   activation ps) in
  incl ps ps' /\
  forall m, In m ps' -> In m ps \/ examine_problem asset dividend_asset m.
Proof.
  unfold examine_assets, examine_problem.
  destruct (order_by_tx_index (select_issuances db asset)) as [|first rest];
    simpl.
  - split; [apply incl_appl, incl_refl|].
    intros m. rewrite in_app_iff. simpl. intuition congruence.
  - destruct (String.eqb dividend_asset (config.BTC cfg)
              || String.eqb dividend_asset (config.XCP cfg)); simpl.
    + split.
      * eauto using incl_tran, incl_append_if.
      * intros m. rewrite !In_append_if. tauto.
    + destruct (select_issuances db dividend_asset) as [|first' rest']; simpl.
      * split.
        -- eapply incl_tran; [|apply incl_appl, incl_refl].
           eauto using incl_tran, incl_append_if.
        -- intros m. rewrite in_app_iff, !In_append_if. simpl.
           intuition congruence.
      * split.
        -- eauto using incl_tran, incl_append_if.
        -- intros m. rewrite !In_append_if. tauto.
Qed.

Lemma charge_fee_problems db source dividend_asset block_index activation
  addresses ps fee ps' :
  charge_fee cfg db source dividend_asset block_index activation addresses ps
  = Ok (fee, ps') ->
  incl ps ps' /\
  forall m, In m ps' ->
            In m ps \/ m = "insufficient funds (" +++ config.XCP cfg +++ ")".
Proof.
  unfold charge_fee.
  destruct ps as [|p ps]; [|intros [= <- <-]; split; [apply incl_refl|tauto]].
  destruct (negb (String.eqb dividend_asset (config.BTC cfg)));
    [|intros [= <- <-]; split; [apply incl_refl|tauto]].
  destruct (fee_due cfg block_index activation addresses) as [f|e]; simpl;
    [|discriminate].
  destruct (negb (f =? 0)); intros [= <- <-].
  - split; [apply incl_append_if|]. intros m. rewrite In_append_if. tauto.
  - split; [apply incl_refl|tauto].
Qed.

Lemma combined_check_problems dividend_asset rows total fee ps ps' :
  combined_check cfg dividend_asset rows total fee ps = Ok ps' ->
  incl ps ps' /\
  forall m, In m ps' ->
            In m ps \/ m = "insufficient funds (" +++ dividend_asset +++ ")".
Proof.
  unfold combined_check.
  destruct ps as [|p ps]; [|intros [= <-]; split; [apply incl_refl|tauto]].
  destruct (String.eqb dividend_asset (config.XCP cfg));
    [|intros [= <-]; split; [apply incl_refl|tauto]].
  destruct rows as [|rows]; simpl; [discriminate|].
  intros [= <-]. split; [apply incl_append_if|].
  intros m. rewrite In_append_if. tauto.
Qed.

Lemma settle_inv db source dividend_asset block_index activation ps p t o ps' fee :
  settle cfg db source dividend_asset block_index activation ps p
  = Ok (t, o, ps', fee) ->
  exists ps0 ps1 ps2,
    ps0 =
      (let ps := append_if (dividend_total p =? 0) "zero dividend" ps in
       if negb (String.eqb dividend_asset (config.BTC cfg)) then
         append_if (lacks (select_balances db source dividend_asset)
                      (dividend_total p))
           ("insufficient funds (" +++ dividend_asset +++ ")") ps
       else ps) /\
    charge_fee cfg db source dividend_asset block_index activation
      (addresses p) ps0 = Ok (fee, ps1) /\
    combined_check cfg dividend_asset
      (if negb (String.eqb dividend_asset (config.BTC cfg))
       then Bound (select_balances db source dividend_asset) else Unbound)
      (dividend_total p) fee ps1 = Ok ps2 /\
    ps' =
      append_if ((config.MAX_INT cfg <? fee)
                 || (config.MAX_INT cfg <? dividend_total p))
        "integer overflow" ps2 /\
    t = Some (dividend_total p) /\ o = Some (outputs p).
Proof.
  unfold settle.
  destruct (negb (String.eqb dividend_asset (config.BTC cfg))) eqn:Hbtc;
    match goal with
    | |- context [charge_fee ?a ?b ?c ?d ?e ?f ?g ?h] =>
        destruct (charge_fee a b c d e f g h) as [[fee0 ps1]|e0] eqn:Hfee;
        simpl; [|discriminate]
    end;
    match goal with
    | |- context [combined_check ?a ?b ?c ?d ?e ?f] =>
        destruct (combined_check a b c d e f) as [ps2|e0] eqn:Hcomb;
        simpl; [|discriminate]
    end;
    intros [= <- <- <- <-]; eexists; exists ps1, ps2;
    (split; [reflexivity|]); repeat split; eauto.
Qed.

Lemma settle_problems db source dividend_asset block_index activation
  ps p t o ps' fee :
  settle cfg db source dividend_asset block_index activation ps p
  = Ok (t, o, ps', fee) ->
  incl ps ps' /\
  forall m, In m ps' -> In m ps \/ settle_problem cfg dividend_asset m.
Proof.
  intros H. apply settle_inv in H.
  destruct H as (ps0 & ps1 & ps2 & -> & Hfee & Hcomb & -> & _ & _).
  apply charge_fee_problems in Hfee. destruct Hfee as [Hi1 Hf].
  apply combined_check_problems in Hcomb. destruct Hcomb as [Hi2 Hc].
  unfold settle_problem. split.
  - eapply incl_tran; [|apply incl_append_if].
    eapply incl_tran; [|exact Hi2]. eapply incl_tran; [|exact Hi1].
    destruct (negb (String.eqb dividend_asset (config.BTC cfg)));
      eauto using incl_tran, incl_append_if.
  - intros m. rewrite In_append_if. intros [Hm|[_ ->]]; [|tauto].
    destruct (Hc m Hm) as [Hm1| ->]; [|tauto].
    destruct (Hf m Hm1) as [Hm0| ->]; [|tauto].
    destruct (negb (String.eqb dividend_asset (config.BTC cfg)));
      rewrite ?In_append_if in Hm0; tauto.
Qed.

(** [validate] runs the stages in order; what it returns holds the problems
    of lines 117-143 and, beyond them, only problems of later lines. *)
Lemma validate_inv db source quantity_per_unit asset dividend_asset block_index
  activation t o problems fee :
  validate cfg u db source quantity_per_unit asset dividend_asset block_index
    activation = Ok (t, o, problems, fee) ->
  exists ps1,
    activation_rules cfg u block_index activation
      (basic_rules cfg quantity_per_unit asset block_index) = Ok ps1 /\
    ((examine_assets cfg db source asset dividend_asset block_index activation
        ps1 = NoSuch problems /\ t = None /\ o = None /\ fee = 0) \/
     (exists divisible dividend_divisible ps2 p,
        examine_assets cfg db source asset dividend_asset block_index
          activation ps1 = Examined divisible dividend_divisible ps2 /\
        calculate cfg u db source quantity_per_unit asset dividend_asset
          block_index activation divisible dividend_divisible = Ok p /\
        settle cfg db source dividend_asset block_index activation ps2 p
        = Ok (t, o, problems, fee))).
Proof.
  unfold validate.
  destruct (activation_rules cfg u block_index activation
              (basic_rules cfg quantity_per_unit asset block_index))
    as [ps1|e]; simpl; [|discriminate].
  intros H. exists ps1. split; [reflexivity|].
  destruct (examine_assets cfg db source asset dividend_asset block_index
              activation ps1) as [ps|divisible dd ps2].
  - injection H as <- <- <- <-. left. auto.
  - destruct (calculate cfg u db source quantity_per_unit asset dividend_asset
                block_index activation divisible dd) as [p|e] eqn:Hc;
      simpl in H; [|discriminate].
    right. exists divisible, dd, ps2, p. auto.
Qed.

Lemma validate_problems db source quantity_per_unit asset dividend_asset
  block_index activation t o problems fee :
  validate cfg u db source quantity_per_unit asset dividend_asset block_index
    activation = Ok (t, o, problems, fee) ->
  exists ps1,
    activation_rules cfg u block_index activation
      (basic_rules cfg quantity_per_unit asset block_index) = Ok ps1 /\
    incl ps1 problems /\
    forall m, In m problems -> In m ps1 \/ later_problem cfg asset dividend_asset m.
Proof.
  intros H. apply validate_inv in H. destruct H as (ps1 & Hact & H).
  exists ps1. split; [exact Hact|].
  pose proof (examine_assets_problems db source asset dividend_asset
                block_index activation ps1) as [Hincl Hin].
  destruct H as [(He & _)|(divisible & dd & ps2 & p & He & _ & Hs)];
    rewrite He in Hincl, Hin; simpl in Hincl, Hin.
  - split; [assumption|]. unfold later_problem.
    intros m Hm. destruct (Hin m Hm); tauto.
  - apply settle_problems in Hs. destruct Hs as [Hi Hl].
    unfold later_problem.
    split; [eauto using incl_tran|].
    intros m Hm. destruct (Hl m Hm) as [Hm2|]; [|tauto].
    destruct (Hin m Hm2); tauto.
Qed.

End Problems.

(** ** Payouts of an immediate dividend *)

Lemma examine_assets_flags cfg db source asset dividend_asset block_index
  activation ps divisible dividend_divisible ps' :
  examine_assets cfg db source asset dividend_asset block_index activation ps
  = Examined divisible dividend_divisible ps' ->
  held_divisible db asset = Some divisible /\
  paid_divisible cfg db dividend_asset = Some dividend_divisible.
Proof.
  unfold examine_assets, held_divisible, paid_divisible.
  destruct (order_by_tx_index (select_issuances db asset)) as [|first rest];
    [discriminate|].
  destruct (String.eqb dividend_asset (config.BTC cfg)
            || String.eqb dividend_asset (config.XCP cfg)).
  - intros [= <- <- _]. auto.
  - destruct (select_issuances db dividend_asset) as [|first' rest'];
      [discriminate|].
    intros [= <- <- _]. auto.
Qed.

(** C1, as the code has it.  When [validate] returns a plan for an
    immediate dividend (no activation), the outputs are, in the order of the
    holder snapshot, one per holder that is neither left out nor below the
    BTC dust threshold, each with the quantity the loop computes for it:
    balance times quantity per unit, divided by UNIT once if the held asset
    is divisible and once more if the dividend asset is not, every division
    rounding its quotient to a binary64 float, and the float truncated; and
    the total is the plain sum of these quantities. *)
Theorem validate_immediate_payouts cfg u db source quantity_per_unit asset
  dividend_asset block_index total outs problems fee :
  validate cfg u db source quantity_per_unit asset dividend_asset block_index
    None = Ok (Some total, Some outs, problems, fee) ->
  exists divisible dividend_divisible,
    held_divisible db asset = Some divisible /\
    paid_divisible cfg db dividend_asset = Some dividend_divisible /\
    pays cfg source quantity_per_unit dividend_asset block_index
      divisible dividend_divisible (util.holders u db asset) outs /\
    total = sum_payouts outs.
Proof.
  intros H. apply validate_inv in H.
  destruct H as (ps1 & _ & [(_ & [=] & _)|(d & dd & ps2 & p & He & Hc & Hs)]).
  apply examine_assets_flags in He. destruct He as [Hd Hdd].
  apply settle_inv in Hs.
  destruct Hs as (_ & _ & _ & _ & _ & _ & _ & [= ->] & [= ->]).
  unfold calculate in Hc. apply holders_loop_pays in Hc.
  destruct Hc as (os & Hp & Ho & _ & Ht). simpl in Ho, Ht. subst os.
  exists d, dd. repeat split; assumption.
Qed.

(** GOLD (divisible) pays BTC at height 340000, one satoshi per unit: alice
    is the source, carol's share is below the dust threshold, and bob is
    paid the rounded quotient. *)
Lemma validate_immediate_payouts_witness :
  exists divisible dividend_divisible,
    held_divisible Whale.db "GOLD" = Some divisible /\
    paid_divisible Ledger.mainnet Whale.db "BTC" = Some dividend_divisible /\
    pays Ledger.mainnet "alice" 1 "BTC" 340000 divisible dividend_divisible
      (util.holders (Ledger.collaborators true 340000) Whale.db "GOLD")
      [ {| o_address := "bob"; o_address_quantity := 26843545599999999;
           o_dividend_quantity := 268435456 |} ] /\
    268435456 = sum_payouts
      [ {| o_address := "bob"; o_address_quantity := 26843545599999999;
           o_dividend_quantity := 268435456 |} ].
Proof.
  apply (validate_immediate_payouts Ledger.mainnet
           (Ledger.collaborators true 340000) Whale.db
           "alice" 1 "GOLD" "BTC" 340000 268435456 _ [] 0).
  vm_compute. reflexivity.
Defined.

(** The quotient the loop truncates is the rounded one.  For bob's balance
    of 26843545599999999 at one satoshi per unit the exact quotient is
    268435455.99999999, which truncates to 268435455; the nearest float is
    268435456.0, and that is what [validate] pays. *)
Lemma payout_above_exact_quotient :
  validate Ledger.mainnet (Ledger.collaborators true 340000) Whale.db
    "alice" 1 "GOLD" "BTC" 340000 None
  = Ok (Some 268435456,
        Some [ {| o_address := "bob"; o_address_quantity := 26843545599999999;
                  o_dividend_quantity := 268435456 |} ],
        [], 0) /\
  In Whale.bob (util.holders (Ledger.collaborators true 340000) Whale.db "GOLD") /\
  held_divisible Whale.db "GOLD" = Some true /\
  paid_divisible Ledger.mainnet Whale.db "BTC" = Some true /\
  exact_payout Ledger.mainnet 1 "BTC" true true Whale.bob = Some 268435455.
Proof.
  split; [vm_compute; reflexivity|].
  split; [simpl; auto|]. repeat split.
Qed.

(** Where no division runs, the loop and the exact rule agree. *)
Lemma exact_when_undivided cfg quantity_per_unit dividend_asset h :
  holder_payout cfg quantity_per_unit dividend_asset false true h
  = Ok (exact_payout cfg quantity_per_unit dividend_asset false true h).
Proof.
  unfold holder_payout, exact_payout. cbn [Py.bind].
  assert (Hlt : forall n k, Py.ltb (PyInt n) k = (n <? k)).
  { intros n k. unfold Py.ltb, Z.ltb. simpl. destruct (n ?= k); reflexivity. }
  rewrite Hlt, Z.mul_1_l, Z.mul_1_r, Z.quot_1_r.
  destruct (String.eqb dividend_asset (config.BTC cfg)
            && (address_quantity h * quantity_per_unit
                <? config.DEFAULT_MULTISIG_DUST_SIZE cfg)); reflexivity.
Qed.


(** ** Funds when the dividend is paid in XCP *)

Lemma lacks_false rows amount :
  lacks rows amount = false <->
  exists r rest, rows = r :: rest /\ amount <= b_quantity r.
Proof.
  destruct rows as [|r rest]; simpl.
  - split; [discriminate|]. intros (r & rest & [=] & _).
  - rewrite Z.ltb_ge. split.
    + intros H. exists r, rest. auto.
    + intros (r' & rest' & [= <- <-] & H). exact H.
Qed.

Lemma lacks_true rows amount :
  lacks rows amount = true <->
  ~ exists r rest, rows = r :: rest /\ amount <= b_quantity r.
Proof.
  rewrite <- lacks_false. destruct (lacks rows amount); intuition congruence.
Qed.

Lemma lacks_le rows a b :
  lacks rows a = false -> b <= a -> lacks rows b = false.
Proof.
  destruct rows as [|r rest]; simpl; [discriminate|].
  rewrite !Z.ltb_ge. lia.
Qed.

Ltac differ :=
  match goal with
  | H : _ = _ |- _ => solve [simpl in H; congruence]
  end.

Lemma settle_xcp_funds cfg db source block_index activation ps p t o ps' fee :
  config.BTC cfg <> config.XCP cfg ->
  settle cfg db source (config.XCP cfg) block_index activation ps p
  = Ok (t, o, ps', fee) ->
  ~ In ("insufficient funds (" +++ config.XCP cfg +++ ")") ps ->
  let rows := select_balances db source (config.XCP cfg) in
  let short := "insufficient funds (" +++ config.XCP cfg +++ ")" in
  (lacks rows (dividend_total p + fee) = true -> In short ps') /\
  (lacks rows (dividend_total p) = true -> In short ps') /\
  (lacks rows (dividend_total p + fee) = false -> 0 <= dividend_total p ->
   ~ In short ps').
Proof.
  intros Hne H Hps rows short. apply settle_inv in H.
  destruct H as (ps0 & ps1 & ps2 & Hps0 & Hfee & Hcomb & -> & _ & _).
  assert (Hb : String.eqb (config.XCP cfg) (config.BTC cfg) = false)
    by (apply String.eqb_neq; congruence).
  unfold charge_fee in Hfee. unfold combined_check in Hcomb.
  rewrite Hb in Hps0, Hfee, Hcomb. rewrite String.eqb_refl in Hcomb.
  subst rows short.
  remember ("insufficient funds (" +++ config.XCP cfg +++ ")") as short
    eqn:Hshort.
  remember (select_balances db source (config.XCP cfg)) as rows eqn:Hrows.
  remember (dividend_total p) as total eqn:Htotal.
  assert (Hzero : short <> "zero dividend") by (subst short; simpl; congruence).
  assert (Hover : short <> "integer overflow")
    by (subst short; simpl; congruence).
  clear Hshort Hrows Htotal.
  simpl in Hps0, Hfee, Hcomb.
  assert (Hov : forall l, In short (append_if ((config.MAX_INT cfg <? fee)
                  || (config.MAX_INT cfg <? total)) "integer overflow" l)
                <-> In short l).
  { intros l. rewrite In_append_if. tauto. }
  rewrite !Hov. clear Hov.
  destruct (lacks rows total) eqn:Hl.
  - (* the payout alone is not covered *)
    assert (Hin : In short ps0).
    { subst ps0. apply In_append_if. right. auto. }
    destruct ps0 as [|x ps0']; [destruct Hin|].
    injection Hfee as <- <-. injection Hcomb as <-.
    rewrite Z.add_0_r, Hl. repeat split; auto. discriminate.
  - destruct ps0 as [|x ps0'].
    + destruct (fee_due cfg block_index activation (addresses p)) as [f|e];
        simpl in Hfee; [|discriminate].
      destruct (negb (f =? 0)).
      * injection Hfee as <- <-.
        destruct (lacks rows f) eqn:Hlf; simpl in Hcomb.
        -- injection Hcomb as <-. repeat split; simpl; auto.
           intros Hc Hpos. rewrite (lacks_le rows (total + f) f Hc) in Hlf
             by lia. discriminate.
        -- injection Hcomb as <-.
           destruct (lacks rows (total + f)); simpl; repeat split;
             try discriminate; auto.
      * injection Hfee as <- <-. simpl in Hcomb. injection Hcomb as <-.
        destruct (lacks rows (total + f)); simpl; repeat split;
          try discriminate; auto.
    + injection Hfee as <- <-. injection Hcomb as <-.
      rewrite Z.add_0_r, Hl. repeat split; try discriminate.
      intros _ _ Hin. rewrite Hps0 in Hin. unfold append_if at 1 in Hin.
      apply In_append_if in Hin. tauto.
Qed.

(** No line before 214 appends an insufficient-funds problem. *)
Lemma early_problems_not_funds cfg u block_index activation quantity_per_unit
  asset ps1 x :
  activation_rules cfg u block_index activation
    (basic_rules cfg quantity_per_unit asset block_index) = Ok ps1 ->
  ~ In ("insufficient funds (" +++ x +++ ")") ps1.
Proof.
  intros Hact Hin.
  apply (In_activation_rules cfg u _ _ _ _ _ Hact) in Hin.
  destruct Hin as [Hin|Hin].
  - apply In_basic_rules in Hin. decompose [or and] Hin; differ.
  - destruct activation as [a|]; [|exact Hin].
    unfold activation_problem in Hin.
    destruct (util.enabled u "scheduled_dividends");
      [decompose [or and] Hin|]; differ.
Qed.

(** C9.  With XCP as the dividend asset, the problems [validate] returns
    contain the insufficient-funds problem whenever the source's XCP balance
    is below total payout plus fee, and also whenever it is below the total
    payout alone; and when the balance covers payout plus fee and no other
    problem was found, nothing is reported (for a payout that is not
    negative). *)
Theorem validate_combined_funds cfg u db source quantity_per_unit asset
  block_index activation total o problems fee :
  config.BTC cfg <> config.XCP cfg ->
  validate cfg u db source quantity_per_unit asset (config.XCP cfg) block_index
    activation = Ok (Some total, o, problems, fee) ->
  let short := "insufficient funds (" +++ config.XCP cfg +++ ")" in
  (covers db source (config.XCP cfg) (total + fee) -> 0 <= total ->
   (forall m, In m problems -> m = short) -> problems = []) /\
  (~ covers db source (config.XCP cfg) (total + fee) -> In short problems) /\
  (~ covers db source (config.XCP cfg) total -> In short problems).
Proof.
  intros Hne H short. apply validate_inv in H.
  destruct H as (ps1 & Hact & [(_ & [=] & _)|(d & dd & ps2 & p & He & _ & Hs)]).
  assert (Hps2 : ~ In short ps2).
  { intros Hin.
    pose proof (examine_assets_problems cfg db source asset (config.XCP cfg)
                  block_index activation ps1) as [_ Hex].
    rewrite He in Hex. simpl in Hex. destruct (Hex _ Hin) as [Hin1|Hin1].
    - exact (early_problems_not_funds _ _ _ _ _ _ _ _ Hact Hin1).
    - unfold examine_problem, short in Hin1. decompose [or] Hin1; differ. }
  pose proof (settle_inv _ _ _ _ _ _ _ _ _ _ _ _ Hs)
    as (_ & _ & _ & _ & _ & _ & _ & [= ->] & _).
  destruct (settle_xcp_funds _ _ _ _ _ _ _ _ _ _ _ Hne Hs Hps2) as (H1 & H2 & H3).
  unfold covers. rewrite <- !lacks_false. repeat split.
  - intros Hc Hpos Hall. destruct problems as [|m rest]; [reflexivity|].
    exfalso. apply (H3 Hc Hpos). left. apply Hall. now left.
  - intros Hc. apply H1, not_false_is_true, Hc.
  - intros Hc. apply H2, not_false_is_true, Hc.
Qed.

(** alice holds exactly payout plus fee: 350000000 + 40000 *)
Lemma validate_combined_funds_witness :
  let short := "insufficient funds (" +++ config.XCP Ledger.mainnet +++ ")" in
  (covers (Ledger.db 350040000) "alice" (config.XCP Ledger.mainnet)
     (350000000 + 40000) -> 0 <= 350000000 ->
   (forall m, In m (@nil string) -> m = short) -> @nil string = []) /\
  (~ covers (Ledger.db 350040000) "alice" (config.XCP Ledger.mainnet)
       (350000000 + 40000) -> In short []) /\
  (~ covers (Ledger.db 350040000) "alice" (config.XCP Ledger.mainnet) 350000000 ->
   In short []).
Proof.
  apply (validate_combined_funds Ledger.mainnet
           (Ledger.collaborators true 340000) (Ledger.db 350040000)
           "alice" 100000000 "GOLD" 340000 None 350000000
           (Some Ledger.gold_outputs) [] 40000).
  - simpl. discriminate.
  - vm_compute. reflexivity.
Defined.

(** The same dividend with the balance exact, and one unit short. *)
Example combined_funds_exact :
  validate Ledger.mainnet (Ledger.collaborators true 340000)
    (Ledger.db (350000000 + 40000)) "alice" 100000000 "GOLD" "XCP" 340000 None
  = Ok (Some 350000000,
        Some [ {| o_address := "bob"; o_address_quantity := 200000000;
                  o_dividend_quantity := 200000000 |};
               {| o_address := "carol"; o_address_quantity := 150000000;
                  o_dividend_quantity := 150000000 |} ],
        [], 40000).
Proof. vm_compute. reflexivity. Qed.

Example combined_funds_one_short :
  validate Ledger.mainnet (Ledger.collaborators true 340000)
    (Ledger.db (350000000 + 40000 - 1)) "alice" 100000000 "GOLD" "XCP" 340000 None
  = Ok (Some 350000000,
        Some [ {| o_address := "bob"; o_address_quantity := 200000000;
                  o_dividend_quantity := 200000000 |};
               {| o_address := "carol"; o_address_quantity := 150000000;
                  o_dividend_quantity := 150000000 |} ],
        ["insufficient funds (XCP)"], 40000).
Proof. vm_compute. reflexivity. Qed.

(** ** Dividends to holders of XCP *)

(** Only line 121 appends the XCP-holders problem. *)
Lemma validate_xcp_holders_problem cfg u db source quantity_per_unit asset
  dividend_asset block_index activation t o problems fee :
  config.BTC cfg <> config.XCP cfg ->
  validate cfg u db source quantity_per_unit asset dividend_asset block_index
    activation = Ok (t, o, problems, fee) ->
  (In ("cannot pay dividends to holders of " +++ config.XCP cfg) problems <->
   String.eqb asset (config.XCP cfg) &&
   (negb (317500 <=? block_index) || (320000 <=? block_index)
    || config.TESTNET cfg) = true).
Proof.
  intros Hne H. apply validate_problems in H.
  destruct H as (ps1 & Hact & Hincl & Hlater).
  pose proof (In_activation_rules cfg u
                ("cannot pay dividends to holders of " +++ config.XCP cfg)
                _ _ _ _ Hact) as Hps1.
  rewrite In_basic_rules in Hps1.
  split.
  - intros Hin. destruct (Hlater _ Hin) as [Hin1|Hl].
    + apply Hps1 in Hin1. destruct Hin1 as [Hb|Ha].
      * decompose [or and] Hb; first [assumption | differ].
      * destruct activation as [a|]; [|destruct Ha].
        unfold activation_problem in Ha.
        destruct (util.enabled u "scheduled_dividends");
          [decompose [or and] Ha|]; differ.
    + unfold later_problem, examine_problem, settle_problem in Hl.
      decompose [or] Hl; differ.
  - intros Hc. apply Hincl, Hps1. left. right. left. auto.
Qed.

(** C5, as the code has it.  When the held asset is XCP, [validate] reports
    that dividends cannot be paid to holders of XCP exactly when the height is
    below 317500, or at least 320000, or the network is the test network:
    holders of XCP can be paid only on the production network at heights
    317500 to 319999. *)
Theorem xcp_holders_window cfg u db source quantity_per_unit dividend_asset
  block_index activation t o problems fee :
  config.BTC cfg <> config.XCP cfg ->
  validate cfg u db source quantity_per_unit (config.XCP cfg) dividend_asset
    block_index activation = Ok (t, o, problems, fee) ->
  (In ("cannot pay dividends to holders of " +++ config.XCP cfg) problems <->
   block_index < 317500 \/ 320000 <= block_index \/ config.TESTNET cfg = true).
Proof.
  intros Hne H.
  rewrite (validate_xcp_holders_problem _ _ _ _ _ _ _ _ _ _ _ _ _ Hne H).
  rewrite String.eqb_refl. simpl.
  rewrite !orb_true_iff, negb_true_iff, Z.leb_gt, Z.leb_le. tauto.
Qed.

Lemma xcp_holders_window_witness :
  In ("cannot pay dividends to holders of " +++ config.XCP Ledger.mainnet)
     ["zero dividend"] <->
  318000 < 317500 \/ 320000 <= 318000 \/ config.TESTNET Ledger.mainnet = true.
Proof.
  apply (xcp_holders_window Ledger.mainnet (Ledger.collaborators true 340000)
           (Ledger.db 5) "alice" 1 "XCP" 318000 None (Some 0) (Some []) _ 0).
  - simpl. discriminate.
  - vm_compute. reflexivity.
Defined.

(** On the test network the problem is reported inside the window; on the
    production network it is reported outside the window and not inside. *)
Lemma xcp_holders_refused_on_testnet :
  (exists t o problems fee,
     validate Ledger.testnet (Ledger.collaborators true 340000) (Ledger.db 5)
       "alice" 1 "XCP" "XCP" 318000 None = Ok (t, o, problems, fee) /\
     config.TESTNET Ledger.testnet = true /\
     In "cannot pay dividends to holders of XCP" problems) /\
  (exists t o problems fee,
     validate Ledger.mainnet (Ledger.collaborators true 340000) (Ledger.db 5)
       "alice" 1 "XCP" "XCP" 100000 None = Ok (t, o, problems, fee) /\
     config.TESTNET Ledger.mainnet = false /\
     ~ (317500 <= 100000 < 320000) /\
     In "cannot pay dividends to holders of XCP" problems) /\
  (exists t o problems fee,
     validate Ledger.mainnet (Ledger.collaborators true 340000) (Ledger.db 5)
       "alice" 1 "XCP" "XCP" 318000 None = Ok (t, o, problems, fee) /\
     config.TESTNET Ledger.mainnet = false /\
     317500 <= 318000 < 320000 /\
     ~ In "cannot pay dividends to holders of XCP" problems).
Proof.
  repeat split.
  - do 4 eexists. split; [vm_compute; reflexivity|]. simpl. auto.
  - do 4 eexists. split; [vm_compute; reflexivity|]. simpl.
    repeat split; [lia | auto].
  - do 4 eexists. split; [vm_compute; reflexivity|]. simpl.
    repeat split; try lia. intros [H|[]]. discriminate H.
Qed.

(** ** Activation of a scheduled dividend *)

(** Only lines 133-141 append the activation problems. *)
Lemma validate_activation_problem cfg u db source quantity_per_unit asset
  dividend_asset block_index a t o problems fee m :
  validate cfg u db source quantity_per_unit asset dividend_asset block_index
    (Some a) = Ok (t, o, problems, fee) ->
  activation_message m ->
  (In m problems <->
   activation_problem cfg u block_index a m /\
   util.enabled u "scheduled_dividends" = true).
Proof.
  intros H Hm. apply validate_problems in H.
  destruct H as (ps1 & Hact & Hincl & Hlater).
  pose proof (In_activation_rules cfg u m _ _ _ _ Hact) as Hps1.
  rewrite In_basic_rules in Hps1.
  assert (Hen : activation_problem cfg u block_index a m ->
                util.enabled u "scheduled_dividends" = true).
  { unfold activation_problem.
    destruct (util.enabled u "scheduled_dividends"); [reflexivity|].
    intros ->. unfold activation_message in Hm. decompose [or] Hm; differ. }
  split.
  - intros Hin. destruct (Hlater _ Hin) as [Hin1|Hl].
    + apply Hps1 in Hin1. destruct Hin1 as [Hb|Ha]; [|auto].
      unfold activation_message in Hm.
      decompose [or and] Hb; subst m; decompose [or] Hm; differ.
    + unfold later_problem, examine_problem, settle_problem in Hl.
      unfold activation_message in Hm.
      decompose [or] Hl; subst m; decompose [or] Hm; differ.
  - intros [Ha _]. apply Hincl, Hps1. now right.
Qed.

Lemma ltb_int n k : Py.ltb (PyInt n) k = (n <? k).
Proof. unfold Py.ltb, Z.ltb. simpl. destruct (n ?= k); reflexivity. Qed.

Lemma leb_int n k : Py.leb (PyInt n) k = (n <=? k).
Proof. unfold Py.leb, Z.leb. simpl. destruct (n ?= k); reflexivity. Qed.

Lemma gtb_int n k : Py.gtb (PyInt n) k = (k <? n).
Proof.
  unfold Py.gtb, Z.ltb. simpl. rewrite (Z.compare_antisym n k).
  destruct (n ?= k); reflexivity.
Qed.

(** C3, as the code has it.  With the feature enabled, [validate] compares
    the supplied activation with the block height as a height of its own: a
    value that is not an int is reported, and an int [n] is reported as
    negative when [n < 0], as not in the future when [n <= block_index], as
    too close when [n - block_index < 144], and as an overflow when it
    exceeds [MAX_ACTIVATION]; each of these problems is reported in no other
    case. *)
Theorem activation_height_rules cfg u db source quantity_per_unit asset
  dividend_asset block_index a t o problems fee :
  util.enabled u "scheduled_dividends" = true ->
  validate cfg u db source quantity_per_unit asset dividend_asset block_index
    (Some a) = Ok (t, o, problems, fee) ->
  match a with
  | PyFloat _ =>
      In "activation must be expressed as an integer block delta" problems
  | PyInt n =>
      (In "negative activation" problems <-> n < 0) /\
      ~ In "activation must be expressed as an integer block delta" problems /\
      (In "activation must be future block height" problems
       <-> n <= block_index) /\
      (In "activation must be 144 or more blocks from now" problems
       <-> n - block_index < 144) /\
      (In "activation overflow" problems <-> config.MAX_ACTIVATION cfg < n)
  end.
Proof.
  intros Hen H.
  assert (Hm : forall m, activation_message m ->
                         (In m problems <-> activation_problem cfg u block_index a m)).
  { intros m Hm.
    rewrite (validate_activation_problem _ _ _ _ _ _ _ _ _ _ _ _ _ m H Hm).
    tauto. }
  unfold activation_problem in Hm. rewrite Hen in Hm.
  destruct a as [n|f].
  - rewrite ltb_int, leb_int, gtb_int in Hm. simpl in Hm.
    repeat split.
    + intros Hin. apply Hm in Hin; [|unfold activation_message; tauto].
      decompose [or and ex] Hin; try discriminate. now apply Z.ltb_lt.
    + intros Hlt. apply Hm; [unfold activation_message; tauto|].
      left. split; [now apply Z.ltb_lt|reflexivity].
    + intros Hin. apply Hm in Hin; [|unfold activation_message; tauto].
      decompose [or and ex] Hin; discriminate.
    + intros Hin. apply Hm in Hin; [|unfold activation_message; tauto].
      decompose [or and ex] Hin; try discriminate. now apply Z.leb_le.
    + intros Hle. apply Hm; [unfold activation_message; tauto|].
      right. right. left. split; [now apply Z.leb_le|reflexivity].
    + intros Hin. apply Hm in Hin; [|unfold activation_message; tauto].
      decompose [or and ex] Hin; try discriminate.
      match goal with
      | Hs : Py.sub _ _ = Ok _, Hl : Py.ltb _ 144 = true |- _ =>
          unfold Py.sub in Hs; injection Hs as <-;
          rewrite ltb_int in Hl; now apply Z.ltb_lt
      end.
    + intros Hlt. apply Hm; [unfold activation_message; tauto|].
      do 3 right. left. split; [|reflexivity].
      exists (PyInt (n - block_index)). split; [reflexivity|].
      rewrite ltb_int. now apply Z.ltb_lt.
    + intros Hin. apply Hm in Hin; [|unfold activation_message; tauto].
      decompose [or and ex] Hin; try discriminate. now apply Z.ltb_lt.
    + intros Hlt. apply Hm; [unfold activation_message; tauto|].
      do 4 right. split; [now apply Z.ltb_lt|reflexivity].
  - apply Hm; [unfold activation_message; tauto|].
    right. left. split; reflexivity.
Qed.

(** An activation at height 1200, seen from height 1000. *)
Lemma activation_height_rules_witness :
  (In "negative activation" [] <-> 1200 < 0) /\
  ~ In "activation must be expressed as an integer block delta" [] /\
  (In "activation must be future block height" [] <-> 1200 <= 1000) /\
  (In "activation must be 144 or more blocks from now" []
   <-> 1200 - 1000 < 144) /\
  (In "activation overflow" [] <-> config.MAX_ACTIVATION Ledger.mainnet < 1200).
Proof.
  apply (activation_height_rules Ledger.mainnet (Ledger.collaborators true 1000)
           (Ledger.db 1000000000000) "alice" 100000000 "GOLD" "XCP" 1000
           (PyInt 1200) (Some 850000000) (Some []) [] 0).
  - vm_compute. reflexivity.
  - vm_compute. reflexivity.
Defined.

(** At height 1000 the values 200 and 50 are both refused, 200 as well as 50
    with the problem of the minimum lead; 1200 is accepted. *)
Lemma activation_200_at_1000_rejected :
  exists t o problems fee,
    util.enabled (Ledger.collaborators true 1000) "scheduled_dividends" = true /\
    validate Ledger.mainnet (Ledger.collaborators true 1000)
      (Ledger.db 1000000000000) "alice" 100000000 "GOLD" "XCP" 1000
      (Some (PyInt 200)) = Ok (t, o, problems, fee) /\
    In "activation must be future block height" problems /\
    In "activation must be 144 or more blocks from now" problems.
Proof.
  do 4 eexists. split; [reflexivity|].
  split; [vm_compute; reflexivity|]. simpl. auto.
Qed.

Example activation_50_at_1000 :
  validate Ledger.mainnet (Ledger.collaborators true 1000)
    (Ledger.db 1000000000000) "alice" 100000000 "GOLD" "XCP" 1000
    (Some (PyInt 50))
  = Ok (Some 850000000, Some [],
        ["activation must be future block height";
         "activation must be 144 or more blocks from now"], 0).
Proof. vm_compute. reflexivity. Qed.

Example activation_1200_at_1000 :
  validate Ledger.mainnet (Ledger.collaborators true 1000)
    (Ledger.db 1000000000000) "alice" 100000000 "GOLD" "XCP" 1000
    (Some (PyInt 1200))
  = Ok (Some 850000000, Some [], [], 0).
Proof. vm_compute. reflexivity. Qed.

Example activation_not_an_int :
  validate Ledger.mainnet (Ledger.collaborators true 1000)
    (Ledger.db 1000000000000) "alice" 100000000 "GOLD" "XCP" 1000
    (Some (PyFloat (Py.literal 24005 20)))
  = Ok (Some 850000000, Some [],
        ["activation must be expressed as an integer block delta"], 0).
Proof. vm_compute. reflexivity. Qed.

(** ** The activation scheduler *)

(** C6, as the code has it.  The query of [activate] selects exactly the
    rows of [dividends] whose status is pending and whose activation index is
    strictly below the block index. *)
Theorem activate_selects_strictly_before db block_index d :
  In d (select_dividends db "pending" block_index) <->
  In d (dividends db) /\
  d_status d = "pending" /\
  exists a, d_activate_index d = Some a /\ a < block_index.
Proof.
  unfold select_dividends. rewrite filter_In, andb_true_iff, String.eqb_eq.
  destruct (d_activate_index d) as [a|].
  - rewrite Z.ltb_lt. split.
    + intros (Hin & Hs & Hlt). eauto.
    + intros (Hin & Hs & a' & [= <-] & Hlt). auto.
  - split.
    + intros (_ & _ & [=]).
    + intros (_ & _ & a' & [=] & _).
Qed.


(** At height 1200 the dividend that activates at 1200 is not selected, and
    the call leaves the tables as they were. *)
Lemma pending_dividend_not_selected_at_its_height :
  In Scheduled.row (dividends Scheduled.db) /\
  d_status Scheduled.row = "pending" /\
  d_activate_index Scheduled.row = Some 1200 /\
  1200 <= 1200 /\
  select_dividends Scheduled.db "pending" 1200 = [] /\
  activate Ledger.mainnet (Ledger.collaborators true 1200) Schema.fresh 1200
    Scheduled.db
  = (Raise (NameError "dividend"), Scheduled.db).
Proof.
  split; [simpl; auto|]. split; [reflexivity|]. split; [reflexivity|].
  split; [lia|]. split; reflexivity.
Qed.

(** One block later it is selected, and the call still ends at the unbound
    name before any row is touched. *)
Example pending_dividend_selected_one_block_later :
  select_dividends Scheduled.db "pending" 1201 = [Scheduled.row] /\
  activate Ledger.mainnet (Ledger.collaborators true 1201) Schema.fresh 1201
    Scheduled.db
  = (Raise (NameError "dividend"), Scheduled.db).
Proof. split; reflexivity. Qed.

(** [activate_dividend] sets the status, then stops at the unbound [log]:
    no activation row is written. *)
Example activate_dividend_stops_at_log :
  exists db',
    activate_dividend Ledger.mainnet (Ledger.collaborators true 1201)
      Scheduled.row "complete" 1201 Scheduled.db
    = (Raise (NameError "log"), db') /\
    map d_status (dividends db') = ["complete"] /\
    dividend_activations db' = [].
Proof. eexists. repeat split. Qed.

(** ** [compose] never yields a payload *)

Lemma pack_FORMAT_2_four_values a b c d :
  Struct.pack FORMAT_2 [a; b; c; d] = Raise StructError.
Proof. reflexivity. Qed.

Lemma compose_never_packs cfg u type_id db source quantity_per_unit asset
  dividend_asset activation destination outs data :
  compose cfg u type_id db source quantity_per_unit asset dividend_asset
    activation <> Ok (destination, outs, Some data).
Proof.
  unfold compose.
  destruct (validate _ _ _ _ _ _ _ _ _) as [[[[t o] problems] fee]|e];
    simpl; [|discriminate].
  destruct problems; [|discriminate].
  destruct (String.eqb _ (config.BTC cfg)).
  - destruct o; discriminate.
  - destruct (util.get_asset_id u db _ _); simpl; [|discriminate].
    destruct (util.get_asset_id u db _ _); simpl; [|discriminate].
    rewrite ?pack_FORMAT_2_four_values. simpl. discriminate.
Qed.

(** C7.  On inputs that [validate] accepts, with a ledger asset as the
    dividend asset, [compose] ends in [struct.error]: four values are given
    to a format of three fields.  No bytes are produced for [parse]. *)
Theorem compose_raises_struct_error :
  validate Ledger.mainnet (Ledger.collaborators true 340000)
    (Ledger.db 350040000) "alice" 100000000 "GOLD" "XCP" 340000 None
  = Ok (Some 350000000, Some Ledger.gold_outputs, [], 40000) /\
  compose Ledger.mainnet (Ledger.collaborators true 340000) Ledger.type_id
    (Ledger.db 350040000) "alice" 100000000 "GOLD" "XCP" None
  = Raise StructError /\
  compose Ledger.mainnet (Ledger.collaborators true 340000) Ledger.type_id
    (Ledger.db 350040000) "alice" 100000000 "GOLD" "XCP" (Some (PyInt 341000))
  = Raise StructError.
Proof. repeat split; vm_compute; reflexivity. Qed.

(** ** [parse] never returns *)

Lemma chunks_length n bs : List.length (Struct.chunks n bs) = n.
Proof.
  revert bs. induction n as [|n IH]; intros bs; simpl; [reflexivity|].
  now rewrite IH.
Qed.

Lemma unpack_FORMAT_2 message :
  List.length message = LENGTH_2 ->
  Struct.unpack FORMAT_2 message = Ok (Struct.chunks 3 message).
Proof.
  intros H. unfold Struct.unpack. simpl Struct.fields. cbv iota.
  rewrite H. reflexivity.
Qed.

(** Three values do not fill four names. *)
Lemma layout_B_value_error cfg u db tx message :
  ((288150 <? tx_block_index tx) || config.TESTNET cfg)
  && Nat.eqb (List.length message) LENGTH_2 = true ->
  unpack_message cfg u db tx message = Raise ValueError.
Proof.
  intros H. unfold unpack_message. rewrite H.
  apply andb_true_iff in H. destruct H as [_ H]. apply Nat.eqb_eq in H.
  rewrite (unpack_FORMAT_2 _ H). reflexivity.
Qed.

(** After the [try] statement the activation is unbound or the fields are
    [None]. *)
Lemma try_unpack_inv cfg u db tx message l :
  try_unpack cfg u db tx message = Ok l ->
  fields l = None \/ activation l = Unbound.
Proof.
  unfold try_unpack.
  destruct (unpack_message cfg u db tx message) as [l'|e] eqn:Hu.
  - intros [= <-]. right. revert Hu. unfold unpack_message.
    destruct (((288150 <? tx_block_index tx) || config.TESTNET cfg)
              && Nat.eqb (List.length message) LENGTH_2) eqn:Hb.
    + pose proof (layout_B_value_error cfg u db tx message Hb) as Hv.
      unfold unpack_message in Hv. rewrite Hb in Hv. rewrite Hv. discriminate.
    + destruct (Nat.eqb (List.length message) LENGTH_1); [|discriminate].
      destruct (Struct.unpack FORMAT_1 message); simpl; [|discriminate].
      destruct (Struct.to2 a) as [[q id]|]; simpl; [|discriminate].
      destruct (util.get_asset_name u db id (tx_block_index tx)); simpl;
        [|discriminate].
      intros [= <-]. reflexivity.
  - destruct (caught e); [|discriminate]. intros [= <-]. now left.
Qed.

(** Whatever the message, the height and the database, [parse] ends in an
    exception, before any table is written. *)
Lemma parse_always_raises cfg u tx message db :
  exists e, parse cfg u tx message db = (Raise e, db).
Proof.
  unfold parse, bindM, get, lift.
  destruct (try_unpack cfg u db tx message) as [l|e] eqn:Ht; [|eauto].
  apply try_unpack_inv in Ht.
  assert (Hr : fields (refuse_btc cfg l) = fields l /\
               activation (refuse_btc cfg l) = activation l).
  { unfold refuse_btc. destruct (fields l) as [[[q a] d]|] eqn:Hfl; [|auto].
    destruct (String.eqb d (config.BTC cfg)); simpl; auto. }
  destruct Hr as [Hf Ha].
  unfold validate_unpacked. rewrite Hf, Ha.
  replace (String.eqb (status (refuse_btc cfg l)) "valid"
           || Py.truthy (Some "pending")) with true
    by (simpl; now rewrite orb_true_r).
  destruct (fields l) as [[[q a] d]|]; [|eauto].
  destruct Ht as [[=]|Hu]. rewrite Hu. simpl. eauto.
Qed.

(** C2.  A message of three bytes matches no layout: the [except] clause sets
    the status to could-not-unpack, and line 290 then compares [None] with
    [MAX_INT]; the [TypeError] leaves [parse]. *)
Theorem parse_undecodable_raises :
  try_unpack Ledger.mainnet (Ledger.collaborators true 300000) (Ledger.db 5)
    (Ledger.tx 300000) [x00; x01; x02]
  = Ok {| fields := None; activation := Bound None;
          status := "invalid: could not unpack" |} /\
  parse Ledger.mainnet (Ledger.collaborators true 300000) (Ledger.tx 300000)
    [x00; x01; x02] (Ledger.db 5)
  = (Raise TypeError, Ledger.db 5).
Proof. split; reflexivity. Qed.

(** C4.  The status of an undecodable message does not mention an integer
    overflow, yet no row reaches [dividends]: [parse] has raised before. *)
Theorem undecodable_message_not_recorded :
  let db := Ledger.db 5 in
  let u := Ledger.collaborators true 300000 in
  exists l e db',
    try_unpack Ledger.mainnet u db (Ledger.tx 300000) [x00; x01; x02] = Ok l /\
    status (refuse_btc Ledger.mainnet l) = "invalid: could not unpack" /\
    contains "integer overflow" (status (refuse_btc Ledger.mainnet l)) = false /\
    parse Ledger.mainnet u (Ledger.tx 300000) [x00; x01; x02] db = (Raise e, db') /\
    dividends db' = [].
Proof. do 3 eexists. repeat split. Qed.

(** C8.  Twenty-four bytes past height 288150 are read as three unsigned
    big-endian fields, and the assignment to four names raises
    [ValueError], which the [except] clause does not name. *)
Theorem parse_layout_B_raises :
  Struct.unpack FORMAT_2
    (Struct.be_bytes 8 100000000 ++ Struct.be_bytes 8 20000 ++ Struct.be_bytes 8 1)
  = Ok [100000000; 20000; 1] /\
  unpack_message Ledger.mainnet (Ledger.collaborators true 300000) (Ledger.db 5)
    (Ledger.tx 300000)
    (Struct.be_bytes 8 100000000 ++ Struct.be_bytes 8 20000 ++ Struct.be_bytes 8 1)
  = Raise ValueError /\
  parse Ledger.mainnet (Ledger.collaborators true 300000) (Ledger.tx 300000)
    (Struct.be_bytes 8 100000000 ++ Struct.be_bytes 8 20000 ++ Struct.be_bytes 8 1)
    (Ledger.db 5)
  = (Raise ValueError, Ledger.db 5).
Proof. repeat split; vm_compute; reflexivity. Qed.

(** C10.  Sixteen bytes are decoded under the old layout; the quantity per
    unit 2^64 - 1 exceeds [MAX_INT], and the call of [validate] is not
    reached: its argument [activation] was never assigned on this path. *)
Theorem parse_layout_A_raises :
  let message := Struct.be_bytes 8 (2 ^ 64 - 1) ++ Struct.be_bytes 8 20000 in
  unpack_message Ledger.mainnet (Ledger.collaborators true 280000) (Ledger.db 5)
    (Ledger.tx 280000) message
  = Ok {| fields := Some (2 ^ 64 - 1, "GOLD", "XCP"); activation := Unbound;
          status := "valid" |} /\
  config.MAX_INT Ledger.mainnet < 2 ^ 64 - 1 /\
  parse Ledger.mainnet (Ledger.collaborators true 280000) (Ledger.tx 280000)
    message (Ledger.db 5)
  = (Raise (UnboundLocalError "activation"), Ledger.db 5).
Proof. repeat split; vm_compute; reflexivity. Qed.

(** ** Payouts are not negative *)

Lemma binary_round_aux_nonneg m e l :
  float_nonneg (binary_round_aux Py.prec Py.emax false m e l).
Proof.
  unfold binary_round_aux.
  destruct (shr_fexp Py.prec Py.emax m e l) as [mrs e'].
  destruct (shr_fexp Py.prec Py.emax _ e' loc_Exact) as [mrs' e''].
  destruct (shr_m mrs'); simpl; auto.
  destruct (_ <=? _); simpl; auto.
Qed.

Lemma SFdiv_nonneg f g :
  float_nonneg f -> float_nonneg g ->
  float_nonneg (SFdiv Py.prec Py.emax f g).
Proof.
  destruct f as [s|s| |s m e], g as [s'|s'| |s' m' e']; simpl; intros Hf Hg;
    subst; simpl; auto.
  destruct (SFdiv_core_binary Py.prec Py.emax (Z.pos m) e (Z.pos m') e')
    as [[mz ez] lz].
  apply binary_round_aux_nonneg.
Qed.

Lemma signed_finite_nonneg n : 0 <= n -> float_nonneg (Py.signed_finite n).
Proof. destruct n; simpl; auto. lia. Qed.

Lemma float_of_int_nonneg n f :
  0 <= n -> Py.float_of_int n = Ok f -> float_nonneg f.
Proof.
  unfold Py.float_of_int, binary_normalize. destruct n as [|p|p]; [| |lia].
  - intros _ [= <-]. reflexivity.
  - intros _. unfold binary_round.
    destruct (shl_align p 0 _) as [mz ez].
    pose proof (binary_round_aux_nonneg (Z.pos mz) ez loc_Exact) as H.
    destruct (binary_round_aux Py.prec Py.emax false (Z.pos mz) ez loc_Exact);
      intros [= <-]; exact H.
Qed.

Lemma truediv_nonneg x b y :
  nonneg x -> 0 < b -> Py.truediv x b = Ok y -> nonneg y.
Proof.
  intros Hx Hb. unfold Py.truediv. destruct x as [a|f]; simpl in Hx.
  - unfold Py.int_truediv. destruct (Z.eqb_spec b 0) as [->|_]; [lia|].
    destruct a as [|p|p]; [intros [= <-]; simpl; lia| |lia].
    pose proof (SFdiv_nonneg (Py.signed_finite (Z.pos p)) (Py.signed_finite b)
                  (signed_finite_nonneg _ Hx)
                  (signed_finite_nonneg _ (Z.lt_le_incl _ _ Hb))) as H.
    destruct (SFdiv Py.prec Py.emax _ _); simpl; intros [= <-]; exact H.
  - unfold Py.float_truediv.
    destruct (Py.float_of_int b) as [fb|e] eqn:Hfb; simpl; [|discriminate].
    apply float_of_int_nonneg in Hfb; [|lia].
    pose proof (SFdiv_nonneg f fb Hx Hfb) as H.
    destruct fb; simpl; intros [= <-]; exact H.
Qed.

Lemma int_of_float_nonneg f n :
  float_nonneg f -> Py.int_of_float f = Ok n -> 0 <= n.
Proof.
  destruct f as [s|s| |s m e]; unfold Py.int_of_float, float_nonneg;
    try discriminate.
  - intros _ [= <-]. lia.
  - intros -> H.
    assert (Ha : 0 <= (if 0 <=? e then Z.pos m * 2 ^ e
                       else Z.pos m / 2 ^ (- e))).
    { destruct (Z.leb_spec 0 e).
      - apply Z.mul_nonneg_nonneg; [lia|]. apply Z.pow_nonneg. lia.
      - apply Z.div_pos; [lia|]. apply Z.pow_pos_nonneg; lia. }
    cbv zeta in H. injection H as <-. exact Ha.
Qed.

Lemma int_nonneg x n : nonneg x -> Py.int x = Ok n -> 0 <= n.
Proof.
  unfold Py.int, nonneg. destruct x as [a|f].
  - intros H [= <-]. exact H.
  - apply int_of_float_nonneg.
Qed.

Lemma holder_payout_nonneg cfg quantity_per_unit dividend_asset divisible
  dividend_divisible h n :
  0 < config.UNIT cfg -> 0 <= quantity_per_unit -> 0 <= address_quantity h ->
  holder_payout cfg quantity_per_unit dividend_asset divisible
    dividend_divisible h = Ok (Some n) ->
  0 <= n.
Proof.
  intros Hu Hq Ha. unfold holder_payout.
  assert (Hraw : nonneg (PyInt (address_quantity h * quantity_per_unit)))
    by (simpl; apply Z.mul_nonneg_nonneg; assumption).
  destruct (if divisible then _ else _) as [once|e] eqn:Honce; simpl;
    [|discriminate].
  assert (H1 : nonneg once).
  { destruct divisible; [eapply truediv_nonneg; eauto|].
    injection Honce as <-. exact Hraw. }
  destruct (if dividend_divisible then _ else _) as [twice|e] eqn:Htwice;
    simpl; [|discriminate].
  assert (H2 : nonneg twice).
  { destruct dividend_divisible; [|eapply truediv_nonneg; eauto].
    injection Htwice as <-. exact H1. }
  destruct (_ && _); [discriminate|].
  destruct (Py.int twice) as [k|e] eqn:Hk; simpl; [|discriminate].
  intros [= <-]. eapply int_nonneg; eauto.
Qed.

Lemma pays_nonneg cfg source quantity_per_unit dividend_asset block_index
  divisible dividend_divisible hs os :
  0 < config.UNIT cfg -> 0 <= quantity_per_unit ->
  Forall (fun h => 0 <= address_quantity h) hs ->
  pays cfg source quantity_per_unit dividend_asset block_index divisible
    dividend_divisible hs os ->
  0 <= sum_payouts os.
Proof.
  intros Hu Hq Hall Hp.
  induction Hp as [|h hs os Hex _ IH|h hs os Hex Hpay _ IH|h hs os n Hex Hpay _ IH];
    try (inversion Hall; subst; auto).
  - unfold sum_payouts. simpl. lia.
  - unfold sum_payouts in *. simpl.
    pose proof (holder_payout_nonneg _ _ _ _ _ _ _ Hu Hq H1 Hpay). 
    specialize (IH H2). lia.
Qed.

(** The total of an immediate dividend is not negative when no holder has a
    negative balance. *)
Lemma validate_total_nonneg cfg u db source quantity_per_unit asset
  dividend_asset block_index total outs problems fee :
  0 < config.UNIT cfg -> 0 <= quantity_per_unit ->
  Forall (fun h => 0 <= address_quantity h) (util.holders u db asset) ->
  validate cfg u db source quantity_per_unit asset dividend_asset block_index
    None = Ok (Some total, Some outs, problems, fee) ->
  0 <= total.
Proof.
  intros Hu Hq Hall H. apply validate_inv in H.
  destruct H as (ps1 & _ & [(_ & [=] & _)|(d & dd & ps2 & p & _ & Hc & Hs)]).
  apply settle_inv in Hs.
  destruct Hs as (_ & _ & _ & _ & _ & _ & _ & [= ->] & [= ->]).
  unfold calculate in Hc. apply holders_loop_pays in Hc.
  destruct Hc as (os & Hp & Ho & _ & Ht). simpl in Ho, Ht. subst os.
  rewrite Ht. eapply pays_nonneg; eauto.
Qed.

(** ** What the unreached lines of [parse] would do *)

(** Line 290 keeps the quantity per unit within [MAX_INT], so that line 127
    has nothing to report for it. *)
Lemma clamped_quantity_within_range cfg quantity_per_unit asset block_index :
  ~ In "integer overflow"
       (basic_rules cfg (Z.min quantity_per_unit (config.MAX_INT cfg)) asset
          block_index).
Proof.
  rewrite In_basic_rules. intros H.
  decompose [or and] H; try differ.
  match goal with Hlt : (_ <? _) = true |- _ => apply Z.ltb_lt in Hlt; lia end.
Qed.

(** Lines 325-330 write the row unless the status mentions an integer
    overflow, and then only log. *)
Lemma record_dividend_rule tx v dividend_total outs fee a db :
  v_result v = Bound (dividend_total, outs, fee) ->
  v_activation v = Bound a ->
  exists db',
    record_dividend tx v db = (Ok tt, db') /\
    if contains "integer overflow" (v_status v)
    then dividends db' = dividends db /\ warnings db' <> warnings db
    else exists row,
           dividends db' = dividends db ++ [row] /\
           d_tx_hash row = tx_hash tx /\ d_status row = v_status v /\
           d_fee_paid row = fee /\ warnings db' = warnings db.
Proof.
  intros Hr Ha. unfold record_dividend, bindM, lift, get, put.
  rewrite Hr, Ha. simpl.
  destruct (contains "integer overflow" (v_status v)); simpl;
    eexists; (split; [reflexivity|]); simpl.
  - split; [reflexivity|]. intros Heq.
    apply (f_equal (@List.length string)) in Heq.
    rewrite length_app in Heq. simpl in Heq. lia.
  - eexists. repeat split.
Qed.

Example overflow_status_is_recognised :
  contains "integer overflow"
    ("invalid: " +++ join "; " ["zero dividend"; "integer overflow"]) = true /\
  contains "integer overflow"
    ("invalid: " +++ join "; " ["zero dividend"; "insufficient funds (XCP)"])
  = false.
Proof. split; reflexivity. Qed.

(** ** The worked example of the payout rule

    A divisible held asset pays a dividend asset that is not divisible:
    5000 units at 100 per unit give 500000, then 0.005, then 5e-11, and the
    holder is owed 0. *)
Example double_adjustment :
  Py.truediv (PyInt (5000 * 100)) 100000000
  = Ok (PyFloat (S754_finite false 5764607523034235 (-60))) /\
  scaled Ledger.mainnet 100 true false 5000
  = Ok (PyFloat (S754_finite false 7737125245533627 (-87))) /\
  holder_payout Ledger.mainnet 100 "TICKET" true false
    {| address := "bob"; address_quantity := 5000; escrow := None |}
  = Ok (Some 0).
Proof. repeat split; vm_compute; reflexivity. Qed.

(** ** Three fields survive [struct.pack] and [struct.unpack] *)

Lemma be_value_snoc bs b :
  Struct.be_value (bs ++ [b]) = Struct.be_value bs * 256 + Z.of_N (Byte.to_N b).
Proof. unfold Struct.be_value. rewrite fold_left_app. reflexivity. Qed.

Lemma be_bytes_length n v : List.length (Struct.be_bytes n v) = n.
Proof.
  revert v. induction n as [|n IH]; intros v; simpl; [reflexivity|].
  rewrite length_app, IH. simpl. lia.
Qed.

Lemma be_value_be_bytes n v :
  0 <= v -> Struct.be_value (Struct.be_bytes n v) = v mod 256 ^ Z.of_nat n.
Proof.
  revert v. induction n as [|n IH]; intros v Hv.
  - simpl. now rewrite Z.mod_1_r.
  - cbn [Struct.be_bytes]. rewrite be_value_snoc, IH
      by (apply Z.div_pos; lia).
    assert (Hb : 0 <= v mod 256 < 256) by (apply Z.mod_pos_bound; lia).
    destruct (Byte.of_N (Z.to_N (v mod 256))) as [b|] eqn:Hof.
    + apply Byte.to_of_N in Hof. rewrite Hof, Z2N.id by lia.
      rewrite Nat2Z.inj_succ, Z.pow_succ_r by lia.
      rewrite Z.rem_mul_r; [lia | lia | apply Z.pow_pos_nonneg; lia].
    + apply Byte.of_N_None_iff in Hof. lia.
Qed.

Lemma firstn_app_length {A} (n : nat) (l r : list A) :
  List.length l = n -> firstn n (l ++ r) = l.
Proof.
  intros <-. rewrite firstn_app, Nat.sub_diag, firstn_all. simpl.
  apply app_nil_r.
Qed.

Lemma skipn_app_length {A} (n : nat) (l r : list A) :
  List.length l = n -> skipn n (l ++ r) = r.
Proof.
  intros <-. rewrite skipn_app, Nat.sub_diag, skipn_all. reflexivity.
Qed.

Lemma unpack_pack_FORMAT_2 q a d :
  0 <= q < 2 ^ 64 -> 0 <= a < 2 ^ 64 -> 0 <= d < 2 ^ 64 ->
  exists message,
    Struct.pack FORMAT_2 [Some (PyInt q); Some (PyInt a); Some (PyInt d)]
    = Ok message /\
    List.length message = LENGTH_2 /\
    Struct.unpack FORMAT_2 message = Ok [q; a; d].
Proof.
  intros Hq Ha Hd.
  exists (Struct.be_bytes 8 q ++ Struct.be_bytes 8 a ++ Struct.be_bytes 8 d).
  assert (Hin : forall v, 0 <= v < 2 ^ 64 ->
                          (0 <=? v) && (v <? 2 ^ 64) = true).
  { intros v Hv. apply andb_true_iff. split; [apply Z.leb_le|apply Z.ltb_lt]; lia. }
  assert (Hval : forall v, 0 <= v < 2 ^ 64 ->
                           Struct.be_value (Struct.be_bytes 8 v) = v).
  { intros v Hv. rewrite be_value_be_bytes by lia.
    apply Z.mod_small. change (256 ^ Z.of_nat 8) with (2 ^ 64). lia. }
  split; [|split].
  - unfold Struct.pack. simpl Struct.fields. cbv iota.
    change (Nat.eqb (List.length [Some (PyInt q); Some (PyInt a); Some (PyInt d)]) 3)
      with true. cbv iota.
    unfold Struct.pack_fields, Struct.pack_field.
    rewrite (Hin q Hq), (Hin a Ha), (Hin d Hd). cbn [Py.bind].
    rewrite app_nil_r. reflexivity.
  - rewrite !length_app, !be_bytes_length. reflexivity.
  - unfold Struct.unpack. simpl Struct.fields. cbv iota.
    rewrite !length_app, !be_bytes_length.
    change (Nat.eqb (8 + (8 + 8)) (8 * 3)) with true. cbv iota.
    unfold Struct.chunks.
    rewrite !firstn_app_length, !skipn_app_length by apply be_bytes_length.
    rewrite firstn_app_length by apply be_bytes_length.
    rewrite <- (app_nil_r (Struct.be_bytes 8 d)).
    rewrite firstn_app_length by apply be_bytes_length.
    rewrite !Hval by assumption. reflexivity.
Qed.

(** * More properties of [validate] *)

(** The plan of an immediate dividend, read through the payout rule. *)
Lemma validate_plan_pays cfg u db source quantity_per_unit asset
  dividend_asset block_index t outs problems fee :
  validate cfg u db source quantity_per_unit asset dividend_asset block_index
    None = Ok (t, Some outs, problems, fee) ->
  exists divisible dividend_divisible,
    held_divisible db asset = Some divisible /\
    paid_divisible cfg db dividend_asset = Some dividend_divisible /\
    pays cfg source quantity_per_unit dividend_asset block_index
      divisible dividend_divisible (util.holders u db asset) outs /\
    t = Some (sum_payouts outs).
Proof.
  intros H. apply validate_inv in H.
  destruct H as (ps1 & _ & [(_ & _ & [=] & _)|(d & dd & ps2 & p & He & Hc & Hs)]).
  apply examine_assets_flags in He. destruct He as [Hd Hdd].
  apply settle_inv in Hs.
  destruct Hs as (_ & _ & _ & _ & _ & _ & _ & -> & [= ->]).
  unfold calculate in Hc. apply holders_loop_pays in Hc.
  destruct Hc as (os & Hp & Ho & _ & Ht). simpl in Ho, Ht. subst os.
  exists d, dd. rewrite Ht. repeat split; assumption.
Qed.

Lemma pays_kept cfg source quantity_per_unit dividend_asset block_index
  divisible dividend_divisible hs os :
  pays cfg source quantity_per_unit dividend_asset block_index divisible
    dividend_divisible hs os ->
  forall o, In o os ->
  exists h,
    In h hs /\ excluded cfg source block_index h = false /\
    o_address o = address h /\ o_address_quantity o = address_quantity h /\
    holder_payout cfg quantity_per_unit dividend_asset divisible
      dividend_divisible h = Ok (Some (o_dividend_quantity o)).
Proof.
  induction 1 as [|h hs os Hex _ IH|h hs os Hex Hpay _ IH|h hs os n Hex Hpay _ IH];
    intros o Hin.
  - destruct Hin.
  - destruct (IH o Hin) as (h' & Hh & Hrest). exists h'. split; [now right|exact Hrest].
  - destruct (IH o Hin) as (h' & Hh & Hrest). exists h'. split; [now right|exact Hrest].
  - destruct Hin as [<-|Hin].
    + exists h. simpl. repeat split; auto.
    + destruct (IH o Hin) as (h' & Hh & Hrest). exists h'.
      split; [now right|exact Hrest].
Qed.

Lemma pays_subsequence cfg source quantity_per_unit dividend_asset block_index
  divisible dividend_divisible hs os :
  pays cfg source quantity_per_unit dividend_asset block_index divisible
    dividend_divisible hs os ->
  subsequence (map output_entry os) (map holder_entry hs).
Proof.
  induction 1; simpl; constructor; assumption.
Qed.

(** From height 296000 on, and on the test network at any height, the source
    of an immediate dividend is never among its outputs. *)
Theorem outputs_leave_out_source cfg u db source quantity_per_unit asset
  dividend_asset block_index t outs problems fee :
  validate cfg u db source quantity_per_unit asset dividend_asset block_index
    None = Ok (t, Some outs, problems, fee) ->
  296000 <= block_index \/ config.TESTNET cfg = true ->
  forall o, In o outs -> o_address o <> source.
Proof.
  intros H Hgate o Hin. apply validate_plan_pays in H.
  destruct H as (d & dd & _ & _ & Hp & _).
  destruct (pays_kept _ _ _ _ _ _ _ _ _ Hp o Hin) as (h & _ & Hex & Ha & _).
  unfold excluded in Hex. apply orb_false_iff in Hex. destruct Hex as [_ Hex].
  assert (Hg : (296000 <=? block_index) || config.TESTNET cfg = true).
  { apply orb_true_iff. destruct Hgate as [Hb|Ht]; [left|right; exact Ht].
    now apply Z.leb_le. }
  rewrite Hg in Hex. simpl in Hex. apply String.eqb_neq in Hex. congruence.
Qed.

Lemma outputs_leave_out_source_witness :
  o_address {| o_address := "carol"; o_address_quantity := 150000000;
               o_dividend_quantity := 150000000 |} <> "alice".
Proof.
  apply (outputs_leave_out_source Ledger.mainnet
           (Ledger.collaborators true 340000) (Ledger.db 350040000)
           "alice" 100000000 "GOLD" "XCP" 340000 (Some 350000000)
           Ledger.gold_outputs [] 40000).
  - vm_compute. reflexivity.
  - left. lia.
  - simpl. auto.
Defined.

(** The outputs of an immediate dividend follow the holder snapshot: their
    (address, balance) pairs are the snapshot's with some entries left out,
    in the same order; and before height 294500 on the production network no
    output stems from an entry under escrow. *)
Theorem outputs_follow_snapshot cfg u db source quantity_per_unit asset
  dividend_asset block_index t outs problems fee :
  validate cfg u db source quantity_per_unit asset dividend_asset block_index
    None = Ok (t, Some outs, problems, fee) ->
  subsequence (map output_entry outs)
              (map holder_entry (util.holders u db asset)) /\
  (block_index < 294500 -> config.TESTNET cfg = false ->
   forall o, In o outs ->
   exists h, In h (util.holders u db asset) /\
             holder_entry h = output_entry o /\ Py.truthy (escrow h) = false).
Proof.
  intros H. apply validate_plan_pays in H.
  destruct H as (d & dd & _ & _ & Hp & _). split.
  - eapply pays_subsequence; eauto.
  - intros Hb Ht o Hin.
    destruct (pays_kept _ _ _ _ _ _ _ _ _ Hp o Hin) as (h & Hh & Hex & Ha & Hq & _).
    exists h. split; [exact Hh|]. split.
    + unfold holder_entry, output_entry. congruence.
    + unfold excluded in Hex. apply orb_false_iff in Hex. destruct Hex as [Hex _].
      apply Z.ltb_lt in Hb. rewrite Hb, Ht in Hex. exact Hex.
Qed.

Lemma outputs_follow_snapshot_witness :
  subsequence (map output_entry Ledger.gold_outputs)
    (map holder_entry
       (util.holders (Ledger.collaborators true 340000)
          (Ledger.db 350040000) "GOLD")) /\
  (340000 < 294500 -> config.TESTNET Ledger.mainnet = false ->
   forall o, In o Ledger.gold_outputs ->
   exists h, In h (util.holders (Ledger.collaborators true 340000)
                     (Ledger.db 350040000) "GOLD") /\
             holder_entry h = output_entry o /\ Py.truthy (escrow h) = false).
Proof.
  apply (outputs_follow_snapshot Ledger.mainnet
           (Ledger.collaborators true 340000) (Ledger.db 350040000)
           "alice" 100000000 "GOLD" "XCP" 340000 (Some 350000000)
           Ledger.gold_outputs [] 40000).
  vm_compute. reflexivity.
Defined.

(** A number that is not below an int truncates to an int that is not below
    it either. *)
Lemma not_below_int x n k : Py.ltb x n = false -> Py.int x = Ok k -> n <= k.
Proof.
  unfold Py.ltb, Py.int, Py.compare_int. destruct x as [a|f].
  - destruct (Z.compare_spec a n); intros Hlt [= <-]; try discriminate; lia.
  - unfold Py.float_compare_int, Py.int_of_float.
    destruct f as [s|s| |s m e]; try discriminate.
    + destruct (Z.compare_spec 0 n); intros Hlt [= <-]; try discriminate; lia.
    + intros Hlt Hk. cbv zeta in Hk.
      remember (if 0 <=? e then Z.pos m * 2 ^ e else Z.pos m / 2 ^ (- e))
        as a eqn:Ha.
      assert (Hk' : k = if s then - a else a) by (injection Hk; auto).
      clear Hk. subst k.
      pose proof (Pos2Z.opp_pos m) as Hm.
      destruct (Z.leb_spec 0 e) as [He|He].
      * destruct s.
        -- rewrite <- Hm in Hlt.
           destruct (Z.compare_spec (- Z.pos m * 2 ^ e) n);
             try discriminate; nia.
        -- destruct (Z.compare_spec (Z.pos m * 2 ^ e) n);
             try discriminate; lia.
      * assert (Hp : 0 < 2 ^ (- e)) by (apply Z.pow_pos_nonneg; lia).
        destruct s.
        -- rewrite <- Hm in Hlt.
           assert (a <= - n); [|lia]. subst a.
           destruct (Z.compare_spec (- Z.pos m) (n * 2 ^ (- e)));
             try discriminate;
             (apply Z.div_le_upper_bound; [lia|nia]).
        -- subst a.
           destruct (Z.compare_spec (Z.pos m) (n * 2 ^ (- e)));
             try discriminate;
             (apply Z.div_le_lower_bound; [lia|nia]).
Qed.

(** When the dividend is paid in BTC, every output of an immediate dividend
    is at least the dust size. *)
Theorem btc_outputs_reach_dust cfg u db source quantity_per_unit asset
  block_index t outs problems fee :
  validate cfg u db source quantity_per_unit asset (config.BTC cfg) block_index
    None = Ok (t, Some outs, problems, fee) ->
  forall o, In o outs ->
            config.DEFAULT_MULTISIG_DUST_SIZE cfg <= o_dividend_quantity o.
Proof.
  intros H o Hin. apply validate_plan_pays in H.
  destruct H as (d & dd & _ & _ & Hp & _).
  destruct (pays_kept _ _ _ _ _ _ _ _ _ Hp o Hin) as (h & _ & _ & _ & _ & Hpay).
  unfold holder_payout in Hpay. rewrite String.eqb_refl in Hpay.
  destruct (if d then _ else _) as [once|e]; simpl in Hpay; [|discriminate].
  destruct (if dd then _ else _) as [twice|e]; simpl in Hpay; [|discriminate].
  destruct (Py.ltb twice (config.DEFAULT_MULTISIG_DUST_SIZE cfg)) eqn:Hd;
    [discriminate|].
  destruct (Py.int twice) as [n|e] eqn:Hn; simpl in Hpay; [|discriminate].
  injection Hpay as <-. eapply not_below_int; eauto.
Qed.

Lemma btc_outputs_reach_dust_witness :
  config.DEFAULT_MULTISIG_DUST_SIZE Ledger.mainnet
  <= o_dividend_quantity
       {| o_address := "carol"; o_address_quantity := 150000000;
          o_dividend_quantity := 150000000 |}.
Proof.
  apply (btc_outputs_reach_dust Ledger.mainnet
           (Ledger.collaborators true 340000) (Ledger.db 0)
           "alice" 100000000 "GOLD" 340000 (Some 350000000)
           Ledger.gold_outputs [] 0).
  - vm_compute. reflexivity.
  - simpl. auto.
Defined.

(** A holder whose share of BTC would be below the dust size gets no
    output. *)
Example btc_dust_is_skipped :
  validate Ledger.mainnet (Ledger.collaborators true 340000) (Ledger.db 0)
    "alice" 4000 "GOLD" "BTC" 340000 None
  = Ok (Some 8000,
        Some [ {| o_address := "bob"; o_address_quantity := 200000000;
                  o_dividend_quantity := 8000 |} ],
        [], 0).
Proof. vm_compute. reflexivity. Qed.

(** When the held asset is not divisible and the dividend asset is, no
    division takes place: every output is exactly the holder's balance times
    the quantity per unit. *)
Theorem whole_unit_payouts cfg u db source quantity_per_unit asset
  dividend_asset block_index t outs problems fee :
  validate cfg u db source quantity_per_unit asset dividend_asset block_index
    None = Ok (t, Some outs, problems, fee) ->
  held_divisible db asset = Some false ->
  paid_divisible cfg db dividend_asset = Some true ->
  forall o, In o outs ->
            o_dividend_quantity o = o_address_quantity o * quantity_per_unit.
Proof.
  intros H Hheld Hpaid o Hin. apply validate_plan_pays in H.
  destruct H as (d & dd & Hd & Hdd & Hp & _).
  rewrite Hheld in Hd. rewrite Hpaid in Hdd.
  injection Hd as <-. injection Hdd as <-.
  destruct (pays_kept _ _ _ _ _ _ _ _ _ Hp o Hin) as (h & _ & _ & _ & Hq & Hpay).
  unfold holder_payout in Hpay. simpl in Hpay.
  destruct (_ && _); [discriminate|].
  unfold Py.int in Hpay. simpl in Hpay. injection Hpay as <-.
  now rewrite Hq.
Qed.

(** TICKET is not divisible: bob's 60 tickets at 5 XCP units each. *)
Lemma whole_unit_payouts_witness :
  o_dividend_quantity {| o_address := "bob"; o_address_quantity := 60;
                         o_dividend_quantity := 300 |}
  = o_address_quantity {| o_address := "bob"; o_address_quantity := 60;
                          o_dividend_quantity := 300 |} * 5.
Proof.
  apply (whole_unit_payouts Ledger.mainnet
           (Ledger.collaborators true 340000) (Ledger.db 350040000)
           "alice" 5 "TICKET" "XCP" 340000 (Some 300)
           [ {| o_address := "bob"; o_address_quantity := 60;
                o_dividend_quantity := 300 |} ] [] 20000).
  - vm_compute. reflexivity.
  - reflexivity.
  - reflexivity.
  - simpl. auto.
Defined.

(** bob and carol hold GOLD; no balance is negative. *)
Lemma validate_total_nonneg_witness : 0 <= 350000000.
Proof.
  apply (validate_total_nonneg Ledger.mainnet
           (Ledger.collaborators true 340000) (Ledger.db 350040000)
           "alice" 100000000 "GOLD" "XCP" 340000 350000000
           Ledger.gold_outputs [] 40000).
  - reflexivity.
  - lia.
  - vm_compute. repeat constructor; discriminate.
  - vm_compute. reflexivity.
Defined.

(** ** What [validate] reports, and when *)

Lemma In_examine_assets cfg db source asset dividend_asset block_index
  activation ps m :
  In m (problems_of (examine_assets cfg db source asset dividend_asset
                       block_index activation ps)) <->
  In m ps \/
  examine_report cfg db source asset dividend_asset block_index activation m.
Proof.
  unfold examine_assets, examine_report, lock_missing.
  destruct (order_by_tx_index (select_issuances db asset)) as [|first rest].
  - simpl. rewrite in_app_iff. simpl. intuition congruence.
  - cbv zeta.
    destruct (String.eqb dividend_asset (config.BTC cfg)
              || String.eqb dividend_asset (config.XCP cfg)).
    + cbn [problems_of]. rewrite !In_append_if. tauto.
    + destruct (select_issuances db dividend_asset) as [|first' rest'];
        cbn [problems_of].
      * rewrite in_app_iff, !In_append_if. simpl. intuition congruence.
      * rewrite !In_append_if. tauto.
Qed.

(** A problem that is not about funds is reported by [settle] only for a
    zero total or an overflow. *)
Lemma In_settle_other cfg db source dividend_asset block_index activation ps p
  t o ps' fee m :
  settle cfg db source dividend_asset block_index activation ps p
  = Ok (t, o, ps', fee) ->
  m <> "insufficient funds (" +++ dividend_asset +++ ")" ->
  m <> "insufficient funds (" +++ config.XCP cfg +++ ")" ->
  (In m ps' <->
   In m ps \/
   (dividend_total p = 0 /\ m = "zero dividend") \/
   ((config.MAX_INT cfg < fee \/ config.MAX_INT cfg < dividend_total p) /\
    m = "integer overflow")).
Proof.
  intros H Hda Hxcp. apply settle_inv in H.
  destruct H as (ps0 & ps1 & ps2 & -> & Hfee & Hcomb & -> & _ & _).
  apply charge_fee_problems in Hfee. destruct Hfee as [Hi1 Hf].
  apply combined_check_problems in Hcomb. destruct Hcomb as [Hi2 Hc].
  rewrite In_append_if, orb_true_iff, !Z.ltb_lt.
  assert (H0 : In m ps2 <->
               In m (append_if (dividend_total p =? 0) "zero dividend" ps)).
  { split.
    - intros Hm. destruct (Hc m Hm) as [Hm1|]; [|contradiction].
      destruct (Hf m Hm1) as [Hm0|]; [|contradiction].
      destruct (negb (String.eqb dividend_asset (config.BTC cfg)));
        [|exact Hm0].
      apply In_append_if in Hm0. destruct Hm0 as [|[_ ?]];
        [assumption|contradiction].
    - intros Hm. apply Hi2, Hi1.
      destruct (negb (String.eqb dividend_asset (config.BTC cfg)));
        [apply incl_append_if|]; exact Hm. }
  rewrite H0, In_append_if, Z.eqb_eq. tauto.
Qed.

(** Every problem of the returned list, by the stage that reported it. *)
Lemma In_validate cfg u db source quantity_per_unit asset dividend_asset
  block_index activation t o problems fee m :
  validate cfg u db source quantity_per_unit asset dividend_asset block_index
    activation = Ok (t, o, problems, fee) ->
  m <> "insufficient funds (" +++ dividend_asset +++ ")" ->
  m <> "insufficient funds (" +++ config.XCP cfg +++ ")" ->
  (In m problems <->
   In m (basic_rules cfg quantity_per_unit asset block_index) \/
   match activation with
   | None => False
   | Some a => activation_problem cfg u block_index a m
   end \/
   examine_report cfg db source asset dividend_asset block_index activation m \/
   (exists total,
      t = Some total /\
      ((total = 0 /\ m = "zero dividend") \/
       ((config.MAX_INT cfg < fee \/ config.MAX_INT cfg < total) /\
        m = "integer overflow")))).
Proof.
  intros H Hda Hxcp. apply validate_inv in H.
  destruct H as (ps1 & Hact & H).
  pose proof (In_activation_rules cfg u m _ _ _ _ Hact) as H1.
  pose proof (In_examine_assets cfg db source asset dividend_asset block_index
                activation ps1 m) as H2.
  destruct H as [(He & -> & _)|(d & dd & ps2 & p & He & _ & Hs)];
    rewrite He in H2; simpl in H2.
  - rewrite H2, H1. split; [tauto|].
    intros [?|[?|[?|(total & [=] & _)]]]; tauto.
  - pose proof (In_settle_other _ _ _ _ _ _ _ _ _ _ _ _ m Hs Hda Hxcp) as H3.
    apply settle_inv in Hs.
    destruct Hs as (_ & _ & _ & _ & _ & _ & _ & -> & _).
    rewrite H3, H2, H1. split.
    + intros [[[?|?]|?]|?]; eauto 10.
    + intros [?|[?|[?|(total & [= <-] & ?)]]]; tauto.
Qed.

(** ** The rows [validate] reads for the held asset *)

Lemma In_insert_by_tx_index r x rows :
  In x (insert_by_tx_index r rows) <-> x = r \/ In x rows.
Proof.
  induction rows as [|r' rows IH]; simpl.
  - intuition congruence.
  - destruct (i_tx_index r <=? i_tx_index r'); simpl; rewrite ?IH;
      intuition congruence.
Qed.

Lemma In_order_by_tx_index x rows :
  In x (order_by_tx_index rows) <-> In x rows.
Proof.
  unfold order_by_tx_index. induction rows as [|r rows IH]; simpl.
  - tauto.
  - rewrite In_insert_by_tx_index, IH. intuition congruence.
Qed.

Lemma ascending_insert r rows :
  ascending rows -> ascending (insert_by_tx_index r rows).
Proof.
  induction rows as [|r' rows IH]; simpl.
  - intros _. split; [intros ? []|exact I].
  - intros [Hle Hasc]. destruct (Z.leb_spec (i_tx_index r) (i_tx_index r')).
    + simpl. split; [|split; assumption].
      intros x [<-|Hx]; [assumption|]. specialize (Hle x Hx). lia.
    + simpl. split; [|apply IH; assumption].
      intros x Hx. apply In_insert_by_tx_index in Hx.
      destruct Hx as [->|Hx]; [lia|auto].
Qed.

Lemma ascending_order_by_tx_index rows : ascending (order_by_tx_index rows).
Proof.
  unfold order_by_tx_index. induction rows as [|r rows IH]; simpl.
  - exact I.
  - apply ascending_insert. exact IH.
Qed.

Lemma last_nonempty {A} (l : list A) x d d' :
  last (x :: l) d = last (x :: l) d'.
Proof.
  revert x. induction l as [|y l IH]; intros x; [reflexivity|].
  change (last (x :: y :: l) d) with (last (y :: l) d).
  change (last (x :: y :: l) d') with (last (y :: l) d').
  apply IH.
Qed.

Lemma ascending_last first rest :
  ascending (first :: rest) ->
  In (last (first :: rest) first) (first :: rest) /\
  forall x, In x (first :: rest) ->
            i_tx_index x <= i_tx_index (last (first :: rest) first).
Proof.
  revert first. induction rest as [|r rest IH]; intros first Hasc.
  - simpl. split; [now left|]. intros x [<-|[]]. lia.
  - destruct Hasc as [Hle Hasc]. specialize (IH r Hasc).
    destruct IH as [Hin Hmax].
    assert (Hl : last (first :: r :: rest) first = last (r :: rest) r).
    { change (last (first :: r :: rest) first) with (last (r :: rest) first).
      apply last_nonempty. }
    rewrite Hl. split; [now right|].
    intros x [<-|Hx]; [|auto].
    specialize (Hle _ Hin). lia.
Qed.

Ltac distinct := let H := fresh in intros H; simpl in H; congruence.

Ltac sift :=
  repeat match goal with
         | H : _ \/ _ |- _ => destruct H
         | H : _ /\ _ |- _ => destruct H
         | H : exists _, _ |- _ => destruct H
         | H : False |- _ => destruct H
         | H : match ?x with _ => _ end |- _ => destruct x eqn:?
         end.

(** A quantity per unit that is not positive is always reported, and
    reported in no other case; likewise a dividend to holders of BTC. *)
Theorem quantity_and_btc_holders_reported cfg u db source quantity_per_unit
  asset dividend_asset block_index activation t o problems fee :
  validate cfg u db source quantity_per_unit asset dividend_asset block_index
    activation = Ok (t, o, problems, fee) ->
  (In "non‐positive quantity per unit" problems <-> quantity_per_unit <= 0) /\
  (In ("cannot pay dividends to holders of " +++ config.BTC cfg) problems
   <-> asset = config.BTC cfg).
Proof.
  intros H. split.
  - rewrite (In_validate _ _ _ _ _ _ _ _ _ _ _ _ _ _ H) by distinct.
    rewrite In_basic_rules. unfold examine_report, activation_problem. split.
    + intros Hin. sift; try differ. now apply Z.leb_le.
    + intros Hq. left. right. right. left. split; [now apply Z.leb_le|reflexivity].
  - rewrite (In_validate _ _ _ _ _ _ _ _ _ _ _ _ _ _ H) by distinct.
    rewrite In_basic_rules. unfold examine_report, activation_problem. split.
    + intros Hin. sift; try differ.
      * now apply String.eqb_eq.
      * match goal with
        | Hc : _ && _ = true, Hm : _ = _ |- _ =>
            apply andb_true_iff in Hc; destruct Hc as [Hc _];
            apply String.eqb_eq in Hc; simpl in Hm; congruence
        end.
    + intros ->. left. left. split; [apply String.eqb_refl|reflexivity].
Qed.

Lemma quantity_and_btc_holders_reported_witness :
  (In "non‐positive quantity per unit"
      ["cannot pay dividends to holders of BTC";
       "non‐positive quantity per unit"; "no such asset, BTC."]
   <-> -3 <= 0) /\
  (In ("cannot pay dividends to holders of " +++ config.BTC Ledger.mainnet)
      ["cannot pay dividends to holders of BTC";
       "non‐positive quantity per unit"; "no such asset, BTC."]
   <-> "BTC" = config.BTC Ledger.mainnet).
Proof.
  apply (quantity_and_btc_holders_reported Ledger.mainnet
           (Ledger.collaborators true 340000) (Ledger.db 5) "alice" (-3) "BTC"
           "XCP" 340000 None None None _ 0).
  vm_compute. reflexivity.
Defined.

(** An integer overflow is reported exactly when the quantity per unit, the
    fee or the total exceeds [MAX_INT]; the fee and the total count only
    when a plan is returned. *)
Theorem overflow_reported cfg u db source quantity_per_unit asset
  dividend_asset block_index activation t o problems fee :
  validate cfg u db source quantity_per_unit asset dividend_asset block_index
    activation = Ok (t, o, problems, fee) ->
  (In "integer overflow" problems <->
   config.MAX_INT cfg < quantity_per_unit \/
   exists total, t = Some total /\
                 (config.MAX_INT cfg < fee \/ config.MAX_INT cfg < total)).
Proof.
  intros H.
  rewrite (In_validate _ _ _ _ _ _ _ _ _ _ _ _ _ _ H) by distinct.
  rewrite In_basic_rules. unfold examine_report, activation_problem. split.
  - intros Hin. sift; try differ.
    + left. now apply Z.ltb_lt.
    + right. eauto.
    + right. eauto.
  - intros [Hq|(total & Ht & Hov)].
    + left. do 3 right. split; [now apply Z.ltb_lt|reflexivity].
    + do 3 right. exists total. split; [exact Ht|]. right. tauto.
Qed.

(** A quantity per unit beyond [MAX_INT], as [compose] may receive it: the
    overflow is reported for the quantity and again for the total. *)
Lemma overflow_reported_witness :
  In "integer overflow"
     ["integer overflow"; "insufficient funds (XCP)"; "integer overflow"] <->
  config.MAX_INT Ledger.mainnet < 2 ^ 63 \/
  exists total,
    Some 553402322211286548480 = Some total /\
    (config.MAX_INT Ledger.mainnet < 0 \/ config.MAX_INT Ledger.mainnet < total).
Proof.
  apply (overflow_reported Ledger.mainnet (Ledger.collaborators true 340000)
           (Ledger.db 5) "alice" (2 ^ 63) "TICKET" "XCP" 340000 None
           (Some 553402322211286548480)
           (Some [ {| o_address := "bob"; o_address_quantity := 60;
                      o_dividend_quantity := 553402322211286548480 |} ])
           _ 0).
  vm_compute. reflexivity.
Defined.

(** An activation given while the feature is off is reported as such, and
    as nothing else: none of the activation rules is applied. *)
Theorem disabled_feature_reported cfg u db source quantity_per_unit asset
  dividend_asset block_index activation t o problems fee :
  validate cfg u db source quantity_per_unit asset dividend_asset block_index
    activation = Ok (t, o, problems, fee) ->
  (In "scheduled dividends are not enabled" problems <->
   activation <> None /\ util.enabled u "scheduled_dividends" = false) /\
  (util.enabled u "scheduled_dividends" = false ->
   forall m, activation_message m -> ~ In m problems).
Proof.
  intros H. split.
  - rewrite (In_validate _ _ _ _ _ _ _ _ _ _ _ _ _ _ H) by distinct.
    rewrite In_basic_rules. unfold examine_report, activation_problem. split.
    + intros Hin. sift; try differ. split; congruence.
    + intros [Ha Hen]. right. left. destruct activation; [|congruence].
      rewrite Hen. reflexivity.
  - intros Hen m Hm Hin. unfold activation_message in Hm.
    rewrite (In_validate _ _ _ _ _ _ _ _ _ _ _ _ _ _ H) in Hin
      by (decompose [or] Hm; subst m; distinct).
    rewrite In_basic_rules in Hin.
    unfold examine_report, activation_problem in Hin. rewrite Hen in Hin.
    sift; subst; sift; differ.
Qed.

Lemma disabled_feature_reported_witness :
  (In "scheduled dividends are not enabled"
      ["scheduled dividends are not enabled"] <->
   Some (PyInt 50) <> None /\
   util.enabled (Ledger.collaborators false 1000) "scheduled_dividends" = false) /\
  (util.enabled (Ledger.collaborators false 1000) "scheduled_dividends" = false ->
   forall m, activation_message m ->
             ~ In m ["scheduled dividends are not enabled"]).
Proof.
  apply (disabled_feature_reported Ledger.mainnet
           (Ledger.collaborators false 1000) (Ledger.db 1000000000000)
           "alice" 100000000 "GOLD" "XCP" 1000 (Some (PyInt 50))
           (Some 850000000) (Some []) _ 0).
  vm_compute. reflexivity.
Defined.

Lemma order_by_tx_index_nil rows :
  order_by_tx_index rows = [] <-> rows = [].
Proof.
  split; [|intros ->; reflexivity].
  intros H. destruct rows as [|r rows]; [reflexivity|].
  assert (Hin : In r (order_by_tx_index (r :: rows)))
    by (apply In_order_by_tx_index; now left).
  rewrite H in Hin. destruct Hin.
Qed.

Lemma examine_assets_NoSuch cfg db source asset dividend_asset block_index
  activation ps :
  (exists ps', examine_assets cfg db source asset dividend_asset block_index
                 activation ps = NoSuch ps') <->
  select_issuances db asset = [] \/
  (dividend_asset <> config.BTC cfg /\ dividend_asset <> config.XCP cfg /\
   select_issuances db dividend_asset = []).
Proof.
  unfold examine_assets.
  destruct (order_by_tx_index (select_issuances db asset)) as [|first rest]
    eqn:Hrows.
  - apply (proj1 (order_by_tx_index_nil _)) in Hrows. split; [auto|eauto].
  - assert (Hne : select_issuances db asset <> []).
    { intros Hnil. rewrite Hnil in Hrows. discriminate. }
    cbv zeta.
    destruct (String.eqb_spec dividend_asset (config.BTC cfg)) as [Hb|Hb];
      [|destruct (String.eqb_spec dividend_asset (config.XCP cfg)) as [Hx|Hx]];
      simpl.
    + split; [intros (ps' & [=])|tauto].
    + split; [intros (ps' & [=])|tauto].
    + destruct (select_issuances db dividend_asset) as [|first' rest'].
      * split; [auto|eauto].
      * split; [intros (ps' & [=])|]. intros [?|(_ & _ & [=])]. contradiction.
Qed.

(** [validate] returns no plan exactly when the held asset, or a dividend
    asset other than BTC and XCP, has no valid issuance; it then returns no
    outputs and no fee.  A missing held asset is reported under its name. *)
Theorem no_plan_iff_missing_asset cfg u db source quantity_per_unit asset
  dividend_asset block_index activation t o problems fee :
  validate cfg u db source quantity_per_unit asset dividend_asset block_index
    activation = Ok (t, o, problems, fee) ->
  (t = None <->
   select_issuances db asset = [] \/
   (dividend_asset <> config.BTC cfg /\ dividend_asset <> config.XCP cfg /\
    select_issuances db dividend_asset = [])) /\
  (t = None -> o = None /\ fee = 0) /\
  (In ("no such asset, " +++ asset +++ ".") problems <->
   select_issuances db asset = []).
Proof.
  intros H. split; [|split].
  - pose proof H as H'. apply validate_inv in H'.
    destruct H' as (ps1 & Hact & H').
    rewrite <- (examine_assets_NoSuch cfg db source asset dividend_asset
                  block_index activation ps1).
    destruct H' as [(He & -> & _)|(d & dd & ps2 & p & He & _ & Hs)].
    + split; [eauto|reflexivity].
    + apply settle_inv in Hs.
      destruct Hs as (_ & _ & _ & _ & _ & _ & _ & -> & _).
      split; [discriminate|]. intros (ps' & He'). congruence.
  - intros ->. apply validate_inv in H.
    destruct H as (ps1 & _ & [(_ & _ & -> & ->)|(d & dd & ps2 & p & _ & _ & Hs)]);
      [auto|].
    apply settle_inv in Hs.
    destruct Hs as (_ & _ & _ & _ & _ & _ & _ & [=] & _).
  - rewrite (In_validate _ _ _ _ _ _ _ _ _ _ _ _ _ _ H) by distinct.
    rewrite In_basic_rules. unfold examine_report, activation_problem.
    rewrite <- (order_by_tx_index_nil (select_issuances db asset)). split.
    + intros Hin. sift; try differ; try reflexivity.
    + intros ->. do 2 right. left. reflexivity.
Qed.

Lemma no_plan_iff_missing_asset_witness :
  (@None Z = None <->
   select_issuances (Ledger.db 5) "SILVER" = [] \/
   ("XCP" <> config.BTC Ledger.mainnet /\ "XCP" <> config.XCP Ledger.mainnet /\
    select_issuances (Ledger.db 5) "XCP" = [])) /\
  (@None Z = None -> @None (list output) = None /\ 0 = 0) /\
  (In ("no such asset, " +++ "SILVER" +++ ".") ["no such asset, SILVER."] <->
   select_issuances (Ledger.db 5) "SILVER" = []).
Proof.
  apply (no_plan_iff_missing_asset Ledger.mainnet
           (Ledger.collaborators true 340000) (Ledger.db 5) "alice" 7
           "SILVER" "XCP" 340000 None None None _ 0).
  vm_compute. reflexivity.
Defined.

(** When a plan is returned, a zero dividend is reported exactly when the
    total is zero. *)
Theorem zero_dividend_reported cfg u db source quantity_per_unit asset
  dividend_asset block_index activation total o problems fee :
  validate cfg u db source quantity_per_unit asset dividend_asset block_index
    activation = Ok (Some total, o, problems, fee) ->
  (In "zero dividend" problems <-> total = 0).
Proof.
  intros H.
  rewrite (In_validate _ _ _ _ _ _ _ _ _ _ _ _ _ _ H) by distinct.
  rewrite In_basic_rules. unfold examine_report, activation_problem. split.
  - intros Hin. sift; try differ; try congruence.
  - intros ->. do 3 right. exists 0. auto.
Qed.

(** One GOLD unit at 1e-8 XCP per unit truncates to nothing for bob and for
    carol. *)
Lemma zero_dividend_reported_witness :
  In "zero dividend" ["zero dividend"] <-> 0 = 0.
Proof.
  apply (zero_dividend_reported Ledger.mainnet
           (Ledger.collaborators true 340000) (Ledger.db 5) "alice" 100
           "GOLD" "TICKET" 340000 None 0
           (Some [ {| o_address := "bob"; o_address_quantity := 200000000;
                      o_dividend_quantity := 0 |};
                   {| o_address := "carol"; o_address_quantity := 150000000;
                      o_dividend_quantity := 0 |} ]) _ 0).
  vm_compute. reflexivity.
Defined.

(** The issuer and lock rules read the valid issuance of the held asset with
    the greatest [tx_index].  From height 320000, or on the test network,
    [validate] reports a source that is not its issuer, and only then; an
    immediate dividend is never asked for a lock; and when a scheduled
    dividend is paid in BTC or XCP, a lock is asked of the held asset
    alone. *)
Theorem latest_issuance_rules cfg u db source quantity_per_unit asset
  dividend_asset block_index activation t o problems fee :
  validate cfg u db source quantity_per_unit asset dividend_asset block_index
    activation = Ok (t, o, problems, fee) ->
  select_issuances db asset <> [] ->
  exists latest,
    In latest (select_issuances db asset) /\
    (forall r, In r (select_issuances db asset) ->
               i_tx_index r <= i_tx_index latest) /\
    (In "only issuer can pay dividends" problems <->
     (320000 <= block_index \/ config.TESTNET cfg = true) /\
     i_issuer latest <> source) /\
    (activation = None ->
     ~ In "asset and dividend_asset must be locked" problems) /\
    (dividend_asset = config.BTC cfg \/ dividend_asset = config.XCP cfg ->
     (In "asset and dividend_asset must be locked" problems <->
      activation <> None /\ i_locked latest = false)).
Proof.
  intros H Hne.
  destruct (order_by_tx_index (select_issuances db asset)) as [|first rest]
    eqn:Hrows.
  { apply (proj1 (order_by_tx_index_nil _)) in Hrows. contradiction. }
  pose proof (ascending_order_by_tx_index (select_issuances db asset)) as Hasc.
  rewrite Hrows in Hasc. apply ascending_last in Hasc.
  destruct Hasc as [Hin Hmax].
  exists (last (first :: rest) first).
  split; [|split; [|split; [|split]]].
  - apply In_order_by_tx_index. rewrite Hrows. exact Hin.
  - intros r Hr. apply Hmax. rewrite <- Hrows. now apply In_order_by_tx_index.
  - rewrite (In_validate _ _ _ _ _ _ _ _ _ _ _ _ _ _ H) by distinct.
    rewrite In_basic_rules. unfold examine_report, activation_problem.
    rewrite Hrows. split.
    + intros Hm. sift; try differ.
      match goal with
      | Hc : _ && _ = true |- _ =>
          apply andb_true_iff in Hc; destruct Hc as [Hg Hi];
          apply orb_true_iff in Hg; apply negb_true_iff in Hi;
          apply String.eqb_neq in Hi
      end.
      split; [|exact Hi].
      destruct Hg as [Hg|Hg]; [left; now apply Z.leb_le|now right].
    + intros [Hg Hi]. do 2 right. left. left. split; [|reflexivity].
      apply andb_true_iff. split.
      * apply orb_true_iff. destruct Hg as [Hg|Hg];
          [left; now apply Z.leb_le|now right].
      * apply negb_true_iff. now apply String.eqb_neq.
  - intros -> Hm.
    rewrite (In_validate _ _ _ _ _ _ _ _ _ _ _ _ _ _ H) in Hm by distinct.
    rewrite In_basic_rules in Hm.
    unfold examine_report, activation_problem, lock_missing in Hm.
    rewrite Hrows in Hm. simpl is_some in Hm. simpl andb in Hm.
    sift; try differ; discriminate.
  - intros Hda.
    assert (Hb : String.eqb dividend_asset (config.BTC cfg)
                 || String.eqb dividend_asset (config.XCP cfg) = true).
    { apply orb_true_iff.
      destruct Hda as [->| ->]; [left|right]; apply String.eqb_refl. }
    rewrite (In_validate _ _ _ _ _ _ _ _ _ _ _ _ _ _ H) by distinct.
    rewrite In_basic_rules.
    unfold examine_report, activation_problem, lock_missing.
    rewrite Hrows, Hb. split.
    + intros Hm. sift; try differ;
        match goal with
        | Hc : _ && _ = true |- _ =>
            apply andb_true_iff in Hc; destruct Hc as [Ha Hl];
            apply negb_true_iff in Hl
        end;
        (split; [|exact Hl]);
        (destruct activation; [discriminate|discriminate Ha]).
    + intros [Ha Hl]. do 2 right. left. right. left. split; [|reflexivity].
      apply andb_true_iff. split.
      * destruct activation; [reflexivity|congruence].
      * now apply negb_true_iff.
Qed.

(** alice issued GOLD and bob owns it now: alice is refused. *)
Lemma latest_issuance_rules_witness :
  exists latest,
    In latest (select_issuances Transferred.db "GOLD") /\
    (forall r, In r (select_issuances Transferred.db "GOLD") ->
               i_tx_index r <= i_tx_index latest) /\
    (In "only issuer can pay dividends" ["only issuer can pay dividends"] <->
     (320000 <= 340000 \/ config.TESTNET Ledger.mainnet = true) /\
     i_issuer latest <> "alice") /\
    (@None num = None ->
     ~ In "asset and dividend_asset must be locked"
          ["only issuer can pay dividends"]) /\
    ("XCP" = config.BTC Ledger.mainnet \/ "XCP" = config.XCP Ledger.mainnet ->
     (In "asset and dividend_asset must be locked"
         ["only issuer can pay dividends"] <->
      @None num <> None /\ i_locked latest = false)).
Proof.
  apply (latest_issuance_rules Ledger.mainnet
           (Ledger.collaborators true 340000) Transferred.db "alice" 100000000
           "GOLD" "XCP" 340000 None (Some 350000000) (Some Ledger.gold_outputs)
           _ 0).
  - vm_compute. reflexivity.
  - vm_compute. discriminate.
Defined.

(** A fee is charged only on a dividend with nothing else wrong: when the
    fee returned is not zero, the dividend is not paid in BTC, the height is
    at least 330000 or the network is the test network, and the only
    problems there can be are a lack of XCP and an integer overflow. *)
Theorem fee_only_without_problems cfg u db source quantity_per_unit asset
  dividend_asset block_index activation t o problems fee :
  validate cfg u db source quantity_per_unit asset dividend_asset block_index
    activation = Ok (t, o, problems, fee) ->
  fee <> 0 ->
  dividend_asset <> config.BTC cfg /\
  (330000 <= block_index \/ config.TESTNET cfg = true) /\
  forall m, In m problems ->
            m = "insufficient funds (" +++ config.XCP cfg +++ ")" \/
            m = "integer overflow".
Proof.
  intros H Hfee. apply validate_inv in H.
  destruct H as (ps1 & _ & [(_ & _ & _ & ->)|(d & dd & ps2 & p & _ & _ & Hs)]);
    [contradiction|].
  apply settle_inv in Hs.
  destruct Hs as (ps0 & ps3 & ps4 & _ & Hcharge & Hcomb & -> & _ & _).
  unfold charge_fee in Hcharge.
  destruct ps0 as [|x ps0]; [|injection Hcharge as <- <-; contradiction].
  destruct (String.eqb_spec dividend_asset (config.BTC cfg)) as [Hb|Hb];
    simpl in Hcharge; [injection Hcharge as <- <-; contradiction|].
  split; [exact Hb|].
  unfold fee_due in Hcharge.
  destruct ((330000 <=? block_index) || config.TESTNET cfg) eqn:Hgate;
    [|simpl in Hcharge; injection Hcharge as <- <-; contradiction].
  split.
  { apply orb_true_iff in Hgate.
    destruct Hgate as [Hg|Hg]; [left; now apply Z.leb_le|now right]. }
  match type of Hcharge with
  | Py.bind ?c _ = _ => destruct c as [f|e]; simpl in Hcharge; [|discriminate]
  end.
  assert (Hps3 : forall m, In m ps3 ->
                   m = "insufficient funds (" +++ config.XCP cfg +++ ")").
  { destruct (negb (f =? 0)); injection Hcharge as <- <-.
    - intros m Hm. apply In_append_if in Hm. destruct Hm as [[]|[_ ->]].
      reflexivity.
    - intros m []. }
  assert (Hps4 : forall m, In m ps4 ->
                   m = "insufficient funds (" +++ config.XCP cfg +++ ")").
  { unfold combined_check in Hcomb.
    destruct ps3 as [|y ps3]; [|injection Hcomb as <-; exact Hps3].
    destruct (String.eqb_spec dividend_asset (config.XCP cfg)) as [->|_];
      [|injection Hcomb as <-; intros m []].
    destruct (read "dividend_balances" _) as [rows|e]; simpl in Hcomb;
      [|discriminate].
    injection Hcomb as <-. intros m Hm. apply In_append_if in Hm.
    destruct Hm as [[]|[_ ->]]. reflexivity. }
  intros m Hm. apply In_append_if in Hm.
  destruct Hm as [Hm|[_ ->]]; [left; now apply Hps4|now right].
Qed.

Lemma fee_only_without_problems_witness :
  "XCP" <> config.BTC Ledger.mainnet /\
  (330000 <= 340000 \/ config.TESTNET Ledger.mainnet = true) /\
  forall m, In m ["insufficient funds (XCP)"] ->
            m = "insufficient funds (" +++ config.XCP Ledger.mainnet +++ ")" \/
            m = "integer overflow".
Proof.
  apply (fee_only_without_problems Ledger.mainnet
           (Ledger.collaborators true 340000) (Ledger.db 350039999) "alice"
           100000000 "GOLD" "XCP" 340000 None (Some 350000000)
           (Some Ledger.gold_outputs) _ 40000).
  - vm_compute. reflexivity.
  - discriminate.
Defined.

(** A dividend paid in BTC costs no fee and is never short of funds: no
    balance is looked at. *)
Theorem btc_dividend_needs_no_funds cfg u db source quantity_per_unit asset
  block_index activation t o problems fee :
  validate cfg u db source quantity_per_unit asset (config.BTC cfg) block_index
    activation = Ok (t, o, problems, fee) ->
  fee = 0 /\
  forall x, ~ In ("insufficient funds (" +++ x +++ ")") problems.
Proof.
  intros H. pose proof H as H'. apply validate_inv in H'.
  destruct H' as (ps1 & Hact & H').
  assert (Hearly : forall x ps,
            problems_of (examine_assets cfg db source asset (config.BTC cfg)
                           block_index activation ps1) = ps ->
            ~ In ("insufficient funds (" +++ x +++ ")") ps).
  { intros x ps <- Hin. apply In_examine_assets in Hin.
    destruct Hin as [Hin|Hin].
    - exact (early_problems_not_funds _ _ _ _ _ _ _ _ Hact Hin).
    - unfold examine_report in Hin. sift; differ. }
  destruct H' as [(He & _ & _ & ->)|(d & dd & ps2 & p & He & _ & Hs)].
  - split; [reflexivity|]. intros x. apply Hearly. now rewrite He.
  - apply settle_inv in Hs.
    destruct Hs as (ps0 & ps3 & ps4 & Hps0 & Hcharge & Hcomb & -> & _ & _).
    rewrite String.eqb_refl in Hps0, Hcomb. simpl in Hps0.
    unfold charge_fee in Hcharge. rewrite String.eqb_refl in Hcharge.
    simpl in Hcharge.
    assert (Hc : fee = 0 /\ ps3 = ps0).
    { destruct ps0; injection Hcharge as <- <-; auto. }
    destruct Hc as [-> ->]. split; [reflexivity|].
    assert (Hps4 : ps4 = ps0).
    { unfold combined_check in Hcomb. destruct ps0; [|congruence].
      destruct (String.eqb (config.BTC cfg) (config.XCP cfg));
        [discriminate|congruence]. }
    subst ps4. intros x Hin. apply In_append_if in Hin.
    destruct Hin as [Hin|[_ Heq]]; [|simpl in Heq; congruence].
    rewrite Hps0 in Hin. apply In_append_if in Hin.
    destruct Hin as [Hin|[_ Heq]]; [|simpl in Heq; congruence].
    revert Hin. apply Hearly. now rewrite He.
Qed.

Lemma btc_dividend_needs_no_funds_witness :
  0 = 0 /\
  forall x, ~ In ("insufficient funds (" +++ x +++ ")") (@nil string).
Proof.
  apply (btc_dividend_needs_no_funds Ledger.mainnet
           (Ledger.collaborators true 340000) (Ledger.db 0) "alice" 100000000
           "GOLD" 340000 None (Some 350000000) (Some Ledger.gold_outputs) [] 0).
  vm_compute. reflexivity.
Defined.

(** A scheduled dividend is planned without outputs and without a look at
    the holders: the outputs are empty, and two sets of collaborators that
    agree on the feature give [validate] the same result. *)
Theorem scheduled_plan_ignores_holders cfg u u' db source quantity_per_unit
  asset dividend_asset block_index a :
  util.enabled u' "scheduled_dividends" = util.enabled u "scheduled_dividends" ->
  validate cfg u' db source quantity_per_unit asset dividend_asset block_index
    (Some a)
  = validate cfg u db source quantity_per_unit asset dividend_asset block_index
      (Some a) /\
  forall t outs problems fee,
    validate cfg u db source quantity_per_unit asset dividend_asset block_index
      (Some a) = Ok (t, Some outs, problems, fee) ->
    outs = [].
Proof.
  intros Hen. split.
  - unfold validate, activation_rules, calculate. rewrite Hen. reflexivity.
  - intros t outs problems fee H. apply validate_inv in H.
    destruct H as (ps1 & _ & [(_ & _ & [=] & _)|(d & dd & ps2 & p & _ & Hc & Hs)]).
    apply settle_inv in Hs.
    destruct Hs as (_ & _ & _ & _ & _ & _ & _ & _ & [= ->]).
    unfold calculate in Hc.
    destruct (scheduled_total _ _ _ _ _ _ _) as [total|e]; simpl in Hc;
      [|discriminate].
    injection Hc as <-. reflexivity.
Qed.

Lemma scheduled_plan_ignores_holders_witness :
  validate Ledger.mainnet (without_holders (Ledger.collaborators true 1000))
    (Ledger.db 1000000000000) "alice" 100000000 "GOLD" "XCP" 1000
    (Some (PyInt 1200))
  = validate Ledger.mainnet (Ledger.collaborators true 1000)
      (Ledger.db 1000000000000) "alice" 100000000 "GOLD" "XCP" 1000
      (Some (PyInt 1200)) /\
  forall t outs problems fee,
    validate Ledger.mainnet (Ledger.collaborators true 1000)
      (Ledger.db 1000000000000) "alice" 100000000 "GOLD" "XCP" 1000
      (Some (PyInt 1200)) = Ok (t, Some outs, problems, fee) ->
    outs = [].
Proof.
  apply (scheduled_plan_ignores_holders Ledger.mainnet
           (Ledger.collaborators true 1000)
           (without_holders (Ledger.collaborators true 1000))).
  reflexivity.
Defined.

(** * Properties of [compose] *)

(** [compose] returns exactly when [validate], run at the current block
    index and without an activation on the resolved names, finds nothing
    wrong and the dividend is paid in BTC; it then returns the source, one
    (address, quantity) pair per output and no data. *)
Theorem compose_returns_only_for_btc cfg u type_id db source quantity_per_unit
  asset dividend_asset activation destination outs data :
  compose cfg u type_id db source quantity_per_unit asset dividend_asset
    activation = Ok (destination, outs, data) <->
  exists total outputs fee,
    validate cfg u db source quantity_per_unit
      (util.resolve_subasset_longname u db asset)
      (util.resolve_subasset_longname u db dividend_asset)
      (util.CURRENT_BLOCK_INDEX u) None
    = Ok (total, Some outputs, [], fee) /\
    util.resolve_subasset_longname u db dividend_asset = config.BTC cfg /\
    destination = source /\
    outs = map (fun output => (o_address output, o_dividend_quantity output))
               outputs /\
    data = None.
Proof.
  unfold compose. split.
  - destruct (validate _ _ _ _ _ _ _ _ _) as [[[[t o] problems] fee]|e];
      simpl; [|discriminate].
    destruct problems; [|discriminate].
    destruct (String.eqb_spec (util.resolve_subasset_longname u db dividend_asset)
                (config.BTC cfg)) as [Hb|Hb].
    + destruct o as [outputs|]; [|discriminate].
      intros [= <- <- <-]. exists t, outputs, fee. auto.
    + destruct (util.get_asset_id u db _ _); simpl; [|discriminate].
      destruct (util.get_asset_id u db _ _); simpl; [|discriminate].
      rewrite ?pack_FORMAT_2_four_values. simpl. discriminate.
  - intros (total & outputs & fee & -> & Hb & -> & -> & ->). simpl.
    rewrite Hb, String.eqb_refl. reflexivity.
Qed.

Lemma compose_returns_only_for_btc_witness :
  compose Ledger.mainnet (Ledger.collaborators true 340000) Ledger.type_id
    (Ledger.db 0) "alice" 100000000 "GOLD" "BTC" None
  = Ok ("alice", [("bob", 200000000); ("carol", 150000000)], None) <->
  exists total outputs fee,
    validate Ledger.mainnet (Ledger.collaborators true 340000) (Ledger.db 0)
      "alice" 100000000
      (util.resolve_subasset_longname (Ledger.collaborators true 340000)
         (Ledger.db 0) "GOLD")
      (util.resolve_subasset_longname (Ledger.collaborators true 340000)
         (Ledger.db 0) "BTC")
      (util.CURRENT_BLOCK_INDEX (Ledger.collaborators true 340000)) None
    = Ok (total, Some outputs, [], fee) /\
    util.resolve_subasset_longname (Ledger.collaborators true 340000)
      (Ledger.db 0) "BTC" = config.BTC Ledger.mainnet /\
    "alice" = "alice" /\
    [("bob", 200000000); ("carol", 150000000)]
    = map (fun output => (o_address output, o_dividend_quantity output))
          outputs /\
    @None Struct.bytes = None.
Proof.
  apply (compose_returns_only_for_btc Ledger.mainnet
           (Ledger.collaborators true 340000) Ledger.type_id (Ledger.db 0)
           "alice" 100000000 "GOLD" "BTC" None).
Defined.

Example compose_for_btc :
  compose Ledger.mainnet (Ledger.collaborators true 340000) Ledger.type_id
    (Ledger.db 0) "alice" 100000000 "GOLD" "BTC" None
  = Ok ("alice", [("bob", 200000000); ("carol", 150000000)], None).
Proof. vm_compute. reflexivity. Qed.

(** The activation given to [compose] has no effect on what it returns or
    raises: it is not passed to [validate], and the only place that reads it
    is a call of [struct.pack] that fails for any fourth value. *)
Theorem compose_ignores_activation cfg u type_id db source quantity_per_unit
  asset dividend_asset activation activation' :
  compose cfg u type_id db source quantity_per_unit asset dividend_asset
    activation
  = compose cfg u type_id db source quantity_per_unit asset dividend_asset
      activation'.
Proof.
  unfold compose.
  destruct (validate _ _ _ _ _ _ _ _ _) as [[[[t o] problems] fee]|e];
    simpl; [|reflexivity].
  destruct problems; [|reflexivity].
  destruct (String.eqb _ (config.BTC cfg)); [reflexivity|].
  destruct (util.get_asset_id u db _ _); simpl; [|reflexivity].
  destruct (util.get_asset_id u db _ _); simpl; [|reflexivity].
  rewrite ?pack_FORMAT_2_four_values. reflexivity.
Qed.

(** * Properties of [parse] *)

(** Which exception ends [parse]: a message of 24 bytes past height 288150
    (or on the test network) ends in [ValueError]; otherwise a message of 16
    bytes ends in [UnboundLocalError] when its asset identifier resolves, in
    [TypeError] when resolving raises an exception the [except] clause names,
    and in that exception otherwise; every other message ends in
    [TypeError].  The database is left as it was. *)
Theorem parse_outcome cfg u tx message db :
  let layout_B :=
    ((288150 <? tx_block_index tx) || config.TESTNET cfg)
    && Nat.eqb (List.length message) LENGTH_2 in
  let named :=
    util.get_asset_name u db (Struct.be_value (skipn 8 message))
      (tx_block_index tx) in
  (layout_B = true -> parse cfg u tx message db = (Raise ValueError, db)) /\
  (layout_B = false -> List.length message <> LENGTH_1 ->
   parse cfg u tx message db = (Raise TypeError, db)) /\
  (layout_B = false -> List.length message = LENGTH_1 ->
   parse cfg u tx message db =
   (Raise match named with
          | Ok _ => UnboundLocalError "activation"
          | Raise e => if caught e then TypeError else e
          end, db)).
Proof.
  intros layout_B named. subst layout_B. split; [|split].
  - intros Hb. unfold parse, bindM, get, lift, try_unpack.
    rewrite (layout_B_value_error _ _ _ _ _ Hb). reflexivity.
  - intros Hb Hlen. unfold parse, bindM, get, lift, try_unpack, unpack_message.
    rewrite Hb. apply Nat.eqb_neq in Hlen. rewrite Hlen. reflexivity.
  - intros Hb Hlen. unfold parse, bindM, get, lift, try_unpack, unpack_message.
    rewrite Hb. rewrite (proj2 (Nat.eqb_eq _ _) Hlen).
    unfold Struct.unpack. simpl Struct.fields. cbv iota. rewrite Hlen.
    change (Nat.eqb LENGTH_1 (8 * 2)) with true. cbv iota.
    unfold Struct.chunks.
    assert (Hs : skipn 8 (skipn 8 message) = []).
    { apply skipn_all2. rewrite length_skipn, Hlen. reflexivity. }
    assert (Hf : firstn 8 (skipn 8 message) = skipn 8 message).
    { apply firstn_all2. rewrite length_skipn, Hlen. reflexivity. }
    rewrite Hf. cbn [Py.bind Struct.to2].
    subst named.
    destruct (util.get_asset_name u db _ _) as [name|e]; cbn [Py.bind].
    + unfold refuse_btc, validate_unpacked. cbn [fields activation status].
      destruct (String.eqb (config.XCP cfg) (config.BTC cfg)); reflexivity.
    + destruct (caught e); reflexivity.
Qed.

Lemma parse_outcome_witness :
  let cfg := Ledger.mainnet in
  let u := Ledger.collaborators true 280000 in
  let tx := Ledger.tx 280000 in
  let db := Ledger.db 5 in
  let message := Struct.be_bytes 8 7 ++ Struct.be_bytes 8 20000 in
  let layout_B :=
    ((288150 <? tx_block_index tx) || config.TESTNET cfg)
    && Nat.eqb (List.length message) LENGTH_2 in
  let named :=
    util.get_asset_name u db (Struct.be_value (skipn 8 message))
      (tx_block_index tx) in
  (layout_B = true -> parse cfg u tx message db = (Raise ValueError, db)) /\
  (layout_B = false -> List.length message <> LENGTH_1 ->
   parse cfg u tx message db = (Raise TypeError, db)) /\
  (layout_B = false -> List.length message = LENGTH_1 ->
   parse cfg u tx message db =
   (Raise match named with
          | Ok _ => UnboundLocalError "activation"
          | Raise e => if caught e then TypeError else e
          end, db)).
Proof.
  exact (parse_outcome Ledger.mainnet (Ledger.collaborators true 280000)
           (Ledger.tx 280000)
           (Struct.be_bytes 8 7 ++ Struct.be_bytes 8 20000) (Ledger.db 5)).
Defined.

(** A message packed with [FORMAT_1] is decoded as it was packed, at any
    height: the quantity per unit comes back, the asset is the name of the
    identifier, the dividend asset is XCP, the status is valid, and the
    activation is left unassigned. *)
Theorem layout_A_round_trip q id :
  0 <= q < 2 ^ 64 -> 0 <= id < 2 ^ 64 ->
  exists message,
    Struct.pack FORMAT_1 [Some (PyInt q); Some (PyInt id)] = Ok message /\
    forall cfg u db tx name,
      util.get_asset_name u db id (tx_block_index tx) = Ok name ->
      unpack_message cfg u db tx message
      = Ok {| fields := Some (q, name, config.XCP cfg);
              activation := Unbound;
              status := "valid" |}.
Proof.
  intros Hq Hid.
  exists (Struct.be_bytes 8 q ++ Struct.be_bytes 8 id).
  assert (Hin : forall v, 0 <= v < 2 ^ 64 ->
                          (0 <=? v) && (v <? 2 ^ 64) = true).
  { intros v Hv. apply andb_true_iff.
    split; [apply Z.leb_le|apply Z.ltb_lt]; lia. }
  assert (Hval : forall v, 0 <= v < 2 ^ 64 ->
                           Struct.be_value (Struct.be_bytes 8 v) = v).
  { intros v Hv. rewrite be_value_be_bytes by lia.
    apply Z.mod_small. change (256 ^ Z.of_nat 8) with (2 ^ 64). lia. }
  assert (Hlen : List.length (Struct.be_bytes 8 q ++ Struct.be_bytes 8 id)
                 = LENGTH_1).
  { rewrite length_app, !be_bytes_length. reflexivity. }
  split.
  - unfold Struct.pack. simpl Struct.fields. cbv iota.
    change (Nat.eqb (List.length [Some (PyInt q); Some (PyInt id)]) 2) with true.
    cbv iota. unfold Struct.pack_fields, Struct.pack_field.
    rewrite (Hin q Hq), (Hin id Hid). cbn [Py.bind].
    rewrite app_nil_r. reflexivity.
  - intros cfg u db tx name Hname. unfold unpack_message.
    rewrite Hlen. change (Nat.eqb LENGTH_1 LENGTH_2) with false.
    rewrite andb_false_r. change (Nat.eqb LENGTH_1 LENGTH_1) with true.
    cbv iota. unfold Struct.unpack. simpl Struct.fields. cbv iota.
    rewrite Hlen. change (Nat.eqb LENGTH_1 (8 * 2)) with true. cbv iota.
    unfold Struct.chunks.
    rewrite firstn_app_length, skipn_app_length by apply be_bytes_length.
    rewrite <- (app_nil_r (Struct.be_bytes 8 id)).
    rewrite firstn_app_length by apply be_bytes_length.
    rewrite (Hval q Hq), (Hval id Hid). cbn [Py.bind Struct.to2].
    rewrite Hname. reflexivity.
Qed.

Lemma layout_A_round_trip_witness :
  exists message,
    Struct.pack FORMAT_1 [Some (PyInt 7); Some (PyInt 20000)] = Ok message /\
    forall cfg u db tx name,
      util.get_asset_name u db 20000 (tx_block_index tx) = Ok name ->
      unpack_message cfg u db tx message
      = Ok {| fields := Some (7, name, config.XCP cfg);
              activation := Unbound;
              status := "valid" |}.
Proof.
  apply (layout_A_round_trip 7 20000); lia.
Defined.

(** * Properties of [activate_dividend] and [activate] *)

Lemma update_status_rows status tx_hash db :
  exists db',
    update_status status tx_hash db = (Ok tt, db') /\
    issuances db' = issuances db /\ balances db' = balances db /\
    dividend_activations db' = dividend_activations db /\
    warnings db' = warnings db /\
    map d_tx_hash (dividends db') = map d_tx_hash (dividends db) /\
    (forall r, In r (dividends db') -> d_tx_hash r = tx_hash ->
               d_status r = status) /\
    (forall r, d_tx_hash r <> tx_hash ->
               (In r (dividends db') <-> In r (dividends db))).
Proof.
  eexists. split; [reflexivity|]. simpl. repeat split.
  - rewrite map_map. apply map_ext. intros r.
    destruct (String.eqb (d_tx_hash r) tx_hash); reflexivity.
  - intros r Hin Hh. apply in_map_iff in Hin. destruct Hin as (r0 & Heq & _).
    destruct (String.eqb_spec (d_tx_hash r0) tx_hash) as [He|He].
    + subst r. reflexivity.
    + subst r0. contradiction.
  - intros Hin. apply in_map_iff in Hin. destruct Hin as (r0 & Heq & Hin).
    destruct (String.eqb_spec (d_tx_hash r0) tx_hash) as [He|He].
    + subst r. simpl in H. contradiction.
    + now subst r0.
  - intros Hin. apply in_map_iff. exists r. split; [|exact Hin].
    apply String.eqb_neq in H. now rewrite H.
Qed.

(** Every call of [activate_dividend] ends in [NameError] at line 81, after
    the UPDATE: the rows of [dividends] with the dividend's hash carry the
    new status, every other row and every other table is as before, and no
    activation is recorded and nothing is credited. *)
Theorem activate_dividend_outcome cfg u dividend status block_index db :
  exists db',
    activate_dividend cfg u dividend status block_index db
    = (Raise (NameError "log"), db') /\
    issuances db' = issuances db /\ balances db' = balances db /\
    dividend_activations db' = dividend_activations db /\
    map d_tx_hash (dividends db') = map d_tx_hash (dividends db) /\
    (forall r, In r (dividends db') -> d_tx_hash r = d_tx_hash dividend ->
               d_status r = status) /\
    (forall r, d_tx_hash r <> d_tx_hash dividend ->
               (In r (dividends db') <-> In r (dividends db))).
Proof.
  destruct (update_status_rows status (d_tx_hash dividend) db)
    as (db' & Hu & Hi & Hb & Ha & _ & Hh & Hs & Ho).
  exists db'. split; [|repeat split; auto; apply Ho; assumption].
  unfold activate_dividend, bindM. rewrite Hu. reflexivity.
Qed.

(** Once [activate_dividend] has been called with the status complete, the
    query of [activate] no longer selects the dividend, at any height, and
    selects the other rows as before. *)
Theorem completed_dividend_is_no_longer_due cfg u dividend block_index db
  e db' height :
  activate_dividend cfg u dividend "complete" block_index db = (e, db') ->
  select_dividends db' "pending" height
  = filter (fun r => negb (String.eqb (d_tx_hash r) (d_tx_hash dividend)))
           (select_dividends db "pending" height).
Proof.
  unfold activate_dividend, bindM. simpl update_status. cbv beta iota.
  intros [= _ <-]. unfold select_dividends. simpl dividends.
  induction (dividends db) as [|r rows IH]; [reflexivity|].
  cbn [map filter]. rewrite IH. clear IH.
  destruct (String.eqb_spec (d_tx_hash r) (d_tx_hash dividend)) as [He|He].
  - cbn [d_status d_activate_index]. 
    change (String.eqb "complete" "pending") with false. cbn [andb].
    destruct (String.eqb (d_status r) "pending" && _); [|reflexivity].
    cbn [filter]. rewrite (proj2 (String.eqb_eq _ _) He). reflexivity.
  - destruct (String.eqb (d_status r) "pending" && _); [|reflexivity].
    cbn [filter]. rewrite (proj2 (String.eqb_neq _ _) He). reflexivity.
Qed.

Lemma completed_dividend_is_no_longer_due_witness :
  select_dividends
    (snd (activate_dividend Ledger.mainnet (Ledger.collaborators true 1201)
            Scheduled.row "complete" 1201 Scheduled.db))
    "pending" 1201
  = filter (fun r => negb (String.eqb (d_tx_hash r) (d_tx_hash Scheduled.row)))
           (select_dividends Scheduled.db "pending" 1201).
Proof.
  apply (completed_dividend_is_no_longer_due Ledger.mainnet
           (Ledger.collaborators true 1201) Scheduled.row 1201 Scheduled.db
           (Raise (NameError "log"))).
  reflexivity.
Defined.

(** [activate] never activates anything.  When [dividends], or one of the
    two columns the [SELECT] names, is missing from the schema, the database
    refuses the statement; otherwise the call ends in [NameError] at the
    [for] statement.  Either way the database is as it was, so that every
    dividend that is due stays in the table, pending. *)
Theorem activate_never_activates cfg u schema block_index db :
  activate cfg u schema block_index db
  = (Raise match Sql.find_table "dividends" schema with
           | None => OperationalError "no such table: dividends"
           | Some t =>
               if negb (Sql.has_column "status" t)
               then OperationalError "no such column: status"
               else if negb (Sql.has_column "activate_index" t)
               then OperationalError "no such column: activate_index"
               else NameError "dividend"
           end, db) /\
  forall r, In r (select_dividends db "pending" block_index) ->
            In r (dividends (snd (activate cfg u schema block_index db))) /\
            d_status r = "pending".
Proof.
  assert (Hdb : snd (activate cfg u schema block_index db) = db).
  { unfold activate, Sql.select_from.
    destruct (Sql.find_table "dividends" schema) as [t|]; [|reflexivity].
    cbn [find]. destruct (Sql.has_column "status" t); [|reflexivity].
    destruct (Sql.has_column "activate_index" t); reflexivity. }
  split.
  - unfold activate, Sql.select_from.
    destruct (Sql.find_table "dividends" schema) as [t|]; [|reflexivity].
    cbn [find]. destruct (Sql.has_column "status" t); [|reflexivity].
    destruct (Sql.has_column "activate_index" t); reflexivity.
  - intros r Hr. rewrite Hdb. unfold select_dividends in Hr.
    apply filter_In in Hr. destruct Hr as [Hin Hc].
    apply andb_true_iff in Hc. destruct Hc as [Hs _].
    split; [exact Hin|now apply String.eqb_eq].
Qed.

(** A dividend the query of [activate] selects at one height is selected at
    every later height, as long as its row is unchanged. *)
Theorem due_stays_due db status block_index later r :
  In r (select_dividends db status block_index) ->
  block_index <= later ->
  In r (select_dividends db status later).
Proof.
  unfold select_dividends. rewrite !filter_In, !andb_true_iff.
  intros (Hin & Hs & Ha) Hle. repeat split; auto.
  destruct (d_activate_index r) as [a|]; [|discriminate].
  apply Z.ltb_lt in Ha. apply Z.ltb_lt. lia.
Qed.

Lemma due_stays_due_witness :
  In Scheduled.row (select_dividends Scheduled.db "pending" 5000).
Proof.
  apply (due_stays_due Scheduled.db "pending" 1201 5000 Scheduled.row).
  - simpl. auto.
  - lia.
Defined.

(** * Properties of [initialise] *)

Lemma has_table_tables m s s' :
  Sql.tables s' = Sql.tables s -> Sql.has_table m s' = Sql.has_table m s.
Proof. unfold Sql.has_table. now intros ->. Qed.

Lemma find_table_tables m s s' :
  Sql.tables s' = Sql.tables s -> Sql.find_table m s' = Sql.find_table m s.
Proof. unfold Sql.find_table. now intros ->. Qed.

Lemma table_info_tables m s s' :
  Sql.tables s' = Sql.tables s -> Sql.table_info m s' = Sql.table_info m s.
Proof. unfold Sql.table_info, Sql.find_table. now intros ->. Qed.

Lemma has_index_indexes m s s' :
  Sql.indexes s' = Sql.indexes s -> Sql.has_index m s' = Sql.has_index m s.
Proof. unfold Sql.has_index. now intros ->. Qed.

Lemma find_table_has m s :
  Sql.has_table m s = true <-> exists t, Sql.find_table m s = Some t.
Proof.
  unfold Sql.has_table, Sql.find_table.
  induction (Sql.tables s) as [|t ts IH]; simpl.
  - split; [discriminate|intros [t H]; discriminate].
  - destruct (Sql.same_name (Sql.t_name t) m); simpl; [|exact IH].
    split; eauto.
Qed.

Lemma find_table_name m s t :
  Sql.find_table m s = Some t -> Sql.same_name (Sql.t_name t) m = true.
Proof. unfold Sql.find_table. intros H. now apply find_some in H. Qed.

Lemma find_app_some {A} (f : A -> bool) l l' a :
  find f l = Some a -> find f (l ++ l') = Some a.
Proof.
  induction l as [|x l IH]; simpl; [discriminate|].
  destruct (f x); auto.
Qed.

Lemma create_table_effect n c s s' :
  Sql.create_table_if_not_exists n c s = Sql.Done s' ->
  Sql.has_table n s' = true /\
  Sql.indexes s' = Sql.indexes s /\
  (Sql.has_table n s = true -> s' = s) /\
  (forall m, Sql.has_table m s = true -> Sql.has_table m s' = true) /\
  (forall m, Sql.same_name n m = false ->
             Sql.has_table m s' = Sql.has_table m s) /\
  (forall m, Sql.has_table m s = true ->
             Sql.table_info m s' = Sql.table_info m s) /\
  (Sql.has_table n s = false -> Sql.table_info n s' = c).
Proof.
  unfold Sql.create_table_if_not_exists.
  destruct (Sql.has_table n s) eqn:Hn.
  - intros [= <-]. repeat split; auto. discriminate.
  - destruct (Sql.has_index n s); [discriminate|]. intros [= <-].
    unfold Sql.has_table, Sql.table_info, Sql.find_table. cbn [Sql.tables Sql.indexes].
    repeat split.
    + rewrite existsb_app. simpl. unfold Sql.same_name.
      rewrite String.eqb_refl. now rewrite !orb_true_r.
    + discriminate.
    + intros m Hm. rewrite existsb_app. unfold Sql.has_table in Hm.
      now rewrite Hm.
    + intros m Hm. rewrite existsb_app. simpl. rewrite Hm.
      now rewrite !orb_false_r.
    + intros m Hm. apply find_table_has in Hm. destruct Hm as [t Ht].
      unfold Sql.find_table in Ht. rewrite (find_app_some _ _ _ _ Ht).
      now rewrite Ht.
    + intros _. unfold Sql.has_table in Hn.
      assert (Hnone : find (fun t => Sql.same_name (Sql.t_name t) n)
                        (Sql.tables s) = None).
      { destruct (find _ (Sql.tables s)) as [t|] eqn:Hf; [|reflexivity].
        apply find_some in Hf. destruct Hf as [Hin Hf].
        assert (existsb (fun t => Sql.same_name (Sql.t_name t) n)
                  (Sql.tables s) = true)
          by (apply existsb_exists; eauto).
        congruence. }
      clear Hn. induction (Sql.tables s) as [|t ts IH]; simpl in *.
      * unfold Sql.same_name. now rewrite String.eqb_refl.
      * destruct (Sql.same_name (Sql.t_name t) n); [discriminate|auto].
Qed.

Lemma create_index_effect n t c s s' :
  Sql.create_index_if_not_exists n t c s = Sql.Done s' ->
  Sql.tables s' = Sql.tables s /\
  Sql.has_table t s = true /\
  Sql.has_table n s = false /\
  Sql.has_index n s' = true /\
  (Sql.has_index n s = true -> s' = s) /\
  (forall m, Sql.has_index m s = true -> Sql.has_index m s' = true) /\
  (forall x, In x (Sql.indexes s') ->
             In x (Sql.indexes s) \/ Sql.same_name (Sql.x_table x) t = true).
Proof.
  unfold Sql.create_index_if_not_exists.
  destruct (Sql.find_table t s) as [tb|] eqn:Ht; [|discriminate].
  assert (Hhas : Sql.has_table t s = true) by (apply find_table_has; eauto).
  destruct (Sql.has_table n s) eqn:Hn; [discriminate|].
  destruct (Sql.has_index n s) eqn:Hx.
  - intros [= <-]. repeat split; auto.
  - destruct (find _ c); [discriminate|]. intros [= <-].
    unfold Sql.has_index. cbn [Sql.tables Sql.indexes].
    repeat split; auto.
    + rewrite existsb_app. simpl. unfold Sql.same_name.
      rewrite String.eqb_refl. now rewrite !orb_true_r.
    + discriminate.
    + intros m Hm. rewrite existsb_app. unfold Sql.has_index in Hm.
      now rewrite Hm.
    + intros x Hin. apply in_app_or in Hin. destruct Hin as [Hin|[<-|[]]].
      * now left.
      * right. simpl. now apply find_table_name in Ht.
Qed.

Lemma create_index_settled n t c s :
  Sql.has_table t s = true -> Sql.has_table n s = false ->
  Sql.has_index n s = true ->
  Sql.create_index_if_not_exists n t c s = Sql.Done s.
Proof.
  intros Ht Hn Hx. unfold Sql.create_index_if_not_exists.
  apply find_table_has in Ht. destruct Ht as [tb ->].
  now rewrite Hn, Hx.
Qed.

Lemma has_table_add_column m tbl column ts :
  existsb (fun t => Sql.same_name (Sql.t_name t) m)
    (Sql.add_column tbl column ts)
  = existsb (fun t => Sql.same_name (Sql.t_name t) m) ts.
Proof.
  induction ts as [|t ts IH]; simpl; [reflexivity|].
  destruct (Sql.same_name (Sql.t_name t) tbl); simpl; [reflexivity|].
  now rewrite IH.
Qed.

Lemma find_add_column tbl column ts t :
  find (fun t => Sql.same_name (Sql.t_name t) tbl) ts = Some t ->
  find (fun t => Sql.same_name (Sql.t_name t) tbl)
    (Sql.add_column tbl column ts)
  = Some {| Sql.t_name := Sql.t_name t;
            Sql.t_columns := Sql.t_columns t ++ [column] |}.
Proof.
  induction ts as [|t0 ts IH]; simpl; [discriminate|].
  destruct (Sql.same_name (Sql.t_name t0) tbl) eqn:E; simpl.
  - intros [= <-]. now rewrite E.
  - intros H. rewrite E. auto.
Qed.

Lemma alter_table_effect tbl column s s' :
  Sql.alter_table_add_column tbl column s = Sql.Done s' ->
  Sql.indexes s' = Sql.indexes s /\
  (forall m, Sql.has_table m s' = Sql.has_table m s) /\
  Sql.table_info tbl s' = Sql.table_info tbl s ++ [column].
Proof.
  unfold Sql.alter_table_add_column.
  destruct (Sql.find_table tbl s) as [t|] eqn:Ht; [|discriminate].
  destruct (Sql.has_column column t); [discriminate|]. intros [= <-].
  repeat split.
  - intros m. unfold Sql.has_table. cbn [Sql.tables].
    apply has_table_add_column.
  - unfold Sql.table_info. rewrite Ht. unfold Sql.find_table in *.
    cbn [Sql.tables]. now rewrite (find_add_column _ _ _ _ Ht).
Qed.

Lemma in_list_app x l l' : in_list x (l ++ l') = in_list x l || in_list x l'.
Proof. apply existsb_app. Qed.

Lemma initialise_inv u s s' :
  initialise u s = Sql.Done s' ->
  settled (util.enabled u "scheduled_dividends") s' /\
  (forall x, In x (Sql.indexes s') ->
             In x (Sql.indexes s) \/
             Sql.same_name (Sql.x_table x) "dividends" = true) /\
  (Sql.has_table "dividends" s = false ->
   Sql.table_info "dividends" s'
   = dividends_columns ++
     (if util.enabled u "scheduled_dividends" then ["activate_index"] else [])).
Proof.
  unfold initialise.
  destruct (Sql.create_table_if_not_exists "dividends" _ s) as [s1|] eqn:E1;
    [|discriminate]. cbn [Sql.bind].
  destruct (Sql.create_index_if_not_exists "block_index_idx" _ _ s1)
    as [s2|] eqn:E2; [|discriminate]. cbn [Sql.bind].
  destruct (Sql.create_index_if_not_exists "source_idx" _ _ s2)
    as [s3|] eqn:E3; [|discriminate]. cbn [Sql.bind].
  destruct (Sql.create_index_if_not_exists "asset_idx" _ _ s3)
    as [s4|] eqn:E4; [|discriminate]. cbn [Sql.bind].
  apply create_table_effect in E1.
  destruct E1 as (T1 & X1 & _ & _ & N1 & _ & C1).
  apply create_index_effect in E2.
  destruct E2 as (T2 & _ & N2 & X2 & _ & M2 & O2).
  apply create_index_effect in E3.
  destruct E3 as (T3 & _ & N3 & X3 & _ & M3 & O3).
  apply create_index_effect in E4.
  destruct E4 as (T4 & _ & N4 & X4 & _ & M4 & O4).
  assert (HT : forall m, Sql.has_table m s4 = Sql.has_table m s1).
  { intros m. rewrite (has_table_tables m _ _ T4), (has_table_tables m _ _ T3).
    apply has_table_tables, T2. }
  assert (HC : forall m, Sql.table_info m s4 = Sql.table_info m s1).
  { intros m. rewrite (table_info_tables m _ _ T4), (table_info_tables m _ _ T3).
    apply table_info_tables, T2. }
  assert (O : forall x, In x (Sql.indexes s4) ->
                        In x (Sql.indexes s) \/
                        Sql.same_name (Sql.x_table x) "dividends" = true).
  { intros x Hx. rewrite <- X1.
    destruct (O4 x Hx) as [H|H]; [|now right].
    destruct (O3 x H) as [H'|H']; [|now right]. exact (O2 x H'). }
  assert (B4 : Sql.has_table "block_index_idx" s4 = false)
    by (now rewrite HT).
  assert (S4 : Sql.has_table "source_idx" s4 = false)
    by (now rewrite (has_table_tables _ _ _ T4), (has_table_tables _ _ _ T3)).
  assert (A4 : Sql.has_table "asset_idx" s4 = false)
    by (now rewrite (has_table_tables _ _ _ T4)).
  assert (D4 : Sql.has_table "dividends" s4 = true) by (now rewrite HT).
  pose proof (M4 _ (M3 _ X2)) as XB4. pose proof (M4 _ X3) as XS4.
  clear T2 T3 T4 N2 N3 N4 M2 M3 M4 O2 O3 O4 X2 X3 s2 s3.
  destruct (util.enabled u "scheduled_dividends").
  - match goal with |- Sql.bind _ ?k = _ -> _ => set (rest := k) end.
    intros H.
    assert (exists s5,
              rest s5 = Sql.Done s' /\
              Sql.indexes s5 = Sql.indexes s4 /\
              (forall m, Sql.has_table m s5 = Sql.has_table m s4) /\
              in_list "activate_index" (Sql.table_info "dividends" s5) = true /\
              (Sql.has_table "dividends" s = false ->
               Sql.table_info "dividends" s5
               = dividends_columns ++ ["activate_index"]))
      as (s5 & H5 & X5 & T5 & I5 & C5).
    { destruct (negb (in_list "activate_index" (Sql.table_info "dividends" s4)))
        eqn:Hin.
      - destruct (Sql.alter_table_add_column "dividends" "activate_index" s4)
          as [s5|] eqn:E5; [|discriminate]. cbn [Sql.bind] in H.
        apply alter_table_effect in E5. destruct E5 as (X5 & T5 & C5).
        exists s5. repeat split; auto.
        + rewrite C5, in_list_app. apply orb_true_r.
        + intros Hs. rewrite C5, HC, (C1 Hs). reflexivity.
      - cbn [Sql.bind] in H. exists s4. apply negb_false_iff in Hin.
        repeat split; auto.
        intros Hs. rewrite HC, (C1 Hs) in Hin. discriminate Hin. }
    clear H. unfold rest in H5. clear rest.
    destruct (Sql.create_index_if_not_exists "activate_idx" _ _ s5)
      as [s6|] eqn:E6; [|discriminate]. cbn [Sql.bind] in H5.
    destruct (Sql.create_table_if_not_exists "dividend_activations" _ s6)
      as [s7|] eqn:E7; [|discriminate]. cbn [Sql.bind] in H5.
    destruct (Sql.create_index_if_not_exists "block_index_idx" _ _ s7)
      as [s8|] eqn:E8; [|discriminate]. cbn [Sql.bind] in H5.
    apply create_index_effect in E6.
    destruct E6 as (T6 & _ & N6 & X6 & _ & M6 & O6).
    apply create_table_effect in E7.
    destruct E7 as (T7 & X7 & _ & M7 & N7 & C7 & _).
    assert (XB7 : Sql.has_index "block_index_idx" s7 = true).
    { rewrite (has_index_indexes _ _ _ X7). apply M6.
      now rewrite (has_index_indexes _ _ _ X5). }
    assert (XS7 : Sql.has_index "source_idx" s7 = true).
    { rewrite (has_index_indexes _ _ _ X7). apply M6.
      now rewrite (has_index_indexes _ _ _ X5). }
    apply create_index_effect in E8. destruct E8 as (_ & _ & _ & _ & F8 & _).
    rewrite (F8 XB7) in *. clear F8 s8.
    apply create_index_effect in H5. destruct H5 as (_ & _ & _ & _ & F9 & _).
    rewrite (F9 XS7) in *. clear F9 s'.
    assert (HT6 : forall m, Sql.has_table m s6 = Sql.has_table m s4).
    { intros m. rewrite (has_table_tables m _ _ T6). apply T5. }
    assert (D6 : Sql.has_table "dividends" s6 = true) by (now rewrite HT6).
    assert (C6 : Sql.table_info "dividends" s7 = Sql.table_info "dividends" s5).
    { rewrite (C7 _ D6). apply table_info_tables, T6. }
    repeat split.
    + apply M7, D6.
    + rewrite N7, HT6; [exact B4|reflexivity].
    + exact XB7.
    + rewrite N7, HT6; [exact S4|reflexivity].
    + exact XS7.
    + rewrite N7, HT6; [exact A4|reflexivity].
    + rewrite (has_index_indexes _ _ _ X7). apply M6.
      now rewrite (has_index_indexes _ _ _ X5).
    + now rewrite C6.
    + rewrite N7; [|reflexivity]. rewrite (has_table_tables _ _ _ T6).
      exact N6.
    + rewrite (has_index_indexes _ _ _ X7). exact X6.
    + exact T7.
    + intros x Hx. rewrite X7 in Hx. destruct (O6 x Hx) as [H|H]; [|now right].
      rewrite X5 in H. exact (O x H).
    + intros Hs. rewrite C6. exact (C5 Hs).
  - intros [= <-]. repeat split; auto; try discriminate.
    intros Hs. rewrite HC, (C1 Hs). reflexivity.
Qed.

Lemma settled_is_fixed u s :
  settled (util.enabled u "scheduled_dividends") s -> initialise u s = Sql.Done s.
Proof.
  intros (D & (NB & XB) & (NS & XS) & (NA & XA) & Sch).
  unfold initialise. unfold Sql.create_table_if_not_exists at 1.
  rewrite D. cbn [Sql.bind].
  rewrite (create_index_settled _ _ _ _ D NB XB). cbn [Sql.bind].
  rewrite (create_index_settled _ _ _ _ D NS XS). cbn [Sql.bind].
  rewrite (create_index_settled _ _ _ _ D NA XA). cbn [Sql.bind].
  destruct (util.enabled u "scheduled_dividends"); [|reflexivity].
  destruct (Sch eq_refl) as (I & (NV & XV) & DA).
  rewrite I. cbn [negb Sql.bind].
  rewrite (create_index_settled _ _ _ _ D NV XV). cbn [Sql.bind].
  unfold Sql.create_table_if_not_exists. rewrite DA. cbn [Sql.bind].
  rewrite (create_index_settled _ _ _ _ DA NB XB). cbn [Sql.bind].
  apply (create_index_settled _ _ _ _ DA NS XS).
Qed.

(** [initialise] leaves a schema as it is exactly when the schema is
    settled: the [dividends] table and the indexes [block_index_idx],
    [source_idx] and [asset_idx] exist, no table bears an index's name,
    and, with scheduled dividends enabled, [activate_index] is a column of
    [dividends] and [activate_idx] and [dividend_activations] exist. *)
Theorem initialise_fixed_points u s :
  initialise u s = Sql.Done s <->
  settled (util.enabled u "scheduled_dividends") s.
Proof.
  split.
  - intros H. now apply initialise_inv in H.
  - apply settled_is_fixed.
Qed.

(** Running [initialise] again on the schema a successful run has made
    changes nothing and raises nothing. *)
Theorem initialise_idempotent u s s' :
  initialise u s = Sql.Done s' -> initialise u s' = Sql.Done s'.
Proof.
  intros H. apply settled_is_fixed. now apply initialise_inv in H.
Qed.

Lemma initialise_idempotent_witness :
  initialise (Ledger.collaborators true 1000) Schema.fresh
  = Sql.Done Schema.fresh.
Proof.
  apply (initialise_idempotent (Ledger.collaborators true 1000) Sql.empty).
  reflexivity.
Defined.

(** Every index [initialise] adds belongs to the [dividends] table: the
    two [CREATE INDEX IF NOT EXISTS] statements on [dividend_activations]
    use the names [block_index_idx] and [source_idx], which exist by then,
    and add nothing. *)
Theorem initialise_indexes_on_dividends u s s' x :
  initialise u s = Sql.Done s' ->
  In x (Sql.indexes s') ->
  In x (Sql.indexes s) \/ Sql.same_name (Sql.x_table x) "dividends" = true.
Proof.
  intros H. apply initialise_inv in H. destruct H as (_ & H & _). apply H.
Qed.

Lemma initialise_indexes_on_dividends_witness :
  In {| Sql.x_name := "source_idx"; Sql.x_table := "dividends";
        Sql.x_columns := ["source"] |} (Sql.indexes Sql.empty) \/
  Sql.same_name "dividends" "dividends" = true.
Proof.
  apply (initialise_indexes_on_dividends (Ledger.collaborators true 1000)
           Sql.empty Schema.fresh
           {| Sql.x_name := "source_idx"; Sql.x_table := "dividends";
              Sql.x_columns := ["source"] |}).
  - reflexivity.
  - simpl. auto.
Defined.

(** When [initialise] creates the [dividends] table itself, the table has
    the nine columns of the [CREATE TABLE] statement, followed by
    [activate_index] exactly when scheduled dividends are enabled. *)
Theorem initialise_fresh_columns u s s' :
  Sql.has_table "dividends" s = false ->
  initialise u s = Sql.Done s' ->
  Sql.table_info "dividends" s'
  = dividends_columns ++
    (if util.enabled u "scheduled_dividends" then ["activate_index"] else []).
Proof.
  intros Hs H. apply initialise_inv in H. destruct H as (_ & _ & H). auto.
Qed.

Lemma initialise_fresh_columns_witness :
  Sql.table_info "dividends" Schema.fresh
  = dividends_columns ++
    (if util.enabled (Ledger.collaborators true 1000) "scheduled_dividends"
     then ["activate_index"] else []).
Proof.
  apply (initialise_fresh_columns (Ledger.collaborators true 1000) Sql.empty).
  - reflexivity.
  - reflexivity.
Defined.

(** The column test is exact while SQLite's is not: when [dividends] has
    the column [activate_index] under another spelling, [initialise] with
    scheduled dividends enabled issues [ALTER TABLE], which SQLite refuses,
    and [initialise] raises. *)
Theorem initialise_respelled_column_raises u s t :
  util.enabled u "scheduled_dividends" = true ->
  Sql.find_table "dividends" s = Some t ->
  in_list "activate_index" (Sql.t_columns t) = false ->
  Sql.has_column "activate_index" t = true ->
  exists message, initialise u s = Sql.SQLError message.
Proof.
  intros He Ht Hin Hcol.
  assert (D : Sql.has_table "dividends" s = true)
    by (apply find_table_has; eauto).
  unfold initialise. unfold Sql.create_table_if_not_exists at 1.
  rewrite D. cbn [Sql.bind].
  destruct (Sql.create_index_if_not_exists "block_index_idx" _ _ s)
    as [s2|m] eqn:E2; [|eexists; reflexivity]. cbn [Sql.bind].
  destruct (Sql.create_index_if_not_exists "source_idx" _ _ s2)
    as [s3|m] eqn:E3; [|eexists; reflexivity]. cbn [Sql.bind].
  destruct (Sql.create_index_if_not_exists "asset_idx" _ _ s3)
    as [s4|m] eqn:E4; [|eexists; reflexivity]. cbn [Sql.bind].
  apply create_index_effect in E2, E3, E4.
  destruct E2 as (T2 & _). destruct E3 as (T3 & _). destruct E4 as (T4 & _).
  assert (F : Sql.find_table "dividends" s4 = Some t).
  { rewrite (find_table_tables _ _ _ T4), (find_table_tables _ _ _ T3),
      (find_table_tables _ _ _ T2). exact Ht. }
  rewrite He. unfold Sql.table_info. rewrite F, Hin. cbn [negb].
  unfold Sql.alter_table_add_column. rewrite F, Hcol. cbn [Sql.bind].
  eexists. reflexivity.
Qed.

Lemma initialise_respelled_column_raises_witness :
  exists message,
    initialise (Ledger.collaborators true 1000) Schema.respelled
    = Sql.SQLError message.
Proof.
  apply (initialise_respelled_column_raises (Ledger.collaborators true 1000)
           Schema.respelled Schema.respelled_table); reflexivity.
Defined.

Example initialise_respelled :
  initialise (Ledger.collaborators true 1000) Schema.respelled
  = Sql.SQLError "duplicate column name: activate_index" /\
  initialise (Ledger.collaborators false 1000) Schema.respelled
  = Sql.Done
      {| Sql.tables := [Schema.respelled_table];
         Sql.indexes :=
           [{| Sql.x_name := "block_index_idx"; Sql.x_table := "dividends";
               Sql.x_columns := ["block_index"] |};
            {| Sql.x_name := "source_idx"; Sql.x_table := "dividends";
               Sql.x_columns := ["source"] |};
            {| Sql.x_name := "asset_idx"; Sql.x_table := "dividends";
               Sql.x_columns := ["asset"] |}] |}.
Proof. split; reflexivity. Qed.

(** * [initialise], then [activate] *)

(** On a [dividends] table that [initialise] has created, what ends
    [activate] depends on the feature at the time of [initialise]: with
    scheduled dividends enabled the [SELECT] is accepted and the call ends
    in [NameError]; with the feature off the table has no [activate_index]
    and the database refuses the [SELECT]. *)
Theorem activate_after_initialise cfg u u' s s' block_index db :
  Sql.has_table "dividends" s = false ->
  initialise u s = Sql.Done s' ->
  activate cfg u' s' block_index db
  = (Raise (if util.enabled u "scheduled_dividends"
            then NameError "dividend"
            else OperationalError "no such column: activate_index"), db).
Proof.
  intros Hs H. apply initialise_inv in H. destruct H as ((D & _) & _ & C).
  specialize (C Hs). apply find_table_has in D. destruct D as [t Ht].
  unfold Sql.table_info in C. rewrite Ht in C.
  unfold activate, Sql.select_from. rewrite Ht. unfold Sql.has_column.
  rewrite C. destruct (util.enabled u "scheduled_dividends"); reflexivity.
Qed.

Lemma activate_after_initialise_witness :
  activate Ledger.mainnet (Ledger.collaborators true 1201) Schema.plain 1201
    (Ledger.db 5)
  = (Raise (OperationalError "no such column: activate_index"), Ledger.db 5).
Proof.
  exact (activate_after_initialise Ledger.mainnet
           (Ledger.collaborators false 1000) (Ledger.collaborators true 1201)
           Sql.empty Schema.plain 1201 (Ledger.db 5) eq_refl eq_refl).
Defined.
